(** * Conversation structuring and analysis pipeline: a shallow embedding

  The development embeds, function by function, the decision logic of

  - [src/gemini_conversation_extractor.py] ([extract_conversation_content]),
  - [src/cli_gemini_extractor.py] ([extract_conversation]),
  - [src/enhanced_gemini_extractor.py] ([parse_conversation_structure],
    [extract_user_message], [extract_model_response],
    [clean_response_content], [html_to_markdown], [extract_timestamp],
    the record built by [save_structured_conversation]),
  - [src/conversation_analyzer.py] ([analyze_conversation],
    [extract_technical_terms], [extract_topics], [generate_insights],
    [generate_summary_report]),

  and states the properties of the specification over these definitions.

  Conventions.  A Python [str] is a Rocq [string] whose characters are the
  code points 0..255 (Latin-1); [str.strip], [str.lower] and the regular
  expression classes are the Python ones restricted to that range.  The
  extraction of technical terms, whose case-insensitive matching reaches
  beyond Latin-1, is embedded on lists of arbitrary code points as well
  ([UnicodeTerms]) and related to the Latin-1 one.  A Python
  [int] is a [nat] where the code only counts and a [Z] where it is read from
  JSON.  A Python [float] obtained by dividing two integers is the exact
  quotient in [Q]: the double nearest to it compares with the thresholds of
  the code exactly as the quotient does for every count below 2^50.  An
  awaited browser call that may raise returns an [outcome]. *)

From Stdlib Require Import String Ascii List Bool Arith ZArith QArith Lia.
From Stdlib Require Import Permutation Sorted.
Import ListNotations.
Local Open Scope string_scope.
Local Open Scope list_scope.
Local Open Scope nat_scope.

(* ================================================================= *)
(** ** Python string operations *)

Module PyStr.

(** The double quote character, for selectors that contain one. *)
Definition dq : string := String (ascii_of_nat 34) "".

(** The line feed. *)
Definition nl : string := String (ascii_of_nat 10) "".

(** [str.isspace] on one character: TAB..CR, FS..US, space, NEL, NBSP.
    This is also the class [\s] of [re] on [str] patterns. *)
Definition isspace (c : ascii) : bool :=
  let n := nat_of_ascii c in
  ((9 <=? n) && (n <=? 13)) || ((28 <=? n) && (n <=? 32))
  || (n =? 133) || (n =? 160).

Definition is_empty (s : string) : bool :=
  match s with EmptyString => true | String _ _ => false end.

Fixpoint lstrip (s : string) : string :=
  match s with
  | EmptyString => EmptyString
  | String c r => if isspace c then lstrip r else s
  end.

Fixpoint rstrip (s : string) : string :=
  match s with
  | EmptyString => EmptyString
  | String c r =>
      let r' := rstrip r in
      if isspace c && is_empty r' then EmptyString else String c r'
  end.

(** [s.strip()] *)
Definition strip (s : string) : string := rstrip (lstrip s).

(** [str.lower] on one character: A..Z and the Latin-1 capitals. *)
Definition lower_char (c : ascii) : ascii :=
  let n := nat_of_ascii c in
  if ((65 <=? n) && (n <=? 90))
     || ((192 <=? n) && (n <=? 222) && negb (n =? 215))
  then ascii_of_nat (n + 32) else c.

(** [str.upper] on one ASCII character.  The analyzer applies [upper] to
    the matches of its patterns; on a content within Latin-1 these are
    made of ASCII characters.  Beyond Latin-1 a match can hold U+0130,
    U+0131, U+017F or U+212A: see [UnicodeTerms]. *)
Definition upper_char (c : ascii) : ascii :=
  let n := nat_of_ascii c in
  if (97 <=? n) && (n <=? 122) then ascii_of_nat (n - 32) else c.

Fixpoint map_chars (f : ascii -> ascii) (s : string) : string :=
  match s with
  | EmptyString => EmptyString
  | String c r => String (f c) (map_chars f r)
  end.

Definition lower : string -> string := map_chars lower_char.
Definition upper : string -> string := map_chars upper_char.

(** [needle in hay] *)
Fixpoint contains (needle hay : string) : bool :=
  prefix needle hay
  || match hay with
     | EmptyString => false
     | String _ r => contains needle r
     end.

Fixpoint last_char (s : string) : option ascii :=
  match s with
  | EmptyString => None
  | String c EmptyString => Some c
  | String _ r => last_char r
  end.

(** [s.endswith(c)] for a one-character suffix. *)
Definition endswith_char (c : ascii) (s : string) : bool :=
  match last_char s with
  | Some d => Ascii.eqb c d
  | None => false
  end.

(** [s.count(c)] for a one-character needle. *)
Fixpoint count_char (c : ascii) (s : string) : nat :=
  match s with
  | EmptyString => 0
  | String d r => (if Ascii.eqb c d then 1 else 0) + count_char c r
  end.

(** [sep.join(parts)] *)
Fixpoint join (sep : string) (parts : list string) : string :=
  match parts with
  | [] => EmptyString
  | [p] => p
  | p :: rest => p ++ sep ++ join sep rest
  end.

(** [s[:n]] *)
Definition take (n : nat) (s : string) : string := substring 0 n s.

(** Truth value of an optional string: [None] and [''] are false. *)
Definition truthy (o : option string) : bool :=
  match o with
  | Some s => negb (is_empty s)
  | None => false
  end.

(** [o or ''] *)
Definition or_empty (o : option string) : string :=
  match o with
  | Some s => s
  | None => EmptyString
  end.

(** [any(indicator in haystack for indicator in indicators)] *)
Definition any_in (indicators : list string) (hay : string) : bool :=
  existsb (fun indicator => contains indicator hay) indicators.

End PyStr.

(* ================================================================= *)
(** ** The browser page as the extractors see it *)

Module Playwright.

(** The result of an awaited call: a value, or an exception. *)
Inductive outcome (A : Type) : Type :=
| Returned (a : A)
| Raised.
Arguments Returned {A} a.
Arguments Raised {A}.

(** An element handle, by the answers it gives to the calls the extractors
    make on it.  [timestamp_text] is the call
    [query_selector('[data-testid*=timestamp], .timestamp, time')]
    followed, when an element is found, by its [text_content()]. *)
#[local] Unset Elimination Schemes.
Inductive ElementHandle : Type := mkElementHandle {
  text_content : outcome (option string);
  inner_html : outcome string;
  get_attribute_class : outcome (option string);
  timestamp_text : outcome (option (outcome (option string)));
  query_selector_all_div : outcome (list ElementHandle)
}.

#[local] Set Elimination Schemes.

Record Page : Type := mkPage {
  query_selector_all : string -> outcome (list ElementHandle);
  query_selector : string -> outcome (option ElementHandle)
}.

End Playwright.

(* ================================================================= *)
(** ** [gemini_conversation_extractor.py]: [extract_conversation_content] *)

Module GeminiExtractor.
Import PyStr Playwright.

(** One entry of [messages] (the dict [message_data]). *)
Record message_data : Type := mkMessage {
  index : nat;
  type : string;
  content : string;
  timestamp : string;
  html : string
}.

(** The part of [raw_data] that depends on the extracted messages. *)
Record raw_data : Type := mkRawData {
  messages_count : nat;
  messages : list message_data
}.

Definition message_selectors : list string :=
  [ ("[data-testid*=" ++ dq ++ "message" ++ dq ++ "]")%string;
    ("[data-testid*=" ++ dq ++ "chat" ++ dq ++ "]")%string;
    ".message";
    ".chat-message";
    ".conversation-turn";
    "article";
    ".user-message";
    ".ai-message";
    ("div[role=" ++ dq ++ "article" ++ dq ++ "]")%string;
    "div[data-message-id]" ].

Definition main_selectors : list string :=
  [ "main"; ".main-content"; ".conversation"; ".chat-container" ].

Definition user_indicators : list string := [ "user"; "human"; "you" ].
Definition ai_indicators : list string := [ "ai"; "assistant"; "gemini"; "bot" ].

(** The loop over [message_selectors]: the first selector whose query
    returns more than one element wins; a query that raises is skipped. *)
Fixpoint try_selectors (page : Page) (selectors : list string)
  : list ElementHandle :=
  match selectors with
  | [] => []
  | selector :: rest =>
      match query_selector_all page selector with
      | Returned elements =>
          if 1 <? length elements then elements
          else try_selectors page rest
      | Raised => try_selectors page rest
      end
  end.

(** [text and len(text.strip()) > 20] *)
Definition substantial_text (text : option string) : bool :=
  match text with
  | Some t => negb (is_empty t) && (20 <? String.length (strip t))
  | None => false
  end.

(** The inner loop [for div in divs] of the fallback.  The boolean tells
    whether [text_content()] raised, which leaves the whole [try] block with
    the elements appended so far. *)
Fixpoint scan_divs (divs : list ElementHandle) (acc : list ElementHandle)
  : list ElementHandle * bool :=
  match divs with
  | [] => (acc, false)
  | div :: rest =>
      match text_content div with
      | Raised => (acc, true)
      | Returned text =>
          scan_divs rest (if substantial_text text then acc ++ [div] else acc)
      end
  end.

(** The loop [for main_selector in main_selectors], inside one [try]. *)
Fixpoint scan_main (page : Page) (selectors : list string)
  (acc : list ElementHandle) : list ElementHandle :=
  match selectors with
  | [] => acc
  | main_selector :: rest =>
      match query_selector page main_selector with
      | Raised => acc
      | Returned None => scan_main page rest acc
      | Returned (Some main_element) =>
          match query_selector_all_div main_element with
          | Raised => acc
          | Returned divs =>
              let '(acc', raised) := scan_divs divs acc in
              if raised then acc'
              else match acc' with
                   | [] => scan_main page rest acc'
                   | _ :: _ => acc'
                   end
          end
      end
  end.

(** [message_elements] as it stands before the extraction loop. *)
Definition find_message_elements (page : Page) : list ElementHandle :=
  match try_selectors page message_selectors with
  | [] => scan_main page main_selectors []
  | elements => elements
  end.

(** [not text_content or len(text_content.strip()) < 10] *)
Definition too_short (text : option string) : bool :=
  negb (truthy text) || (String.length (strip (or_empty text)) <? 10).

(** [any(indicator in element_html.lower()
         or indicator in element_classes.lower()
         for indicator in indicators)] *)
Definition has_indicator (indicators : list string)
  (element_html element_classes : string) : bool :=
  existsb (fun indicator =>
             contains indicator (lower element_html)
             || contains indicator (lower element_classes))
          indicators.

(** The guess from the content:
    [text_content.strip().endswith('?') or len(text_content.strip()) < 100] *)
Definition looks_like_question (text_content : string) : bool :=
  endswith_char "?" (strip text_content)
  || (String.length (strip text_content) <? 100).

(** Lines 675-693: the sender classification. *)
Definition classify (element_html element_classes text_content : string)
  : string :=
  if has_indicator user_indicators element_html element_classes then "user"
  else if has_indicator ai_indicators element_html element_classes then "ai"
  else if looks_like_question text_content then "user"
  else "ai".

(** The [try] block that looks for a timestamp, then
    [timestamp_text.strip() if timestamp_text else ''] *)
Definition timestamp_of (element : ElementHandle) : string :=
  match timestamp_text element with
  | Returned (Some (Returned (Some t))) =>
      if is_empty t then EmptyString else strip t
  | _ => EmptyString
  end.

(** [element_html[:500] if len(element_html) < 500
     else element_html[:500] + '...'] *)
Definition html_excerpt (element_html : string) : string :=
  if String.length element_html <? 500 then take 500 element_html
  else (take 500 element_html ++ "...")%string.

(** The body of [for i, element in enumerate(message_elements)]:
    [None] when the element is skipped ([continue], or an exception). *)
Definition extract_message (i : nat) (element : ElementHandle)
  : option message_data :=
  match text_content element with
  | Raised => None
  | Returned text =>
      if too_short text then None
      else
        match inner_html element with
        | Raised => None
        | Returned element_html =>
            match get_attribute_class element with
            | Raised => None
            | Returned class =>
                let element_classes := or_empty class in
                let message_type :=
                  classify element_html element_classes (or_empty text) in
                Some {| index := i;
                        type := message_type;
                        content := strip (or_empty text);
                        timestamp := timestamp_of element;
                        html := html_excerpt element_html |}
            end
        end
  end.

Fixpoint extract_from (i : nat) (elements : list ElementHandle)
  : list message_data :=
  match elements with
  | [] => []
  | element :: rest =>
      match extract_message i element with
      | Some message => message :: extract_from (S i) rest
      | None => extract_from (S i) rest
      end
  end.

Definition extract_messages (page : Page) : list message_data :=
  extract_from 0 (find_message_elements page).

Definition extract_conversation_content (page : Page) : raw_data :=
  let messages := extract_messages page in
  {| messages_count := length messages; messages := messages |}.

End GeminiExtractor.

(* ================================================================= *)
(** ** [cli_gemini_extractor.py]: [extract_conversation] *)

Module CliExtractor.
Import PyStr Playwright.

Record message_data : Type := mkMessage {
  index : nat;
  type : string;
  content : string;
  length : nat
}.

Record raw_data : Type := mkRawData {
  messages_count : nat;
  messages : list message_data
}.

Definition message_selectors : list string :=
  [ ("[data-testid*=" ++ dq ++ "message" ++ dq ++ "]")%string;
    ("[data-testid*=" ++ dq ++ "chat" ++ dq ++ "]")%string;
    ".message";
    ".chat-message";
    "article";
    ("div[role=" ++ dq ++ "article" ++ dq ++ "]")%string ].

(** The selector loop is the one of the other extractor, over this list. *)
Definition try_selectors := GeminiExtractor.try_selectors.

(** [for div in text_divs], each [text_content()] in its own [try]. *)
Fixpoint scan_divs (divs : list ElementHandle) : list ElementHandle :=
  match divs with
  | [] => []
  | div :: rest =>
      match text_content div with
      | Raised => scan_divs rest
      | Returned text =>
          if GeminiExtractor.substantial_text text then div :: scan_divs rest
          else scan_divs rest
      end
  end.

(** [message_elements] before the extraction loop; the two queries on [main]
    are not guarded, so that an exception leaves the command. *)
Definition find_message_elements (page : Page)
  : outcome (list ElementHandle) :=
  match try_selectors page message_selectors with
  | [] =>
      match query_selector page "main" with
      | Raised => Raised
      | Returned None => Returned []
      | Returned (Some main_element) =>
          match query_selector_all_div main_element with
          | Raised => Raised
          | Returned text_divs => Returned (scan_divs text_divs)
          end
      end
  | elements => Returned elements
  end.

(** [any(indicator in element_html.lower() for indicator in indicators)] *)
Definition has_indicator (indicators : list string) (element_html : string)
  : bool :=
  any_in indicators (lower element_html).

(** Lines 620-634: the sender classification, on the markup only. *)
Definition classify (element_html text_content : string) : string :=
  if has_indicator GeminiExtractor.user_indicators element_html then "user"
  else if has_indicator GeminiExtractor.ai_indicators element_html then "ai"
  else if GeminiExtractor.looks_like_question text_content then "user"
  else "ai".

Definition extract_message (i : nat) (element : ElementHandle)
  : option message_data :=
  match text_content element with
  | Raised => None
  | Returned text =>
      if GeminiExtractor.too_short text then None
      else
        match inner_html element with
        | Raised => None
        | Returned element_html =>
            Some {| index := i;
                    type := classify element_html (or_empty text);
                    content := strip (or_empty text);
                    length := String.length (strip (or_empty text)) |}
        end
  end.

Fixpoint extract_from (i : nat) (elements : list ElementHandle)
  : list message_data :=
  match elements with
  | [] => []
  | element :: rest =>
      match extract_message i element with
      | Some message => message :: extract_from (S i) rest
      | None => extract_from (S i) rest
      end
  end.

(** [for i, element in enumerate(message_elements[:50])] *)
Definition extract_messages (page : Page) : outcome (list message_data) :=
  match find_message_elements page with
  | Raised => Raised
  | Returned message_elements =>
      Returned (extract_from 0 (firstn 50 message_elements))
  end.

End CliExtractor.

(* ================================================================= *)
(** ** [enhanced_gemini_extractor.py]: the structured extractor *)

Module Enhanced.
Import PyStr Playwright.

(** The parsed document ([BeautifulSoup(html_content, 'html.parser')]):
    tags with their attributes and contents, and text nodes. *)
#[local] Unset Elimination Schemes.
Inductive Node : Type :=
| Tag (name : string) (attrs : list (string * string)) (contents : list Node)
| NavigableString (text : string).
#[local] Set Elimination Schemes.

(** What the code takes from its libraries: the serialiser [str(element)] of
    BeautifulSoup, the converter of markitdown ([None] when the import
    failed, [Raised] when the conversion or its temporary file fails), and
    [datetime]: the wall clock in ISO format, [fromisoformat(s).isoformat()]
    and [strptime(s, fmt).isoformat()], [None] when they raise. *)
Record Library : Type := mkLibrary {
  str_element : Node -> string;
  markitdown : option (string -> outcome string);
  now_isoformat : string;
  fromisoformat : string -> option string;
  strptime : string -> string -> option string
}.

(** One entry of [messages]. *)
Record message : Type := mkMessage {
  id : string;
  sender : string;
  content : string;
  timestamp : string;
  type : string
}.

(** [structured_data], written to the JSON file. *)
Record structured_data : Type := mkStructured {
  title : string;
  url : string;
  extracted_at : string;
  message_count : nat;
  messages : list message
}.

Fixpoint lookup (key : string) (attrs : list (string * string))
  : option string :=
  match attrs with
  | [] => None
  | (k, v) :: rest => if String.eqb k key then Some v else lookup key rest
  end.

(** [tag.get(key)] *)
Definition get (key : string) (n : Node) : option string :=
  match n with
  | Tag _ attrs _ => lookup key attrs
  | NavigableString _ => None
  end.

(** The whitespace-separated tokens of a string (the values of [class]). *)
Fixpoint split_ws (cur : string) (s : string) : list string :=
  match s with
  | EmptyString => if is_empty cur then [] else [cur]
  | String c r =>
      if isspace c
      then (if is_empty cur then split_ws EmptyString r
            else cur :: split_ws EmptyString r)
      else split_ws (cur ++ String c EmptyString)%string r
  end.

Definition has_name (name : string) (n : Node) : bool :=
  match n with
  | Tag nm _ _ => String.eqb nm name
  | NavigableString _ => false
  end.

(** The filter [class_=cls], for a class name without a space: one of the
    classes of the tag is [cls]. *)
Definition has_class (cls : string) (n : Node) : bool :=
  match get "class" n with
  | Some v => existsb (String.eqb cls) (split_ws EmptyString v)
  | None => false
  end.

(** The nodes below [n], in document order. *)
Fixpoint descendants (n : Node) : list Node :=
  match n with
  | Tag _ _ contents => flat_map (fun c => c :: descendants c) contents
  | NavigableString _ => []
  end.

(** [n.find_all(...)] and [n.find(...)] for a filter [p]. *)
Definition find_all (p : Node -> bool) (n : Node) : list Node :=
  filter p (descendants n).

Definition find (p : Node -> bool) (n : Node) : option Node :=
  hd_error (find_all p n).

(** The text nodes below [n], in document order. *)
Fixpoint strings (n : Node) : list string :=
  match n with
  | Tag _ _ contents => flat_map strings contents
  | NavigableString text => [text]
  end.

(** [n.get_text(strip=True)]: the stripped text nodes that are not empty,
    joined without a separator. *)
Definition get_text_strip (n : Node) : string :=
  String.concat EmptyString
    (filter (fun t => negb (is_empty t)) (map strip (strings n))).

(** [extract_user_message] *)
Definition extract_user_message (user_query_element : Node) : option string :=
  let query_elements :=
    find_all (fun n => has_name "p" n && has_class "query-text-line" n)
             user_query_element in
  let query_texts :=
    filter (fun text => negb (is_empty text))
           (map get_text_strip query_elements) in
  match query_texts with
  | [] => None
  | _ :: _ => Some (join nl query_texts)
  end.

(** [for script in find_all(['script', 'style']): script.decompose()].
    The source removes them in place; the parser gives [script] and [style]
    elements no element children, so that no later lookup sees the
    difference, and the model prunes a copy. *)
Fixpoint remove_script_style (n : Node) : Node :=
  match n with
  | Tag name attrs contents =>
      Tag name attrs
        ((fix prune (l : list Node) : list Node :=
            match l with
            | [] => []
            | c :: r =>
                if has_name "script" c || has_name "style" c then prune r
                else remove_script_style c :: prune r
            end) contents)
  | NavigableString text => NavigableString text
  end.

(** [re.sub(r'<[^>]+>', '', content)].  At a [<] followed by a character
    other than [>] and with a [>] further on, the match runs to the first
    [>]; [skipping] is true inside a match. *)
Fixpoint remove_tags_from (skipping : bool) (s : string) : string :=
  match s with
  | EmptyString => EmptyString
  | String c r =>
      if skipping
      then remove_tags_from (negb (Ascii.eqb c ">")) r
      else if Ascii.eqb c "<"
                && match r with
                   | String d _ => negb (Ascii.eqb d ">")
                   | EmptyString => false
                   end
                && contains ">" r
           then remove_tags_from true r
           else String c (remove_tags_from false r)
  end.

Definition remove_tags : string -> string := remove_tags_from false.

(** [re.sub(r'\s+', ' ', content)]; [in_run] is true after a whitespace
    character. *)
Fixpoint collapse_from (in_run : bool) (s : string) : string :=
  match s with
  | EmptyString => EmptyString
  | String c r =>
      if isspace c
      then (if in_run then collapse_from true r
            else String " " (collapse_from true r))
      else String c (collapse_from false r)
  end.

Definition collapse_whitespace : string -> string := collapse_from false.

(** The fallback of [html_to_markdown], from [content = str(element)]. *)
Definition html_to_text (content : string) : string :=
  strip (collapse_whitespace (remove_tags content)).

(** [html_to_markdown] *)
Definition html_to_markdown (lib : Library) (element : Node) : string :=
  match markitdown lib with
  | Some convert =>
      match convert ("<html><body>" ++ str_element lib element
                     ++ "</body></html>")%string with
      | Returned text_content => strip text_content
      | Raised => html_to_text (str_element lib element)
      end
  | None => html_to_text (str_element lib element)
  end.

(** [clean_response_content] *)
Definition clean_response_content (lib : Library) (markdown_element : Node)
  : string :=
  html_to_markdown lib (remove_script_style markdown_element).

(** [extract_model_response] *)
Definition extract_model_response (lib : Library)
  (model_response_element : Node) : option string :=
  match find (has_name "message-content") model_response_element with
  | None => None
  | Some message_content =>
      match find (fun n => has_name "div" n && has_class "markdown" n)
                 message_content with
      | Some markdown_div => Some (clean_response_content lib markdown_div)
      | None => None
      end
  end.

Definition timestamp_selectors : list string :=
  [ "time"; "[data-timestamp]"; ".timestamp"; ".message-time"; "[datetime]" ].

Definition timestamp_formats : list string :=
  [ "%Y-%m-%d %H:%M:%S"; "%Y-%m-%dT%H:%M:%S"; "%m/%d/%Y %H:%M" ].

(** [timestamp.replace('Z', '+00:00')] *)
Fixpoint replace_Z (s : string) : string :=
  match s with
  | EmptyString => EmptyString
  | String c r =>
      if Ascii.eqb c "Z" then ("+00:00" ++ replace_Z r)%string
      else String c (replace_Z r)
  end.

(** The loop over the formats: the first one that parses. *)
Fixpoint first_format (lib : Library) (text_content : string)
  (formats : list string) : option string :=
  match formats with
  | [] => None
  | fmt :: rest =>
      match strptime lib text_content fmt with
      | Some parsed => Some parsed
      | None => first_format lib text_content rest
      end
  end.

(** What one found element gives: a parsed attribute, else a parsed text. *)
Definition timestamp_from (lib : Library) (timestamp_elem : Node)
  : option string :=
  let attribute :=
    if truthy (get "datetime" timestamp_elem)
    then get "datetime" timestamp_elem
    else get "data-timestamp" timestamp_elem in
  let from_attribute :=
    if truthy attribute
    then fromisoformat lib (replace_Z (or_empty attribute))
    else None in
  match from_attribute with
  | Some parsed => Some parsed
  | None =>
      let text_content := get_text_strip timestamp_elem in
      if is_empty text_content then None
      else first_format lib text_content timestamp_formats
  end.

Fixpoint try_timestamp_selectors (lib : Library) (container : Node)
  (selectors : list string) : option string :=
  match selectors with
  | [] => None
  | selector :: rest =>
      match find (has_name selector) container with
      | Some timestamp_elem =>
          match timestamp_from lib timestamp_elem with
          | Some parsed => Some parsed
          | None => try_timestamp_selectors lib container rest
          end
      | None => try_timestamp_selectors lib container rest
      end
  end.

(** [extract_timestamp] *)
Definition extract_timestamp (lib : Library) (container : Node) : string :=
  match try_timestamp_selectors lib container timestamp_selectors with
  | Some parsed => parsed
  | None => now_isoformat lib
  end.

(** The messages one container contributes: its user query, then its model
    response, each only when its text is not empty. *)
Definition user_message_of (lib : Library) (container : Node)
  : list message :=
  match find (has_name "user-query") container with
  | Some user_query =>
      match extract_user_message user_query with
      | Some query_text =>
          if is_empty query_text then []
          else [ {| id := or_empty (get "id" container);
                    sender := "user";
                    content := query_text;
                    timestamp := extract_timestamp lib container;
                    type := "user_message" |} ]
      | None => []
      end
  | None => []
  end.

Definition assistant_message_of (lib : Library) (container : Node)
  : list message :=
  match find (has_name "model-response") container with
  | Some model_response =>
      match extract_model_response lib model_response with
      | Some response_content =>
          if is_empty response_content then []
          else [ {| id := or_empty (get "id" container);
                    sender := "assistant";
                    content := response_content;
                    timestamp := extract_timestamp lib container;
                    type := "assistant_message" |} ]
      | None => []
      end
  | None => []
  end.

(** The filter of [find_all('div', class_='conversation-container')]. *)
Definition is_conversation_container (n : Node) : bool :=
  has_name "div" n && has_class "conversation-container" n.

(** [parse_conversation_structure], from the parsed document. *)
Definition parse_conversation_structure (lib : Library) (soup : Node)
  : list message :=
  let conversation_containers := find_all is_conversation_container soup in
  flat_map (fun container =>
              user_message_of lib container ++ assistant_message_of lib container)
           conversation_containers.

(** The record [structured_data] of [save_structured_conversation]. *)
Definition save_structured_conversation (lib : Library)
  (messages : list message) (title url : string) : structured_data :=
  {| title := title;
     url := url;
     extracted_at := now_isoformat lib;
     message_count := List.length messages;
     messages := messages |}.

(** [extract_conversation_with_structure], from the parsed page content on. *)
Definition extract_conversation_with_structure (lib : Library)
  (soup : Node) (title url : string) : structured_data :=
  save_structured_conversation lib (parse_conversation_structure lib soup)
                               title url.

End Enhanced.

(* ================================================================= *)
(** ** [conversation_analyzer.py]: the analyzer *)

Module Analyzer.
Import PyStr Playwright.

(** *** The conversation file, as [json.load] returns it

    A key that is absent is [None]: the code reads every key with [get]
    and a default. *)

Record message : Type := mkMessage {
  sender : option string;
  content : option string;
  timestamp : option string
}.

Record conversation : Type := mkConversation {
  title : option string;
  url : option string;
  extracted_at : option string;
  message_count : option Z;
  messages : option (list message)
}.

(** *** Code patterns *)

(** [len(re.findall(r'```[\s\S]*?```', content))].  A match opens at a
    fence and closes at the next fence that starts three characters later or
    more; [skip] counts the characters of a fence still to pass. *)
Fixpoint count_fenced (inside : bool) (skip : nat) (s : string) : nat :=
  match s with
  | EmptyString => 0
  | String _ r =>
      match skip with
      | S k => count_fenced inside k r
      | O =>
          if prefix "```" s
          then (if inside then S (count_fenced false 2 r)
                else count_fenced true 2 r)
          else count_fenced inside 0 r
      end
  end.

(** [len(re.findall(r'`[^`]+`', content))].  [opened] is [Some b] after an
    opening backquote, [b] telling whether a character followed it. *)
Fixpoint count_inline (opened : option bool) (s : string) : nat :=
  match s with
  | EmptyString => 0
  | String c r =>
      match opened with
      | None =>
          if Ascii.eqb c "`" then count_inline (Some false) r
          else count_inline None r
      | Some filled =>
          if Ascii.eqb c "`"
          then (if filled then S (count_inline None r)
                else count_inline (Some false) r)
          else count_inline (Some true) r
      end
  end.

(** [len(re.findall(r'<code>[\s\S]*?</code>', content))] *)
Fixpoint count_code_tags (inside : bool) (skip : nat) (s : string) : nat :=
  match s with
  | EmptyString => 0
  | String _ r =>
      match skip with
      | S k => count_code_tags inside k r
      | O =>
          if inside
          then (if prefix "</code>" s then S (count_code_tags false 6 r)
                else count_code_tags true 0 r)
          else (if prefix "<code>" s then count_code_tags true 5 r
                else count_code_tags false 0 r)
      end
  end.

(** The sum over [code_patterns] for one message. *)
Definition count_code_blocks (content : string) : nat :=
  count_fenced false 0 content
  + count_inline None content
  + count_code_tags false 0 content.

(** *** Technical terms *)

(** The class [\w]: letters and digits of Latin-1, and the underscore. *)
Definition is_word (c : ascii) : bool :=
  let n := nat_of_ascii c in
  ((48 <=? n) && (n <=? 57)) || ((65 <=? n) && (n <=? 90))
  || ((97 <=? n) && (n <=? 122)) || (n =? 95)
  || (n =? 170) || (n =? 178) || (n =? 179) || (n =? 181)
  || (n =? 185) || (n =? 186) || ((188 <=? n) && (n <=? 190))
  || ((192 <=? n) && (n <=? 214)) || ((216 <=? n) && (n <=? 246))
  || (248 <=? n).

Definition is_word_at (c : option ascii) : bool :=
  match c with
  | Some c => is_word c
  | None => false
  end.

(** [\b] between two positions (the ends of the string are not words). *)
Definition word_boundary (before after : option ascii) : bool :=
  xorb (is_word_at before) (is_word_at after).

(** [alt] matches at the start of [s], whatever the case; the result is the
    matched text and what follows it. *)
Fixpoint match_literal (alt s : string) : option (string * string) :=
  match alt with
  | EmptyString => Some (EmptyString, s)
  | String a alt' =>
      match s with
      | EmptyString => None
      | String c s' =>
          if Ascii.eqb (lower_char a) (lower_char c)
          then match match_literal alt' s' with
               | Some (m, rest) => Some (String c m, rest)
               | None => None
               end
          else None
      end
  end.

Definition first_char (s : string) : option ascii :=
  match s with
  | EmptyString => None
  | String c _ => Some c
  end.

(** The alternatives of one pattern, tried in order at one position; the
    closing [\b] must hold for the alternative to match. *)
Fixpoint match_alternatives (alts : list string) (s : string)
  : option string :=
  match alts with
  | [] => None
  | alt :: rest =>
      match match_literal alt s with
      | Some (m, after) =>
          if word_boundary (last_char m) (first_char after) then Some m
          else match_alternatives rest s
      | None => match_alternatives rest s
      end
  end.

(** [re.findall(pattern, content, re.IGNORECASE)] for a pattern
    [\b(?:alt|...)\b]: [before] is the previous character, [skip] the number
    of characters of the current match still to pass. *)
Fixpoint findall_terms (alts : list string) (before : option ascii)
  (skip : nat) (s : string) : list string :=
  match s with
  | EmptyString => []
  | String c r =>
      match skip with
      | S k => findall_terms alts (Some c) k r
      | O =>
          if word_boundary before (Some c)
          then match match_alternatives alts s with
               | Some m =>
                   m :: findall_terms alts (Some c) (String.length m - 1) r
               | None => findall_terms alts (Some c) 0 r
               end
          else findall_terms alts (Some c) 0 r
      end
  end.

Definition technical_patterns : list (list string) :=
  [ [ "API"; "SDK"; "CLI"; "JWT"; "OAuth"; "HTTP"; "HTTPS"; "REST";
      "GraphQL"; "JSON"; "XML"; "YAML"; "SQL"; "NoSQL" ];
    [ "Docker"; "Kubernetes"; "AWS"; "GCP"; "Azure"; "GitHub"; "GitLab";
      "CI/CD" ];
    [ "Python"; "JavaScript"; "TypeScript"; "Java"; "C++"; "Rust"; "Go";
      "Ruby"; "PHP" ];
    [ "React"; "Vue"; "Angular"; "Node.js"; "Express"; "Django"; "Flask";
      "FastAPI" ];
    [ "MongoDB"; "PostgreSQL"; "MySQL"; "Redis"; "Elasticsearch"; "Kafka" ];
    [ "Playwright"; "Selenium"; "Puppeteer"; "Cypress" ];
    [ "AI"; "ML"; "LLM"; "NLP"; "GPT"; "BERT"; "Transformer" ];
    [ "IoC"; "DI"; "MVC"; "MVP"; "MVVM"; "SOLID"; "DRY"; "KISS" ] ].

(** [extract_technical_terms] *)
Definition extract_technical_terms (content : string) : list string :=
  flat_map (fun alts => map upper (findall_terms alts None 0 content))
           technical_patterns.

(** *** Topics *)

Definition topic_keywords : list (string * list string) :=
  [ ("authentication",
     [ "auth"; "login"; "token"; "jwt"; "oauth"; "credential" ]);
    ("automation",
     [ "playwright"; "selenium"; "automation"; "script"; "bot" ]);
    ("architecture",
     [ "architecture"; "design"; "pattern"; "structure"; "component" ]);
    ("deployment",
     [ "deploy"; "deployment"; "docker"; "kubernetes"; "container" ]);
    ("database",
     [ "database"; "sql"; "nosql"; "mongodb"; "postgresql"; "redis" ]);
    ("api",
     [ "api"; "endpoint"; "rest"; "graphql"; "service"; "microservice" ]);
    ("frontend",
     [ "frontend"; "ui"; "react"; "vue"; "angular"; "javascript" ]);
    ("backend",
     [ "backend"; "server"; "node"; "python"; "django"; "flask" ]);
    ("testing",
     [ "test"; "testing"; "unit"; "integration"; "e2e"; "cypress" ]);
    ("security",
     [ "security"; "encryption"; "ssl"; "tls"; "vulnerability" ]);
    ("performance",
     [ "performance"; "optimization"; "cache"; "speed"; "latency" ]);
    ("monitoring",
     [ "monitoring"; "logging"; "metrics"; "observability"; "alert" ]) ].

(** [extract_topics] *)
Definition extract_topics (content : string) : list string :=
  let content_lower := lower content in
  map fst
      (filter (fun entry => any_in (snd entry) content_lower) topic_keywords).

(** *** Statistics *)

Definition sum (l : list nat) : nat := fold_right Nat.add 0 l.

Fixpoint insert_sorted (x : nat) (l : list nat) : list nat :=
  match l with
  | [] => [x]
  | y :: r => if x <=? y then x :: l else y :: insert_sorted x r
  end.

(** [sorted(data)] *)
Definition sorted (l : list nat) : list nat := fold_right insert_sorted [] l.

(** [statistics.mean(data)], for a list that is not empty. *)
Definition mean (data : list nat) : Q :=
  Qred (Z.of_nat (sum data) # Pos.of_nat (List.length data)).

(** [statistics.median(data)], for a list that is not empty. *)
Definition median (data : list nat) : Q :=
  let data := sorted data in
  let n := List.length data in
  if Nat.odd n then inject_Z (Z.of_nat (nth (n / 2) data 0))
  else Qred (Z.of_nat (nth (n / 2 - 1) data 0 + nth (n / 2) data 0) # 2).

Definition maximum (data : list nat) : nat := fold_right Nat.max 0 data.

Definition minimum (data : list nat) : nat :=
  match data with
  | [] => 0
  | x :: r => fold_right Nat.min x r
  end.

Definition Qgt_bool (a b : Q) : bool := negb (Qle_bool a b).
Definition Qlt_bool (a b : Q) : bool := negb (Qle_bool b a).

(** *** The analysis of one conversation *)

Record flow_entry : Type := mkFlow {
  flow_sender : string;
  flow_length : nat;
  flow_timestamp : string
}.

(** The dict [analysis].  The three keys that are set only when there is a
    message are optional. *)
Record analysis : Type := mkAnalysis {
  a_title : string;
  a_url : string;
  a_extracted_at : string;
  total_messages : Z;
  user_messages : nat;
  assistant_messages : nat;
  message_lengths : list nat;
  topics_mentioned : list string;
  code_blocks : nat;
  questions_asked : nat;
  avg_message_length : Q;
  conversation_flow : list flow_entry;
  technical_terms : list string;
  key_insights : list string;
  median_message_length : option Q;
  max_message_length : option nat;
  min_message_length : option nat;
  unique_technical_terms : list string;
  unique_topics : list string
}.

(** [list(set(l))]: the distinct elements of [l], in the order in which the
    interpreter iterates over the set.  The language leaves this order
    open; for a set of [str] it follows the hashes of the strings, which
    are fixed within one run of the interpreter and change from one run to
    another with the hash seed of the run. *)
Record SetOrder : Type := mkSetOrder {
  list_set : list string -> list string;
  list_set_NoDup : forall l, NoDup (list_set l);
  list_set_In : forall l x, In x (list_set l) <-> In x l
}.

Definition or_default (default : string) (o : option string) : string :=
  match o with
  | Some s => s
  | None => default
  end.

(** The dict [analysis] before the loop. *)
Definition initial_analysis (data : conversation) : analysis :=
  {| a_title := or_default "Unknown" (title data);
     a_url := or_default "" (url data);
     a_extracted_at := or_default "" (extracted_at data);
     total_messages := match message_count data with
                       | Some n => n
                       | None => 0%Z
                       end;
     user_messages := 0;
     assistant_messages := 0;
     message_lengths := [];
     topics_mentioned := [];
     code_blocks := 0;
     questions_asked := 0;
     avg_message_length := 0;
     conversation_flow := [];
     technical_terms := [];
     key_insights := [];
     median_message_length := None;
     max_message_length := None;
     min_message_length := None;
     unique_technical_terms := [];
     unique_topics := [] |}.

(** The body of [for msg in messages]. *)
Definition analyze_message (a : analysis) (msg : message) : analysis :=
  let sender := or_default "unknown" (sender msg) in
  let content := or_default "" (content msg) in
  let msg_length := String.length content in
  let is_user := String.eqb sender "user" in
  let is_assistant := negb is_user && String.eqb sender "assistant" in
  {| a_title := a_title a;
     a_url := a_url a;
     a_extracted_at := a_extracted_at a;
     total_messages := total_messages a;
     user_messages := user_messages a + (if is_user then 1 else 0);
     assistant_messages :=
       assistant_messages a + (if is_assistant then 1 else 0);
     message_lengths := message_lengths a ++ [msg_length];
     topics_mentioned := topics_mentioned a ++ extract_topics content;
     code_blocks := code_blocks a + count_code_blocks content;
     questions_asked :=
       questions_asked a + (if is_user then count_char "?" content else 0);
     avg_message_length := avg_message_length a;
     conversation_flow :=
       conversation_flow a
       ++ [ {| flow_sender := sender;
               flow_length := msg_length;
               flow_timestamp := or_default "" (timestamp msg) |} ];
     technical_terms := technical_terms a ++ extract_technical_terms content;
     key_insights := key_insights a;
     median_message_length := median_message_length a;
     max_message_length := max_message_length a;
     min_message_length := min_message_length a;
     unique_technical_terms := unique_technical_terms a;
     unique_topics := unique_topics a |}.

(** [# Calculate statistics] and [# Count unique technical terms and
    topics]. *)
Definition with_statistics (order : SetOrder) (a : analysis) : analysis :=
  let lengths := message_lengths a in
  let present := negb (Nat.eqb (List.length lengths) 0) in
  {| a_title := a_title a;
     a_url := a_url a;
     a_extracted_at := a_extracted_at a;
     total_messages := total_messages a;
     user_messages := user_messages a;
     assistant_messages := assistant_messages a;
     message_lengths := lengths;
     topics_mentioned := topics_mentioned a;
     code_blocks := code_blocks a;
     questions_asked := questions_asked a;
     avg_message_length :=
       if present then mean lengths else avg_message_length a;
     conversation_flow := conversation_flow a;
     technical_terms := technical_terms a;
     key_insights := key_insights a;
     median_message_length := if present then Some (median lengths) else None;
     max_message_length := if present then Some (maximum lengths) else None;
     min_message_length := if present then Some (minimum lengths) else None;
     unique_technical_terms := list_set order (technical_terms a);
     unique_topics := list_set order (topics_mentioned a) |}.

(** [generate_insights] *)
Definition generate_insights (a : analysis) : list string :=
  let total_msgs := total_messages a in
  let user_msgs := user_messages a in
  let distribution :=
    if (0 <? total_msgs)%Z
    then
      let user_ratio := (Z.of_nat user_msgs # Z.to_pos total_msgs) in
      if Qgt_bool user_ratio (6 # 10)
      then [ "User-driven conversation with many questions" ]
      else if Qlt_bool user_ratio (3 # 10)
      then [ "Assistant-heavy conversation with detailed responses" ]
      else [ "Balanced conversation between user and assistant" ]
    else [] in
  let unique_terms := List.length (unique_technical_terms a) in
  let complexity :=
    if 10 <? unique_terms
    then [ "Highly technical conversation with diverse technologies" ]
    else if 5 <? unique_terms
    then [ "Moderately technical discussion" ]
    else [ "General or non-technical conversation" ] in
  let code :=
    if 5 <? code_blocks a
    then [ "Code-heavy conversation with examples and implementations" ]
    else if 0 <? code_blocks a
    then [ "Contains code examples and technical details" ]
    else [] in
  let questions :=
    if 5 <? questions_asked a
    then [ "Exploratory conversation with many questions" ]
    else [] in
  let avg_length := avg_message_length a in
  let length :=
    if Qgt_bool avg_length (1000 # 1)
    then [ "Detailed conversation with comprehensive responses" ]
    else if Qlt_bool avg_length (200 # 1)
    then [ "Concise conversation with brief exchanges" ]
    else [] in
  distribution ++ complexity ++ code ++ questions ++ length.

Definition with_insights (a : analysis) : analysis :=
  {| a_title := a_title a;
     a_url := a_url a;
     a_extracted_at := a_extracted_at a;
     total_messages := total_messages a;
     user_messages := user_messages a;
     assistant_messages := assistant_messages a;
     message_lengths := message_lengths a;
     topics_mentioned := topics_mentioned a;
     code_blocks := code_blocks a;
     questions_asked := questions_asked a;
     avg_message_length := avg_message_length a;
     conversation_flow := conversation_flow a;
     technical_terms := technical_terms a;
     key_insights := generate_insights a;
     median_message_length := median_message_length a;
     max_message_length := max_message_length a;
     min_message_length := min_message_length a;
     unique_technical_terms := unique_technical_terms a;
     unique_topics := unique_topics a |}.

(** [data.get('messages', [])] *)
Definition messages_of (data : conversation) : list message :=
  match messages data with
  | Some l => l
  | None => []
  end.

(** [analyze_conversation], from the loaded [data] on. *)
Definition analyze (order : SetOrder) (data : conversation) : analysis :=
  with_insights
    (with_statistics order
       (fold_left analyze_message (messages_of data) (initial_analysis data))).

(** *** The analyzer as a stateful object

    [analyze_conversation(self, json_file_path)] opens and parses the file.
    The state it could depend on is made explicit: the object, the files,
    and the iteration order of sets in the running interpreter, which
    differs between two runs of the program. *)

Record ConversationAnalyzer : Type := mkAnalyzer {
  extracts_dir : string
}.

Record World : Type := mkWorld {
  files : string -> option conversation;
  set_order : SetOrder
}.

Definition analyze_conversation (self : ConversationAnalyzer)
  (json_file_path : string) (w : World) : outcome analysis * World :=
  match files w json_file_path with
  | Some data => (Returned (analyze (set_order w) data), w)
  | None => (Raised, w)
  end.

(** Two calls in sequence, the second in the state the first one leaves. *)
Definition analyze_twice (self : ConversationAnalyzer)
  (json_file_path : string) (w : World)
  : outcome analysis * outcome analysis * World :=
  let '(first, w1) := analyze_conversation self json_file_path w in
  let '(second, w2) := analyze_conversation self json_file_path w1 in
  (first, second, w2).

(** *** The corpus summary *)

(** A [Counter]: the keys in the order in which they were first counted. *)
Fixpoint count_one (key : string) (c : list (string * nat))
  : list (string * nat) :=
  match c with
  | [] => [ (key, 1) ]
  | (k, n) :: r =>
      if String.eqb k key then (k, S n) :: r else (k, n) :: count_one key r
  end.

(** [Counter(items)] *)
Definition Counter (items : list string) : list (string * nat) :=
  fold_left (fun c key => count_one key c) items [].

(** [c[key]] *)
Fixpoint count_of (key : string) (c : list (string * nat)) : nat :=
  match c with
  | [] => 0
  | (k, n) :: r => if String.eqb k key then n else count_of key r
  end.

(** [sorted(c.items(), key=itemgetter(1), reverse=True)]: a stable sort,
    entries of equal count stay in the order of the counter. *)
Fixpoint insert_by_count (x : string * nat) (l : list (string * nat))
  : list (string * nat) :=
  match l with
  | [] => [x]
  | y :: r => if snd x <? snd y then y :: insert_by_count x r else x :: l
  end.

Definition sort_by_count (c : list (string * nat)) : list (string * nat) :=
  fold_right insert_by_count [] c.

(** [c.most_common(n)] *)
Definition most_common (n : nat) (c : list (string * nat))
  : list (string * nat) :=
  firstn n (sort_by_count c).

Record summary : Type := mkSummary {
  total_conversations : nat;
  s_total_messages : Z;
  total_user_messages : nat;
  total_assistant_messages : nat;
  avg_messages_per_conversation : Q;
  most_common_technical_terms : list (string * nat);
  most_common_topics : list (string * nat);
  most_common_insights : list (string * nat);
  conversation_titles : list string
}.

(** What [generate_summary_report] returns: the dict [{}] or the summary. *)
Inductive report : Type :=
| EmptyDict
| Summary (s : summary).

Definition Zsum (l : list Z) : Z := fold_right Z.add 0%Z l.

(** The three lists the loop [for analysis in analyses] extends. *)
Definition all_technical_terms (analyses : list analysis) : list string :=
  flat_map unique_technical_terms analyses.
Definition all_topics (analyses : list analysis) : list string :=
  flat_map unique_topics analyses.
Definition all_insights (analyses : list analysis) : list string :=
  flat_map key_insights analyses.

(** The counters [term_frequency], [topic_frequency], [insight_frequency]. *)
Definition term_frequency (analyses : list analysis) :=
  Counter (all_technical_terms analyses).
Definition topic_frequency (analyses : list analysis) :=
  Counter (all_topics analyses).
Definition insight_frequency (analyses : list analysis) :=
  Counter (all_insights analyses).

(** [generate_summary_report] *)
Definition generate_summary_report (analyses : list analysis) : report :=
  match analyses with
  | [] => EmptyDict
  | _ :: _ =>
      let total_conversations := List.length analyses in
      let total_messages := Zsum (map total_messages analyses) in
      Summary
        {| total_conversations := total_conversations;
           s_total_messages := total_messages;
           total_user_messages := sum (map user_messages analyses);
           total_assistant_messages := sum (map assistant_messages analyses);
           avg_messages_per_conversation :=
             Qred (total_messages # Pos.of_nat total_conversations);
           most_common_technical_terms :=
             most_common 10 (term_frequency analyses);
           most_common_topics := most_common 10 (topic_frequency analyses);
           most_common_insights := most_common 5 (insight_frequency analyses);
           conversation_titles := map a_title analyses |}
  end.

(** [report[key]] for each key of the summary; [None] is a [KeyError]. *)
Definition field {A : Type} (f : summary -> A) (r : report) : option A :=
  match r with
  | EmptyDict => None
  | Summary s => Some (f s)
  end.

(** *** From the saved record to the loaded one

    [json.dump(structured_data, f)] by the extractor, then [json.load(f)] by
    the analyzer: every key is present. *)

Definition load_message (m : Enhanced.message) : message :=
  {| sender := Some (Enhanced.sender m);
     content := Some (Enhanced.content m);
     timestamp := Some (Enhanced.timestamp m) |}.

Definition load_saved (d : Enhanced.structured_data) : conversation :=
  {| title := Some (Enhanced.title d);
     url := Some (Enhanced.url d);
     extracted_at := Some (Enhanced.extracted_at d);
     message_count := Some (Z.of_nat (Enhanced.message_count d));
     messages := Some (map load_message (Enhanced.messages d)) |}.

End Analyzer.

(* ================================================================= *)
(** ** The strategy chain in the words of the specification *)

Module SpecChain.
Import PyStr Playwright.

(** A fragment is non-trivial when the extraction loop would keep it: its
    text is there and has ten characters or more once stripped. *)
Definition non_trivial (element : ElementHandle) : bool :=
  match text_content element with
  | Returned text => negb (GeminiExtractor.too_short text)
  | Raised => false
  end.

(** The chain of section 4.1: the fragments of the first strategy that
    yields at least one non-trivial fragment, the empty list if none does. *)
Fixpoint first_non_trivial (page : Page) (selectors : list string)
  : list ElementHandle :=
  match selectors with
  | [] => []
  | selector :: rest =>
      match query_selector_all page selector with
      | Returned elements =>
          if existsb non_trivial elements then elements
          else first_non_trivial page rest
      | Raised => first_non_trivial page rest
      end
  end.

End SpecChain.

(* ================================================================= *)
(** ** Properties used in the statements *)

Module Props.
Import PyStr Playwright.

(** The selector loop goes past [selector]: its query raises, or returns at
    most one element. *)
Definition passed_over (page : Page) (selector : string) : Prop :=
  match query_selector_all page selector with
  | Returned elements => List.length elements <= 1
  | Raised => True
  end.

(** Every element has a text, and it is under the threshold of the loop. *)
Definition all_too_short (elements : list ElementHandle) : Prop :=
  forall element, In element elements ->
    exists text, text_content element = Returned text
                 /\ GeminiExtractor.too_short text = true.

(** No selector finds a message container on the page. *)
Definition nothing_found (page : Page) : Prop :=
  (forall selector, query_selector_all page selector = Returned []
                    \/ query_selector_all page selector = Raised)
  /\ (forall selector, query_selector page selector = Returned None
                       \/ query_selector page selector = Raised).

(** Every whitespace character of [s] is a space that comes after a
    character that is not whitespace; [after_space] tells whether whitespace
    precedes [s]. *)
Fixpoint single_spaces (after_space : bool) (s : string) : bool :=
  match s with
  | EmptyString => true
  | String c r =>
      if isspace c
      then negb after_space && Ascii.eqb c " " && single_spaces true r
      else single_spaces false r
  end.

Definition no_trailing_space (s : string) : bool :=
  match last_char s with
  | Some c => negb (isspace c)
  | None => true
  end.

(** No whitespace at either end, and single spaces only inside. *)
Definition tidy (s : string) : bool :=
  single_spaces true s && no_trailing_space s.

(** The converter of markitdown is missing, or fails on this element. *)
Definition falls_back (lib : Enhanced.Library) (element : Enhanced.Node)
  : Prop :=
  match Enhanced.markitdown lib with
  | Some convert =>
      convert ("<html><body>" ++ Enhanced.str_element lib element
               ++ "</body></html>")%string = Raised
  | None => True
  end.

(** The sender the analyzer reads in a message, and the three classes of
    senders: the two it counts and the rest. *)
Definition sender_of (msg : Analyzer.message) : string :=
  Analyzer.or_default "unknown" (Analyzer.sender msg).

Definition is_user (msg : Analyzer.message) : bool :=
  String.eqb (sender_of msg) "user".
Definition is_assistant (msg : Analyzer.message) : bool :=
  String.eqb (sender_of msg) "assistant".
Definition is_unknown (msg : Analyzer.message) : bool :=
  negb (is_user msg) && negb (is_assistant msg).

Definition count_messages (p : Analyzer.message -> bool)
  (msgs : list Analyzer.message) : nat :=
  List.length (filter p msgs).

(** The invariant of a conversation record: [message_count] is the length
    of [messages]. *)
Definition well_formed (data : Analyzer.conversation) : Prop :=
  Analyzer.message_count data
  = Some (Z.of_nat (List.length (Analyzer.messages_of data))).

(** The distinct elements of a list, in the order of their first
    occurrence. *)
Fixpoint first_seen (l : list string) : list string :=
  match l with
  | [] => []
  | x :: r => x :: filter (fun y => negb (String.eqb y x)) (first_seen r)
  end.

(** The entries of a counter that have the count [n]. *)
Definition with_count (n : nat) (c : list (string * nat))
  : list (string * nat) :=
  filter (fun entry => Nat.eqb (snd entry) n) c.

(** Counts go down along the list. *)
Definition descending (c : list (string * nat)) : Prop :=
  StronglySorted (fun x y => snd y <= snd x) c.

(** The fields of an analysis that are not built from a set: all but
    [unique_technical_terms] and [unique_topics]. *)
Definition fixed_fields (a : Analyzer.analysis) :=
  (Analyzer.a_title a, Analyzer.a_url a, Analyzer.a_extracted_at a,
   Analyzer.total_messages a, Analyzer.user_messages a,
   Analyzer.assistant_messages a, Analyzer.message_lengths a,
   Analyzer.topics_mentioned a, Analyzer.code_blocks a,
   Analyzer.questions_asked a, Analyzer.avg_message_length a,
   Analyzer.conversation_flow a, Analyzer.technical_terms a,
   Analyzer.key_insights a, Analyzer.median_message_length a,
   Analyzer.max_message_length a, Analyzer.min_message_length a).

End Props.

(* ================================================================= *)
(** ** Sample pages and conversations *)

Module Examples.
Import PyStr Playwright.

(** An element made of one text: its markup is the text, it has no class,
    no timestamp and no [div] below it. *)
Definition fragment (text : string) : ElementHandle :=
  {| text_content := Returned (Some text);
     inner_html := Returned text;
     get_attribute_class := Returned None;
     timestamp_text := Returned None;
     query_selector_all_div := Returned [] |}.


Definition testid_message : string :=
  ("[data-testid*=" ++ dq ++ "message" ++ dq ++ "]")%string.

Definition question : string := "What is an inversion of control?".
Definition answer : string :=
  "Inversion of control hands the flow to a framework.".

(** The first selector finds two elements under the threshold, the third
    one finds two messages. *)
Definition page_short_first : Page :=
  {| query_selector_all := fun selector =>
       if String.eqb selector testid_message
       then Returned [ fragment "hi"; fragment "ok" ]
       else if String.eqb selector ".message"
       then Returned [ fragment question; fragment answer ]
       else Returned [];
     query_selector := fun _ => Returned None |}.

(** The first selector raises, the second finds one element, the third two
    messages. *)
Definition page_third_selector : Page :=
  {| query_selector_all := fun selector =>
       if String.eqb selector testid_message then Raised
       else if String.eqb selector ".message"
       then Returned [ fragment question; fragment answer ]
       else if String.eqb selector ".chat-message" then Returned []
       else Returned [ fragment "menu" ];
     query_selector := fun _ => Returned None |}.

Fixpoint repeat_string (s : string) (n : nat) : string :=
  match n with
  | O => EmptyString
  | S k => (s ++ repeat_string s k)%string
  end.

(** A text of 400 characters without a question mark. *)
Definition long_text : string :=
  ("Here is the implementation..." ++ repeat_string " line 1" 53)%string.

(** The two fragments of the scenario of section 8, found by [article]. *)
Definition page_two_fragments : Page :=
  {| query_selector_all := fun selector =>
       if String.eqb selector "article"
       then Returned [ fragment long_text; fragment "Thanks!" ]
       else Returned [];
     query_selector := fun _ => Returned None |}.


(** The parse of the empty snapshot, and a serialiser that writes tags and
    attribute values as they are (the one of BeautifulSoup on documents
    without special characters). *)
Definition empty_soup : Enhanced.Node := Enhanced.Tag "[document]" [] [].

Definition plain_attrs (attrs : list (string * string)) : string :=
  String.concat EmptyString
    (map (fun kv => (" " ++ fst kv ++ "=" ++ dq ++ snd kv ++ dq)%string) attrs).

Fixpoint plain_str (n : Enhanced.Node) : string :=
  match n with
  | Enhanced.Tag name attrs contents =>
      ("<" ++ name ++ plain_attrs attrs ++ ">"
       ++ String.concat EmptyString (map plain_str contents)
       ++ "</" ++ name ++ ">")%string
  | Enhanced.NavigableString text => text
  end.

(** A library whose markitdown conversion always fails. *)
Definition failing_library : Enhanced.Library :=
  {| Enhanced.str_element := plain_str;
     Enhanced.markitdown := Some (fun _ => Raised);
     Enhanced.now_isoformat := "2025-01-01T00:00:00";
     Enhanced.fromisoformat := fun _ => None;
     Enhanced.strptime := fun _ _ => None |}.

(** A fenced block on one line, and one that spans two lines. *)
Definition fenced_one_line : string := "```def foo(): pass```".
Definition fenced_two_lines : string :=
  ("```def foo():" ++ nl ++ "    pass```")%string.

Definition markdown_div (text : string) : Enhanced.Node :=
  Enhanced.Tag "div" [ ("class", "markdown") ]
    [ Enhanced.Tag "p" [] [ Enhanced.NavigableString text ] ].

(** A library without markitdown. *)
Definition plain_library : Enhanced.Library :=
  {| Enhanced.str_element := plain_str;
     Enhanced.markitdown := None;
     Enhanced.now_isoformat := "2025-01-01T00:00:00";
     Enhanced.fromisoformat := fun _ => None;
     Enhanced.strptime := fun _ _ => None |}.


(** A conversation with a user, an assistant and a system message. *)
Definition text_message (sender content : string) : Analyzer.message :=
  {| Analyzer.sender := Some sender;
     Analyzer.content := Some content;
     Analyzer.timestamp := Some "2025-01-01T00:00:00" |}.

Definition conversation_of (title : string) (msgs : list Analyzer.message)
  : Analyzer.conversation :=
  {| Analyzer.title := Some title;
     Analyzer.url := Some "https://gemini.google.com/app";
     Analyzer.extracted_at := Some "2025-01-01T00:00:00";
     Analyzer.message_count := Some (Z.of_nat (List.length msgs));
     Analyzer.messages := Some msgs |}.

Definition three_senders : Analyzer.conversation :=
  conversation_of "Three senders"
    [ text_message "user" "What is an API?";
      text_message "assistant" "An interface between programs.";
      text_message "system" "Session started." ].

(** The conversation without messages, and a file system that holds it. *)
Definition empty_conversation : Analyzer.conversation :=
  conversation_of "Empty" [].

(** A record whose [message_count] is not the length of [messages]. *)
Definition miscounted : Analyzer.conversation :=
  {| Analyzer.title := Some "Miscounted";
     Analyzer.url := None;
     Analyzer.extracted_at := None;
     Analyzer.message_count := Some 5%Z;
     Analyzer.messages := Some [] |}.

(** Two conversations of one message each. *)
Definition one_question : Analyzer.conversation :=
  conversation_of "Question" [ text_message "user" "What is an API?" ].

Definition one_answer : Analyzer.conversation :=
  conversation_of "Answer"
    [ text_message "assistant"
        "Use `docker run` with Python, Redis, Kafka, AWS and the REST API." ].

(** One answer that names two technical terms and touches two topics. *)
Definition two_terms : Analyzer.conversation :=
  conversation_of "Two terms"
    [ text_message "assistant" "Run Docker with Redis." ].

(** A page on which nothing is found. *)
Definition empty_page : Page :=
  {| query_selector_all := fun _ => Returned [];
     query_selector := fun _ => Returned None |}.

End Examples.

(* ================================================================= *)
(** ** The selector loop and the extraction loop *)

Module ExtractorFacts.
Import PyStr Playwright Props.

Lemma try_selectors_first_match :
  forall page skipped selector later elements,
    (forall s, In s skipped -> passed_over page s) ->
    query_selector_all page selector = Returned elements ->
    1 < List.length elements ->
    GeminiExtractor.try_selectors page (skipped ++ selector :: later)
    = elements.
Proof.
  intros page skipped selector later elements Hskip Hsel Hlen.
  induction skipped as [|s skipped IH]; simpl.
  - rewrite Hsel.
    destruct (Nat.ltb_spec 1 (List.length elements)) as [_|Hle]; [reflexivity|lia].
  - assert (Hs : passed_over page s) by (apply Hskip; now left).
    unfold passed_over in Hs.
    destruct (query_selector_all page s) as [l|].
    + destruct (Nat.ltb_spec 1 (List.length l)) as [Hlt|_]; [lia|].
      apply IH. intros s' Hin. apply Hskip. now right.
    + apply IH. intros s' Hin. apply Hskip. now right.
Qed.

Lemma try_selectors_nothing :
  forall page selectors,
    (forall s, In s selectors -> passed_over page s) ->
    GeminiExtractor.try_selectors page selectors = [].
Proof.
  intros page selectors Hskip.
  induction selectors as [|s selectors IH]; simpl; [reflexivity|].
  assert (Hs : passed_over page s) by (apply Hskip; now left).
  unfold passed_over in Hs.
  destruct (query_selector_all page s) as [l|].
  - destruct (Nat.ltb_spec 1 (List.length l)) as [Hlt|_]; [lia|].
    apply IH. intros s' Hin. apply Hskip. now right.
  - apply IH. intros s' Hin. apply Hskip. now right.
Qed.

Lemma gemini_find_first_match :
  forall page skipped selector later elements,
    GeminiExtractor.message_selectors = skipped ++ selector :: later ->
    (forall s, In s skipped -> passed_over page s) ->
    query_selector_all page selector = Returned elements ->
    1 < List.length elements ->
    GeminiExtractor.find_message_elements page = elements.
Proof.
  intros page skipped selector later elements Heq Hskip Hsel Hlen.
  unfold GeminiExtractor.find_message_elements.
  rewrite Heq, (try_selectors_first_match _ _ _ _ _ Hskip Hsel Hlen).
  destruct elements; [simpl in Hlen; lia|reflexivity].
Qed.

Lemma cli_find_first_match :
  forall page skipped selector later elements,
    CliExtractor.message_selectors = skipped ++ selector :: later ->
    (forall s, In s skipped -> passed_over page s) ->
    query_selector_all page selector = Returned elements ->
    1 < List.length elements ->
    CliExtractor.find_message_elements page = Returned elements.
Proof.
  intros page skipped selector later elements Heq Hskip Hsel Hlen.
  unfold CliExtractor.find_message_elements, CliExtractor.try_selectors.
  rewrite Heq, (try_selectors_first_match _ _ _ _ _ Hskip Hsel Hlen).
  destruct elements; [simpl in Hlen; lia|reflexivity].
Qed.

(** What the extraction loop keeps has ten characters or more. *)
Lemma too_short_false_length :
  forall text, GeminiExtractor.too_short text = false ->
    10 <= String.length (strip (or_empty text)).
Proof.
  intros text H. unfold GeminiExtractor.too_short in H.
  apply orb_false_iff in H as [_ H].
  apply Nat.ltb_ge in H. exact H.
Qed.

Lemma gemini_extract_message_content :
  forall i element m,
    GeminiExtractor.extract_message i element = Some m ->
    10 <= String.length (GeminiExtractor.content m).
Proof.
  intros i element m H. unfold GeminiExtractor.extract_message in H.
  destruct (text_content element) as [text|]; [|discriminate].
  destruct (GeminiExtractor.too_short text) eqn:Hshort; [discriminate|].
  destruct (inner_html element); [|discriminate].
  destruct (get_attribute_class element); [|discriminate].
  injection H as <-. simpl. now apply too_short_false_length.
Qed.

Lemma gemini_extract_from_content :
  forall elements i m,
    In m (GeminiExtractor.extract_from i elements) ->
    10 <= String.length (GeminiExtractor.content m).
Proof.
  induction elements as [|e elements IH]; intros i m Hin; simpl in Hin.
  - contradiction.
  - destruct (GeminiExtractor.extract_message i e) as [m'|] eqn:He.
    + destruct Hin as [<-|Hin].
      * eapply gemini_extract_message_content; eassumption.
      * eapply IH; eassumption.
    + eapply IH; eassumption.
Qed.

Lemma cli_extract_message_content :
  forall i element m,
    CliExtractor.extract_message i element = Some m ->
    10 <= String.length (CliExtractor.content m).
Proof.
  intros i element m H. unfold CliExtractor.extract_message in H.
  destruct (text_content element) as [text|]; [|discriminate].
  destruct (GeminiExtractor.too_short text) eqn:Hshort; [discriminate|].
  destruct (inner_html element); [|discriminate].
  injection H as <-. simpl. now apply too_short_false_length.
Qed.

Lemma cli_extract_from_content :
  forall elements i m,
    In m (CliExtractor.extract_from i elements) ->
    10 <= String.length (CliExtractor.content m).
Proof.
  induction elements as [|e elements IH]; intros i m Hin; simpl in Hin.
  - contradiction.
  - destruct (CliExtractor.extract_message i e) as [m'|] eqn:He.
    + destruct Hin as [<-|Hin].
      * eapply cli_extract_message_content; eassumption.
      * eapply IH; eassumption.
    + eapply IH; eassumption.
Qed.

(** A strategy whose elements are all under the threshold gives nothing. *)
Lemma gemini_extract_from_short :
  forall elements i,
    all_too_short elements -> GeminiExtractor.extract_from i elements = [].
Proof.
  induction elements as [|e elements IH]; intros i Hall; simpl; [reflexivity|].
  destruct (Hall e (or_introl eq_refl)) as [text [Ht Hs]].
  unfold GeminiExtractor.extract_message. rewrite Ht, Hs.
  apply IH. intros e' Hin. apply Hall. now right.
Qed.

Lemma cli_extract_from_short :
  forall elements i,
    all_too_short elements -> CliExtractor.extract_from i elements = [].
Proof.
  induction elements as [|e elements IH]; intros i Hall; simpl; [reflexivity|].
  destruct (Hall e (or_introl eq_refl)) as [text [Ht Hs]].
  unfold CliExtractor.extract_message. rewrite Ht, Hs.
  apply IH. intros e' Hin. apply Hall. now right.
Qed.

Lemma all_too_short_firstn :
  forall n elements, all_too_short elements -> all_too_short (firstn n elements).
Proof.
  intros n elements Hall e Hin. apply Hall.
  rewrite <- (firstn_skipn n elements). apply in_or_app. now left.
Qed.

End ExtractorFacts.

(* ================================================================= *)
(** ** The claims on the extractors *)

Section ExtractorClaims.
Import PyStr Playwright Props Examples ExtractorFacts.

(** C1, as amended.  Both extractors try their selectors in the order of the
    list and take the elements of the first selector whose query returns more
    than one element, going past a query that raises or returns at most one
    element.  The length threshold is applied afterwards, to these elements
    only: every message kept has ten characters or more, and when all the
    elements of the chosen selector are under the threshold the result is
    empty, no later selector being tried. *)
Theorem C1_first_selector_with_several_elements :
  (forall page skipped selector later elements,
      GeminiExtractor.message_selectors = skipped ++ selector :: later ->
      (forall s, In s skipped -> passed_over page s) ->
      query_selector_all page selector = Returned elements ->
      1 < List.length elements ->
      GeminiExtractor.find_message_elements page = elements
      /\ GeminiExtractor.extract_messages page
         = GeminiExtractor.extract_from 0 elements
      /\ (forall m, In m (GeminiExtractor.extract_messages page) ->
            10 <= String.length (GeminiExtractor.content m))
      /\ (all_too_short elements ->
            GeminiExtractor.extract_messages page = []))
  /\ (forall page skipped selector later elements,
        CliExtractor.message_selectors = skipped ++ selector :: later ->
        (forall s, In s skipped -> passed_over page s) ->
        query_selector_all page selector = Returned elements ->
        1 < List.length elements ->
        CliExtractor.find_message_elements page = Returned elements
        /\ CliExtractor.extract_messages page
           = Returned (CliExtractor.extract_from 0 (firstn 50 elements))
        /\ (forall m, In m (CliExtractor.extract_from 0 (firstn 50 elements)) ->
              10 <= String.length (CliExtractor.content m))
        /\ (all_too_short elements ->
              CliExtractor.extract_messages page = Returned [])).
Proof.
  split; intros page skipped selector later elements Heq Hskip Hsel Hlen.
  - pose proof (gemini_find_first_match _ _ _ _ _ Heq Hskip Hsel Hlen) as Hfind.
    assert (Hex : GeminiExtractor.extract_messages page
                  = GeminiExtractor.extract_from 0 elements)
      by (unfold GeminiExtractor.extract_messages; now rewrite Hfind).
    repeat split.
    + exact Hfind.
    + exact Hex.
    + intros m Hin. rewrite Hex in Hin.
      eapply gemini_extract_from_content; eassumption.
    + intros Hall. rewrite Hex. now apply gemini_extract_from_short.
  - pose proof (cli_find_first_match _ _ _ _ _ Heq Hskip Hsel Hlen) as Hfind.
    assert (Hex : CliExtractor.extract_messages page
                  = Returned (CliExtractor.extract_from 0 (firstn 50 elements)))
      by (unfold CliExtractor.extract_messages; now rewrite Hfind).
    repeat split.
    + exact Hfind.
    + exact Hex.
    + intros m Hin. eapply cli_extract_from_content; eassumption.
    + intros Hall. rewrite Hex. f_equal.
      apply cli_extract_from_short. now apply all_too_short_firstn.
Qed.

Lemma C1_witness :
  (forall s, In s (firstn 2 GeminiExtractor.message_selectors) ->
     passed_over page_third_selector s)
  /\ 1 < List.length [ fragment question; fragment answer ]
  /\ GeminiExtractor.find_message_elements page_third_selector
     = [ fragment question; fragment answer ]
  /\ CliExtractor.find_message_elements page_third_selector
     = Returned [ fragment question; fragment answer ].
Proof.
  assert (Hskip : forall s, In s (firstn 2 GeminiExtractor.message_selectors) ->
                    passed_over page_third_selector s).
  { intros s [<-|[<-|[]]]; cbv; auto. }
  assert (Hlen : 1 < List.length [ fragment question; fragment answer ])
    by (simpl; lia).
  split; [exact Hskip|]. split; [exact Hlen|]. split.
  - exact (proj1 (proj1 C1_first_selector_with_several_elements
                    page_third_selector
                    (firstn 2 GeminiExtractor.message_selectors) ".message"
                    (skipn 3 GeminiExtractor.message_selectors)
                    [ fragment question; fragment answer ]
                    eq_refl Hskip eq_refl Hlen)).
  - exact (proj1 (proj2 C1_first_selector_with_several_elements
                    page_third_selector
                    (firstn 2 CliExtractor.message_selectors) ".message"
                    (skipn 3 CliExtractor.message_selectors)
                    [ fragment question; fragment answer ]
                    eq_refl Hskip eq_refl Hlen)).
Defined.

(** C1, as stated, fails: on a page whose first selector finds two elements
    under the threshold and whose third selector finds two messages, the
    chain of the specification returns the two messages, and both extractors
    stop at the first selector and return nothing. *)
Lemma C1_counterexample :
  query_selector_all page_short_first testid_message
  = Returned [ fragment "hi"; fragment "ok" ]
  /\ SpecChain.first_non_trivial page_short_first
       GeminiExtractor.message_selectors
     = [ fragment question; fragment answer ]
  /\ map GeminiExtractor.content
       (GeminiExtractor.extract_from 0
          (SpecChain.first_non_trivial page_short_first
             GeminiExtractor.message_selectors))
     = [ question; answer ]
  /\ GeminiExtractor.find_message_elements page_short_first
     = [ fragment "hi"; fragment "ok" ]
  /\ GeminiExtractor.extract_messages page_short_first = []
  /\ CliExtractor.extract_messages page_short_first = Returned []
  /\ ~ (forall page,
          GeminiExtractor.find_message_elements page
          = SpecChain.first_non_trivial page GeminiExtractor.message_selectors).
Proof.
  split; [vm_compute; reflexivity|].
  split; [vm_compute; reflexivity|].
  split; [vm_compute; reflexivity|].
  split; [vm_compute; reflexivity|].
  split; [vm_compute; reflexivity|].
  split; [vm_compute; reflexivity|].
  intros H. specialize (H page_short_first).
  vm_compute in H. discriminate H.
Qed.

Lemma not_too_short :
  forall text, 10 <= String.length (strip text) ->
    GeminiExtractor.too_short (Some text) = false.
Proof.
  intros text H. unfold GeminiExtractor.too_short. simpl.
  destruct text as [|c r]; [simpl in H; lia|]. simpl.
  apply Nat.ltb_ge. exact H.
Qed.

Lemma under_threshold_too_short :
  forall text, String.length (strip text) < 10 ->
    GeminiExtractor.too_short (Some text) = true.
Proof.
  intros text H. unfold GeminiExtractor.too_short. simpl.
  apply orb_true_iff. right. apply Nat.ltb_lt. exact H.
Qed.

(** C2, as amended.  A fragment without a user or an assistant indicator
    whose stripped text has ten characters or more is kept, and its type is
    [user] exactly when the stripped text ends with a question mark or has
    fewer than 100 characters, [ai] otherwise.  A fragment whose stripped
    text has fewer than ten characters is dropped by the loop before any
    sender is assigned. *)
Theorem C2_fallback_rule_above_threshold :
  (forall i element text markup class,
      text_content element = Returned (Some text) ->
      inner_html element = Returned markup ->
      get_attribute_class element = Returned class ->
      10 <= String.length (strip text) ->
      GeminiExtractor.has_indicator GeminiExtractor.user_indicators
        markup (or_empty class) = false ->
      GeminiExtractor.has_indicator GeminiExtractor.ai_indicators
        markup (or_empty class) = false ->
      exists m,
        GeminiExtractor.extract_message i element = Some m
        /\ GeminiExtractor.content m = strip text
        /\ GeminiExtractor.type m
           = if endswith_char "?" (strip text)
                || (String.length (strip text) <? 100)
             then "user" else "ai")
  /\ (forall i element text markup,
        text_content element = Returned (Some text) ->
        inner_html element = Returned markup ->
        10 <= String.length (strip text) ->
        CliExtractor.has_indicator GeminiExtractor.user_indicators markup
        = false ->
        CliExtractor.has_indicator GeminiExtractor.ai_indicators markup
        = false ->
        exists m,
          CliExtractor.extract_message i element = Some m
          /\ CliExtractor.content m = strip text
          /\ CliExtractor.type m
             = if endswith_char "?" (strip text)
                  || (String.length (strip text) <? 100)
               then "user" else "ai")
  /\ (forall i element text,
        text_content element = Returned (Some text) ->
        String.length (strip text) < 10 ->
        GeminiExtractor.extract_message i element = None
        /\ CliExtractor.extract_message i element = None).
Proof.
  split; [|split].
  - intros i element text markup class Ht Hh Hc Hlen Hu Ha.
    unfold GeminiExtractor.extract_message.
    rewrite Ht, (not_too_short _ Hlen), Hh, Hc.
    eexists. split; [reflexivity|]. split; [reflexivity|]. simpl.
    unfold GeminiExtractor.classify. rewrite Hu, Ha. reflexivity.
  - intros i element text markup Ht Hh Hlen Hu Ha.
    unfold CliExtractor.extract_message.
    rewrite Ht, (not_too_short _ Hlen), Hh.
    eexists. split; [reflexivity|]. split; [reflexivity|]. simpl.
    unfold CliExtractor.classify. rewrite Hu, Ha. reflexivity.
  - intros i element text Ht Hlen.
    unfold GeminiExtractor.extract_message, CliExtractor.extract_message.
    rewrite Ht, (under_threshold_too_short _ Hlen). split; reflexivity.
Qed.

Lemma long_text_length : String.length (strip long_text) = 400.
Proof. vm_compute. reflexivity. Qed.

Lemma C2_witness :
  String.length (strip long_text) = 400
  /\ (exists m,
        GeminiExtractor.extract_message 0 (fragment long_text) = Some m
        /\ GeminiExtractor.content m = strip long_text
        /\ GeminiExtractor.type m = "ai")
  /\ (exists m,
        GeminiExtractor.extract_message 0 (fragment question) = Some m
        /\ GeminiExtractor.content m = strip question
        /\ GeminiExtractor.type m = "user")
  /\ (exists m,
        CliExtractor.extract_message 0 (fragment long_text) = Some m
        /\ CliExtractor.content m = strip long_text
        /\ CliExtractor.type m = "ai")
  /\ GeminiExtractor.extract_message 1 (fragment "Thanks!") = None.
Proof.
  split; [exact long_text_length|].
  assert (Hlong : 10 <= String.length (strip long_text))
    by (rewrite long_text_length; lia).
  assert (Hq : 10 <= String.length (strip question))
    by (vm_compute; lia).
  split; [|split; [|split]].
  - exact (proj1 C2_fallback_rule_above_threshold 0 (fragment long_text)
             long_text long_text None eq_refl eq_refl eq_refl Hlong
             (eq_refl false) (eq_refl false)).
  - exact (proj1 C2_fallback_rule_above_threshold 0 (fragment question)
             question question None eq_refl eq_refl eq_refl Hq
             (eq_refl false) (eq_refl false)).
  - exact (proj1 (proj2 C2_fallback_rule_above_threshold) 0
             (fragment long_text) long_text long_text eq_refl eq_refl Hlong
             (eq_refl false) (eq_refl false)).
  - assert (Hs : String.length (strip "Thanks!") < 10) by (vm_compute; lia).
    exact (proj1 (proj2 (proj2 C2_fallback_rule_above_threshold) 1
                    (fragment "Thanks!") "Thanks!" eq_refl Hs)).
Defined.

(** C2, as stated, fails on its own example: the fragment of seven
    characters without any indicator gets no sender, the loop drops it; of
    the two fragments of the scenario only the long one becomes a message. *)
Lemma C2_counterexample :
  String.length "Thanks!" = 7
  /\ GeminiExtractor.has_indicator GeminiExtractor.user_indicators
       "Thanks!" "" = false
  /\ GeminiExtractor.has_indicator GeminiExtractor.ai_indicators
       "Thanks!" "" = false
  /\ GeminiExtractor.extract_message 1 (fragment "Thanks!") = None
  /\ CliExtractor.extract_message 1 (fragment "Thanks!") = None
  /\ map (fun m => (GeminiExtractor.index m, GeminiExtractor.type m))
       (GeminiExtractor.extract_messages page_two_fragments)
     = [ (0, "ai") ]
  /\ ~ (forall i element text markup class,
          text_content element = Returned (Some text) ->
          inner_html element = Returned markup ->
          get_attribute_class element = Returned class ->
          GeminiExtractor.has_indicator GeminiExtractor.user_indicators
            markup (or_empty class) = false ->
          GeminiExtractor.has_indicator GeminiExtractor.ai_indicators
            markup (or_empty class) = false ->
          exists m,
            GeminiExtractor.extract_message i element = Some m
            /\ GeminiExtractor.type m
               = if endswith_char "?" (strip text)
                    || (String.length (strip text) <? 100)
                 then "user" else "ai").
Proof.
  split; [reflexivity|].
  split; [vm_compute; reflexivity|].
  split; [vm_compute; reflexivity|].
  split; [vm_compute; reflexivity|].
  split; [vm_compute; reflexivity|].
  split; [vm_compute; reflexivity|].
  intros H.
  destruct (H 1 (fragment "Thanks!") "Thanks!" "Thanks!" None
              eq_refl eq_refl eq_refl eq_refl eq_refl) as [m [Hm _]].
  vm_compute in Hm. discriminate Hm.
Qed.

Lemma parse_conversation_structure_senders :
  forall lib soup m,
    In m (Enhanced.parse_conversation_structure lib soup) ->
    (Enhanced.sender m = "user" /\ Enhanced.type m = "user_message")
    \/ (Enhanced.sender m = "assistant"
        /\ Enhanced.type m = "assistant_message").
Proof.
  intros lib soup m Hin.
  unfold Enhanced.parse_conversation_structure in Hin.
  apply in_flat_map in Hin as [container [_ Hin]].
  apply in_app_or in Hin as [Hin|Hin].
  - left. unfold Enhanced.user_message_of in Hin.
    destruct (Enhanced.find _ container); [|contradiction].
    destruct (Enhanced.extract_user_message _); [|contradiction].
    destruct (is_empty _); [contradiction|].
    destruct Hin as [<-|[]]. split; reflexivity.
  - right. unfold Enhanced.assistant_message_of in Hin.
    destruct (Enhanced.find _ container); [|contradiction].
    destruct (Enhanced.extract_model_response _ _); [|contradiction].
    destruct (is_empty _); [contradiction|].
    destruct Hin as [<-|[]]. split; reflexivity.
Qed.



Lemma scan_main_nothing :
  forall page selectors acc,
    (forall selector, query_selector page selector = Returned None
                      \/ query_selector page selector = Raised) ->
    GeminiExtractor.scan_main page selectors acc = acc.
Proof.
  intros page selectors acc H.
  induction selectors as [|s selectors IH]; simpl; [reflexivity|].
  destruct (H s) as [-> | ->]; [exact IH|reflexivity].
Qed.

Lemma nothing_found_passed_over :
  forall page, nothing_found page -> forall s, passed_over page s.
Proof.
  intros page [H _] s. unfold passed_over.
  destruct (H s) as [-> | ->]; simpl; [lia|exact I].
Qed.

(** C7.  When the document has no conversation container, the structured
    extractor returns the empty list of messages and the record it saves has
    [message_count] 0; when no selector of the page finds anything, the
    browser extractor returns no message and [messages_count] 0.  Both are
    values: nothing is raised for the lack of messages. *)
Theorem C7_nothing_found_gives_empty_conversation :
  (forall lib soup title url,
      Enhanced.find_all Enhanced.is_conversation_container soup = [] ->
      Enhanced.parse_conversation_structure lib soup = []
      /\ Enhanced.messages
           (Enhanced.extract_conversation_with_structure lib soup title url)
         = []
      /\ Enhanced.message_count
           (Enhanced.extract_conversation_with_structure lib soup title url)
         = 0)
  /\ (forall page,
        nothing_found page ->
        GeminiExtractor.extract_conversation_content page
        = {| GeminiExtractor.messages_count := 0;
             GeminiExtractor.messages := [] |}).
Proof.
  split.
  - intros lib soup title url H.
    assert (Hp : Enhanced.parse_conversation_structure lib soup = [])
      by (unfold Enhanced.parse_conversation_structure; now rewrite H).
    unfold Enhanced.extract_conversation_with_structure,
      Enhanced.save_structured_conversation.
    rewrite Hp. repeat split.
  - intros page Hn.
    unfold GeminiExtractor.extract_conversation_content,
      GeminiExtractor.extract_messages, GeminiExtractor.find_message_elements.
    rewrite (try_selectors_nothing page GeminiExtractor.message_selectors)
      by (intros s _; now apply nothing_found_passed_over).
    rewrite scan_main_nothing by (apply Hn). reflexivity.
Qed.

Lemma C7_witness :
  Enhanced.find_all Enhanced.is_conversation_container empty_soup = []
  /\ Enhanced.message_count
       (Enhanced.extract_conversation_with_structure plain_library
          empty_soup "Untitled" "https://gemini.google.com/app")
     = 0
  /\ nothing_found empty_page
  /\ GeminiExtractor.messages_count
       (GeminiExtractor.extract_conversation_content empty_page) = 0.
Proof.
  assert (Hn : nothing_found empty_page)
    by (split; intros s; left; reflexivity).
  split; [reflexivity|].
  split.
  - exact (proj2 (proj2 (proj1 C7_nothing_found_gives_empty_conversation
                            plain_library empty_soup "Untitled"
                            "https://gemini.google.com/app" eq_refl))).
  - split; [exact Hn|].
    exact (f_equal GeminiExtractor.messages_count
             (proj2 C7_nothing_found_gives_empty_conversation empty_page Hn)).
Defined.

End ExtractorClaims.

(* ================================================================= *)
(** ** The content normalizer *)

Module NormalizerFacts.
Import PyStr Playwright Props.

Lemma single_spaces_weaken :
  forall s, single_spaces true s = true -> single_spaces false s = true.
Proof.
  intros [|c r]; simpl; [reflexivity|].
  destruct (isspace c); [discriminate|auto].
Qed.

(** The output of the whitespace substitution has single spaces only. *)
Lemma collapse_from_single_spaces :
  forall s in_run, single_spaces in_run (Enhanced.collapse_from in_run s) = true.
Proof.
  induction s as [|c r IH]; intros in_run; simpl; [reflexivity|].
  destruct (isspace c) eqn:Hc.
  - destruct in_run; [apply IH|].
    simpl. change (isspace " ") with true. simpl. apply IH.
  - simpl. rewrite Hc. apply IH.
Qed.

Lemma lstrip_single_spaces :
  forall s b, single_spaces b s = true -> single_spaces true (lstrip s) = true.
Proof.
  intros [|c r] b H; simpl in *; [reflexivity|].
  destruct (isspace c) eqn:Hc.
  - apply andb_true_iff in H as [_ H].
    destruct r as [|d r']; simpl in *; [reflexivity|].
    destruct (isspace d) eqn:Hd; [discriminate|].
    simpl. rewrite Hd. exact H.
  - simpl. rewrite Hc. exact H.
Qed.

Lemma rstrip_single_spaces :
  forall s b, single_spaces b s = true -> single_spaces b (rstrip s) = true.
Proof.
  induction s as [|c r IH]; intros b H; simpl in *; [reflexivity|].
  destruct (isspace c) eqn:Hc.
  - apply andb_true_iff in H as [H1 H2].
    destruct (is_empty (rstrip r)); simpl; [reflexivity|].
    rewrite Hc, H1. simpl. now apply IH.
  - simpl. rewrite Hc. now apply IH.
Qed.

Lemma rstrip_no_trailing_space :
  forall s, no_trailing_space (rstrip s) = true.
Proof.
  unfold no_trailing_space.
  induction s as [|c r IH]; simpl; [reflexivity|].
  destruct (rstrip r) as [|d r'] eqn:Hr; simpl.
  - destruct (isspace c) eqn:Hc; simpl; [reflexivity|]. now rewrite Hc.
  - rewrite andb_false_r. simpl. simpl in IH. exact IH.
Qed.

Lemma strip_tidy :
  forall s b, single_spaces b s = true -> tidy (strip s) = true.
Proof.
  intros s b H. unfold tidy, strip.
  rewrite rstrip_single_spaces by (eapply lstrip_single_spaces; eassumption).
  now rewrite rstrip_no_trailing_space.
Qed.

Lemma html_to_text_tidy :
  forall content, tidy (Enhanced.html_to_text content) = true.
Proof.
  intros content. unfold Enhanced.html_to_text.
  eapply strip_tidy. apply collapse_from_single_spaces.
Qed.

(** On a text that is already tidy and has no tag, nothing changes. *)
Lemma contains_lt_cons :
  forall c r, contains "<" (String c r) = false ->
    Ascii.eqb c "<" = false /\ contains "<" r = false.
Proof.
  intros c r H.
  change (contains "<" (String c r))
    with (prefix "<" (String c r) || contains "<" r) in H.
  apply orb_false_iff in H as [Hp Hr]. split; [|exact Hr].
  change (prefix "<" (String c r))
    with (if ascii_dec "<" c then prefix EmptyString r else false) in Hp.
  destruct (ascii_dec "<" c) as [Heq|Hne].
  - destruct r; discriminate Hp.
  - apply Ascii.eqb_neq. congruence.
Qed.

Lemma remove_tags_without_tag :
  forall s, contains "<" s = false -> Enhanced.remove_tags s = s.
Proof.
  unfold Enhanced.remove_tags.
  induction s as [|c r IH]; intros H; [reflexivity|].
  apply contains_lt_cons in H as [Hc Hr].
  simpl. rewrite Hc. simpl. now rewrite IH.
Qed.

Lemma collapse_from_fixed :
  forall s b, single_spaces b s = true -> Enhanced.collapse_from b s = s.
Proof.
  induction s as [|c r IH]; intros b H; simpl in *; [reflexivity|].
  destruct (isspace c) eqn:Hc.
  - apply andb_true_iff in H as [H1 H2].
    apply andb_true_iff in H1 as [Hb Hsp].
    apply negb_true_iff in Hb. subst b.
    apply Ascii.eqb_eq in Hsp. subst c. now rewrite IH.
  - now rewrite IH.
Qed.

Lemma lstrip_fixed :
  forall s, single_spaces true s = true -> lstrip s = s.
Proof.
  intros [|c r] H; simpl in *; [reflexivity|].
  destruct (isspace c); [discriminate|reflexivity].
Qed.

Lemma rstrip_fixed :
  forall s, no_trailing_space s = true -> rstrip s = s.
Proof.
  unfold no_trailing_space.
  induction s as [|c r IH]; intros H; [reflexivity|].
  destruct r as [|d r'].
  - simpl in *. apply negb_true_iff in H. now rewrite H.
  - change (last_char (String c (String d r')))
      with (last_char (String d r')) in H.
    specialize (IH H).
    change (rstrip (String c (String d r')))
      with (let r0 := rstrip (String d r') in
            if isspace c && is_empty r0 then EmptyString else String c r0).
    rewrite IH. simpl. now rewrite andb_false_r.
Qed.

Lemma html_to_text_fixed :
  forall s, contains "<" s = false -> tidy s = true ->
    Enhanced.html_to_text s = s.
Proof.
  intros s Hlt Ht. unfold tidy in Ht. apply andb_true_iff in Ht as [Hs Hn].
  unfold Enhanced.html_to_text, Enhanced.collapse_whitespace, strip.
  rewrite (remove_tags_without_tag _ Hlt).
  rewrite (collapse_from_fixed _ _ (single_spaces_weaken _ Hs)).
  rewrite (lstrip_fixed _ Hs). now apply rstrip_fixed.
Qed.

Lemma html_to_markdown_fallback :
  forall lib element, falls_back lib element ->
    Enhanced.html_to_markdown lib element
    = Enhanced.html_to_text (Enhanced.str_element lib element).
Proof.
  intros lib element H. unfold falls_back in H.
  unfold Enhanced.html_to_markdown.
  destruct (Enhanced.markitdown lib) as [convert|]; [|reflexivity].
  now rewrite H.
Qed.

End NormalizerFacts.

Section NormalizerClaims.
Import PyStr Playwright Props Examples NormalizerFacts.

(** C10, as amended.  When markitdown is missing or fails, the normalizer
    removes the tags of the serialised element, replaces every run of
    whitespace by one space, inside a fenced block as well as outside, and
    strips the ends: the result has single spaces only.  A text without a
    tag that is already in that form is returned as it is, which is the case
    of the fenced line [def foo(): pass].  When markitdown succeeds the
    result is its text, stripped. *)
Theorem C10_fallback_collapses_all_whitespace :
  (forall lib element,
      falls_back lib element ->
      Enhanced.html_to_markdown lib element
      = strip (Enhanced.collapse_whitespace
                 (Enhanced.remove_tags (Enhanced.str_element lib element)))
      /\ tidy (Enhanced.html_to_markdown lib element) = true)
  /\ (forall content,
        contains "<" content = false -> tidy content = true ->
        Enhanced.html_to_text content = content)
  /\ (forall lib convert element text_content,
        Enhanced.markitdown lib = Some convert ->
        convert ("<html><body>" ++ Enhanced.str_element lib element
                 ++ "</body></html>")%string = Returned text_content ->
        Enhanced.html_to_markdown lib element = strip text_content)
  /\ Enhanced.clean_response_content plain_library
       (markdown_div fenced_one_line) = fenced_one_line.
Proof.
  split; [|split; [|split]].
  - intros lib element H.
    rewrite (html_to_markdown_fallback _ _ H).
    split; [reflexivity|apply html_to_text_tidy].
  - exact html_to_text_fixed.
  - intros lib convert element text_content Hm Hc.
    unfold Enhanced.html_to_markdown. now rewrite Hm, Hc.
  - vm_compute. reflexivity.
Qed.

Lemma C10_witness :
  falls_back failing_library (markdown_div fenced_two_lines)
  /\ tidy (Enhanced.html_to_markdown failing_library
             (markdown_div fenced_two_lines)) = true
  /\ contains "<" fenced_one_line = false
  /\ tidy fenced_one_line = true
  /\ Enhanced.html_to_text fenced_one_line = fenced_one_line.
Proof.
  assert (Hf : falls_back failing_library (markdown_div fenced_two_lines))
    by reflexivity.
  split; [exact Hf|].
  split.
  - exact (proj2 (proj1 C10_fallback_collapses_all_whitespace
                    failing_library (markdown_div fenced_two_lines) Hf)).
  - split; [reflexivity|]. split; [reflexivity|].
    exact (proj1 (proj2 C10_fallback_collapses_all_whitespace)
             fenced_one_line eq_refl eq_refl).
Defined.

(** C10, as stated, fails: a fenced block that spans two lines is in the
    serialised element and not in the normalized content, where the line
    break and the indentation have become one space. *)
Lemma C10_counterexample :
  contains fenced_two_lines
    (Enhanced.str_element plain_library (markdown_div fenced_two_lines))
  = true
  /\ Enhanced.clean_response_content plain_library
       (markdown_div fenced_two_lines)
     = "```def foo(): pass```"
  /\ contains fenced_two_lines
       (Enhanced.clean_response_content plain_library
          (markdown_div fenced_two_lines))
     = false
  /\ ~ (forall lib element code,
          contains ("```" ++ code ++ "```")
            (Enhanced.str_element lib element) = true ->
          contains ("```" ++ code ++ "```")
            (Enhanced.html_to_markdown lib element) = true).
Proof.
  split; [vm_compute; reflexivity|].
  split; [vm_compute; reflexivity|].
  split; [vm_compute; reflexivity|].
  intros H.
  specialize (H plain_library (markdown_div fenced_two_lines)
                ("def foo():" ++ nl ++ "    pass")%string eq_refl).
  vm_compute in H. discriminate H.
Qed.

End NormalizerClaims.

(* ================================================================= *)
(** ** The analyzer *)

Module AnalyzerFacts.
Import PyStr Playwright Props Analyzer.

(** *** An iteration order for sets: the order of first occurrence *)

Lemma first_seen_In :
  forall l x, In x (first_seen l) <-> In x l.
Proof.
  induction l as [|y r IH]; intros x; simpl; [tauto|].
  rewrite filter_In, IH, negb_true_iff, String.eqb_neq.
  destruct (string_dec y x) as [->|Hne]; [tauto|].
  split; [tauto|]. intros [H|H]; [tauto|]. right. split; [exact H|congruence].
Qed.

Lemma first_seen_NoDup :
  forall l, NoDup (first_seen l).
Proof.
  induction l as [|y r IH]; simpl; constructor.
  - rewrite filter_In, negb_true_iff, String.eqb_neq. tauto.
  - now apply NoDup_filter.
Qed.

Definition first_seen_order : SetOrder :=
  {| list_set := first_seen;
     list_set_NoDup := first_seen_NoDup;
     list_set_In := first_seen_In |}.

(** Another iteration order: the reverse of the order of first
    occurrence. *)
Lemma rev_first_seen_NoDup :
  forall l, NoDup (rev (first_seen l)).
Proof.
  intros l. apply NoDup_rev. apply first_seen_NoDup.
Qed.

Lemma rev_first_seen_In :
  forall l x, In x (rev (first_seen l)) <-> In x l.
Proof.
  intros l x. rewrite <- in_rev. apply first_seen_In.
Qed.

Definition rev_order : SetOrder :=
  {| list_set := fun l => rev (first_seen l);
     list_set_NoDup := rev_first_seen_NoDup;
     list_set_In := rev_first_seen_In |}.

Lemma list_set_nil :
  forall order, list_set order [] = [].
Proof.
  intros order. destruct (list_set order []) as [|x l] eqn:H; [reflexivity|].
  exfalso. apply (proj1 (list_set_In order [] x)). rewrite H. now left.
Qed.

(** *** The loop over the messages *)

Lemma assistant_test :
  forall s, negb (String.eqb s "user") && String.eqb s "assistant"
            = String.eqb s "assistant".
Proof.
  intros s. destruct (String.eqb_spec s "assistant") as [->|_].
  - reflexivity.
  - apply andb_false_r.
Qed.

Lemma fold_analyze_message_counts :
  forall msgs a,
    total_messages (fold_left analyze_message msgs a) = total_messages a
    /\ user_messages (fold_left analyze_message msgs a)
       = user_messages a + count_messages is_user msgs
    /\ assistant_messages (fold_left analyze_message msgs a)
       = assistant_messages a + count_messages is_assistant msgs.
Proof.
  unfold count_messages.
  induction msgs as [|msg msgs IH]; intros a; simpl.
  - repeat split; lia.
  - destruct (IH (analyze_message a msg)) as [Ht [Hu Ha]].
    rewrite Ht, Hu, Ha. simpl. rewrite assistant_test.
    unfold is_user, is_assistant, sender_of.
    destruct (String.eqb _ "user"), (String.eqb _ "assistant");
      simpl; repeat split; lia.
Qed.

Lemma sender_classes_partition :
  forall msgs,
    List.length msgs
    = count_messages is_user msgs + count_messages is_assistant msgs
      + count_messages is_unknown msgs.
Proof.
  unfold count_messages.
  induction msgs as [|msg msgs IH]; simpl; [reflexivity|].
  unfold is_unknown at 1.
  assert (H : is_user msg = true -> is_assistant msg = false).
  { unfold is_user, is_assistant. intros Hu.
    apply String.eqb_eq in Hu. now rewrite Hu. }
  destruct (is_user msg); [rewrite (H eq_refl)|destruct (is_assistant msg)];
    simpl; lia.
Qed.

Lemma analyze_counts :
  forall order data,
    total_messages (analyze order data)
    = match message_count data with Some n => n | None => 0%Z end
    /\ user_messages (analyze order data)
       = count_messages is_user (messages_of data)
    /\ assistant_messages (analyze order data)
       = count_messages is_assistant (messages_of data).
Proof.
  intros order data. unfold analyze.
  destruct (fold_analyze_message_counts (messages_of data)
              (initial_analysis data)) as [Ht [Hu Ha]].
  repeat split; simpl; assumption.
Qed.

Lemma saved_record_well_formed :
  forall lib soup title url,
    well_formed
      (load_saved
         (Enhanced.extract_conversation_with_structure lib soup title url)).
Proof.
  intros. unfold well_formed, load_saved, messages_of. simpl.
  now rewrite length_map.
Qed.

(** The total is read from the record, not counted: on a record that
    breaks the invariant it is the recorded number. *)
Remark miscounted_total :
  total_messages (analyze first_seen_order Examples.miscounted) = 5%Z
  /\ messages_of Examples.miscounted = [].
Proof. split; reflexivity. Qed.

End AnalyzerFacts.

Section AnalyzerClaims.
Import PyStr Playwright Props Examples Analyzer AnalyzerFacts.

(** C4.  For the analysis of a conversation record (a record whose
    [message_count] is the length of its [messages], as every record saved
    by the extractor is), [total_messages] is the number of user messages
    plus the number of assistant messages plus the number of messages of
    any other sender, the two counts of the analysis being the numbers of
    messages whose sender is [user] and [assistant]. *)
Theorem C4_total_is_sum_of_sender_classes :
  (forall order data,
      well_formed data ->
      total_messages (analyze order data)
      = Z.of_nat (user_messages (analyze order data)
                  + assistant_messages (analyze order data)
                  + count_messages is_unknown (messages_of data))
      /\ user_messages (analyze order data)
         = count_messages is_user (messages_of data)
      /\ assistant_messages (analyze order data)
         = count_messages is_assistant (messages_of data))
  /\ (forall lib soup title url,
        well_formed
          (load_saved
             (Enhanced.extract_conversation_with_structure
                lib soup title url))).
Proof.
  split; [|exact saved_record_well_formed].
  intros order data Hwf.
  destruct (analyze_counts order data) as [Ht [Hu Ha]].
  rewrite Ht, Hu, Ha, Hwf. repeat split.
  now rewrite <- sender_classes_partition.
Qed.

Lemma C4_witness :
  well_formed three_senders
  /\ total_messages (analyze first_seen_order three_senders) = 3%Z
  /\ user_messages (analyze first_seen_order three_senders) = 1
  /\ assistant_messages (analyze first_seen_order three_senders) = 1
  /\ count_messages is_unknown (messages_of three_senders) = 1.
Proof.
  assert (Hwf : well_formed three_senders) by reflexivity.
  destruct (proj1 C4_total_is_sum_of_sender_classes
              first_seen_order three_senders Hwf) as [Ht [Hu Ha]].
  split; [exact Hwf|].
  split; [rewrite Ht, Hu, Ha; reflexivity|].
  split; [rewrite Hu; reflexivity|].
  split; [rewrite Ha; reflexivity|reflexivity].
Defined.

(** C5, as amended.  On the empty list [generate_summary_report] returns
    the empty dict: a value, without any key, so that no count and no table
    can be read from it; on a list that is not empty it returns a summary
    whose [total_conversations] is the length of the list. *)
Theorem C5_empty_list_gives_empty_dict :
  generate_summary_report [] = EmptyDict
  /\ field total_conversations (generate_summary_report []) = None
  /\ field s_total_messages (generate_summary_report []) = None
  /\ field total_user_messages (generate_summary_report []) = None
  /\ field total_assistant_messages (generate_summary_report []) = None
  /\ field avg_messages_per_conversation (generate_summary_report []) = None
  /\ field most_common_technical_terms (generate_summary_report []) = None
  /\ field most_common_topics (generate_summary_report []) = None
  /\ field most_common_insights (generate_summary_report []) = None
  /\ field conversation_titles (generate_summary_report []) = None
  /\ (forall a rest,
        field total_conversations (generate_summary_report (a :: rest))
        = Some (S (List.length rest))).
Proof.
  repeat split.
Qed.

(** C5, as stated, fails: what the empty list gives is not a summary with
    counts at zero and empty tables, and its conversation count cannot be
    read as 0. *)
Lemma C5_counterexample :
  ~ (exists s,
        generate_summary_report [] = Summary s
        /\ total_conversations s = 0
        /\ s_total_messages s = 0%Z
        /\ total_user_messages s = 0
        /\ total_assistant_messages s = 0
        /\ most_common_technical_terms s = []
        /\ most_common_topics s = []
        /\ most_common_insights s = [])
  /\ field total_conversations (generate_summary_report []) <> Some 0.
Proof.
  split.
  - intros [s [H _]]. discriminate H.
  - discriminate.
Qed.

(** C6, as amended.  The analysis of a conversation without messages, whose
    [message_count] is 0 or absent, has every count at 0, an average of 0,
    no median, maximum or minimum, and empty lists of lengths, flow, terms
    and topics; its insights are not empty: they are the two sentences that
    the rules on the number of terms and on the average length give for
    zero. *)
Theorem C6_analysis_of_empty_conversation :
  forall order data,
    messages_of data = [] ->
    message_count data = Some 0%Z \/ message_count data = None ->
    let a := analyze order data in
    total_messages a = 0%Z
    /\ user_messages a = 0
    /\ assistant_messages a = 0
    /\ code_blocks a = 0
    /\ questions_asked a = 0
    /\ avg_message_length a = 0%Q
    /\ median_message_length a = None
    /\ max_message_length a = None
    /\ min_message_length a = None
    /\ message_lengths a = []
    /\ conversation_flow a = []
    /\ technical_terms a = []
    /\ topics_mentioned a = []
    /\ unique_technical_terms a = []
    /\ unique_topics a = []
    /\ key_insights a
       = [ "General or non-technical conversation";
           "Concise conversation with brief exchanges" ].
Proof.
  intros order data Hm Hc a. subst a. unfold analyze. rewrite Hm. simpl.
  rewrite !list_set_nil.
  unfold generate_insights. simpl. rewrite list_set_nil.
  destruct Hc as [-> | ->]; repeat split.
Qed.

Lemma C6_witness :
  messages_of empty_conversation = []
  /\ code_blocks (analyze first_seen_order empty_conversation) = 0
  /\ key_insights (analyze first_seen_order empty_conversation)
     = [ "General or non-technical conversation";
         "Concise conversation with brief exchanges" ].
Proof.
  pose proof (C6_analysis_of_empty_conversation first_seen_order
                empty_conversation eq_refl (or_introl eq_refl)) as H.
  split; [reflexivity|].
  split; [exact (proj1 (proj2 (proj2 (proj2 H))))|].
  exact (proj2 (proj2 (proj2 (proj2 (proj2 (proj2 (proj2 (proj2 (proj2
          (proj2 (proj2 (proj2 (proj2 (proj2 (proj2 H))))))))))))))).
Defined.

(** C6, as stated, fails: the insights of the analysis of the empty
    conversation are not empty. *)
Lemma C6_counterexample :
  messages_of empty_conversation = []
  /\ message_count empty_conversation = Some 0%Z
  /\ key_insights (analyze first_seen_order empty_conversation)
     = [ "General or non-technical conversation";
         "Concise conversation with brief exchanges" ]
  /\ ~ (forall order data,
          messages_of data = [] ->
          key_insights (analyze order data) = []).
Proof.
  split; [reflexivity|]. split; [reflexivity|].
  split; [vm_compute; reflexivity|].
  intros H. specialize (H first_seen_order empty_conversation eq_refl).
  vm_compute in H. discriminate H.
Qed.

(** C9.  A call of the analyzer reads the file and nothing else, and leaves
    the state as it found it.  Two runs of the program on the same file,
    each with its own iteration order of sets, both raise or both return an
    analysis; the two analyses agree on every field except
    [unique_technical_terms] and [unique_topics], which hold the same
    elements, without duplicates, in an order that may differ.  The two
    analyses are equal when the two runs iterate over sets in the same
    order, as two calls within one run do, or when neither list has more
    than one element. *)
Theorem C9_analysis_up_to_set_order :
  forall self json_file_path w1 w2,
    files w1 json_file_path = files w2 json_file_path ->
    snd (analyze_conversation self json_file_path w1) = w1
    /\ analyze_twice self json_file_path w1
       = (fst (analyze_conversation self json_file_path w1),
          fst (analyze_conversation self json_file_path w1), w1)
    /\ (fst (analyze_conversation self json_file_path w1) = Raised
        <-> fst (analyze_conversation self json_file_path w2) = Raised)
    /\ (forall a1 a2,
          fst (analyze_conversation self json_file_path w1) = Returned a1 ->
          fst (analyze_conversation self json_file_path w2) = Returned a2 ->
          fixed_fields a1 = fixed_fields a2
          /\ NoDup (unique_technical_terms a1)
          /\ NoDup (unique_topics a1)
          /\ Permutation (unique_technical_terms a1)
               (unique_technical_terms a2)
          /\ Permutation (unique_topics a1) (unique_topics a2)
          /\ (set_order w1 = set_order w2 -> a1 = a2)
          /\ (List.length (unique_technical_terms a1) <= 1 ->
              List.length (unique_topics a1) <= 1 ->
              a1 = a2)).
Proof.
  intros self json_file_path w1 w2 Hfiles.
  unfold analyze_twice, analyze_conversation. rewrite <- Hfiles.
  destruct (files w1 json_file_path) as [data|] eqn:Hf; simpl;
    rewrite ?Hf; simpl.
  - split; [reflexivity|]. split; [reflexivity|].
    split; [split; discriminate|].
    intros a1 a2 H1 H2. injection H1 as <-. injection H2 as <-.
    set (a := fold_left analyze_message (messages_of data)
                (initial_analysis data)).
    assert (Hterms : Permutation (list_set (set_order w1) (technical_terms a))
                       (list_set (set_order w2) (technical_terms a))).
    { apply NoDup_Permutation; try apply list_set_NoDup.
      intros x. now rewrite !list_set_In. }
    assert (Htopics : Permutation
                        (list_set (set_order w1) (topics_mentioned a))
                        (list_set (set_order w2) (topics_mentioned a))).
    { apply NoDup_Permutation; try apply list_set_NoDup.
      intros x. now rewrite !list_set_In. }
    assert (Hins : generate_insights (with_statistics (set_order w1) a)
                   = generate_insights (with_statistics (set_order w2) a)).
    { unfold generate_insights. simpl.
      now rewrite (Permutation_length Hterms). }
    unfold analyze. fold a.
    split; [|split; [|split; [|split; [|split; [|split]]]]].
    + unfold fixed_fields. simpl. now rewrite Hins.
    + simpl. apply list_set_NoDup.
    + simpl. apply list_set_NoDup.
    + exact Hterms.
    + exact Htopics.
    + intros Ho. now rewrite Ho.
    + simpl. intros Lterms Ltopics.
      assert (Hshort : forall l l' : list string,
                 Permutation l l' -> List.length l <= 1 -> l = l').
      { intros l l' Hp Hl. destruct l as [|x [|y l]]; simpl in Hl; [| |lia].
        - now apply Permutation_nil in Hp.
        - now apply Permutation_length_1_inv in Hp. }
      unfold with_insights. rewrite Hins. simpl.
      rewrite (Hshort _ _ Hterms Lterms), (Hshort _ _ Htopics Ltopics).
      reflexivity.
  - split; [reflexivity|]. split; [reflexivity|].
    split; [split; reflexivity|]. intros a1 a2 H. discriminate H.
Qed.

Lemma C9_witness :
  files {| files := fun _ => Some three_senders;
           set_order := first_seen_order |} "structured_a.json"
  = files {| files := fun _ => Some three_senders;
             set_order := rev_order |} "structured_a.json"
  /\ analyze first_seen_order three_senders = analyze rev_order three_senders.
Proof.
  split; [reflexivity|].
  refine (proj2 (proj2 (proj2 (proj2 (proj2 (proj2
            (proj2 (proj2 (proj2
               (C9_analysis_up_to_set_order
                  {| extracts_dir := "gemini_extracts" |}
                  "structured_a.json"
                  {| files := fun _ => Some three_senders;
                     set_order := first_seen_order |}
                  {| files := fun _ => Some three_senders;
                     set_order := rev_order |}
                  eq_refl)))
               (analyze first_seen_order three_senders)
               (analyze rev_order three_senders)
               eq_refl eq_refl)))))) _ _).
  - vm_compute. lia.
  - vm_compute. lia.
Defined.

(** The same file analysed in two runs whose sets iterate in different
    orders: the two analyses differ. *)
Lemma C9_counterexample :
  files {| files := fun _ => Some two_terms;
           set_order := first_seen_order |} "structured_a.json"
  = files {| files := fun _ => Some two_terms;
             set_order := rev_order |} "structured_a.json"
  /\ fst (analyze_conversation {| extracts_dir := "gemini_extracts" |}
            "structured_a.json"
            {| files := fun _ => Some two_terms;
               set_order := first_seen_order |})
     <> fst (analyze_conversation {| extracts_dir := "gemini_extracts" |}
               "structured_a.json"
               {| files := fun _ => Some two_terms;
                  set_order := rev_order |})
  /\ unique_technical_terms (analyze first_seen_order two_terms)
     = [ "DOCKER"; "REDIS" ]
  /\ unique_technical_terms (analyze rev_order two_terms)
     = [ "REDIS"; "DOCKER" ]
  /\ unique_topics (analyze first_seen_order two_terms)
     = [ "deployment"; "database" ]
  /\ unique_topics (analyze rev_order two_terms)
     = [ "database"; "deployment" ].
Proof.
  split; [reflexivity|]. split.
  - intros H.
    apply (f_equal (fun r => match r with
                             | Returned a => unique_technical_terms a
                             | Raised => []
                             end)) in H.
    vm_compute in H. discriminate H.
  - split; [vm_compute; reflexivity|]. split; [vm_compute; reflexivity|].
    split; vm_compute; reflexivity.
Qed.

End AnalyzerClaims.

(* ================================================================= *)
(** ** Counters and the corpus summary *)

Module CounterFacts.
Import PyStr Props Analyzer.

Definition step (c : list (string * nat)) (key : string)
  : list (string * nat) := count_one key c.

Lemma count_of_count_one :
  forall c key k,
    count_of k (count_one key c)
    = count_of k c + (if String.eqb key k then 1 else 0).
Proof.
  induction c as [|[k0 n] r IH]; intros key k; simpl.
  - destruct (String.eqb key k); reflexivity.
  - destruct (String.eqb_spec k0 key) as [->|Hne]; simpl.
    + destruct (String.eqb key k); lia.
    + destruct (String.eqb_spec k0 k) as [->|Hne'].
      * destruct (String.eqb_spec key k) as [->|_]; [congruence|lia].
      * apply IH.
Qed.

Lemma count_of_fold :
  forall items c k,
    count_of k (fold_left step items c)
    = count_of k c + count_occ string_dec items k.
Proof.
  induction items as [|x r IH]; intros c k; simpl; [lia|].
  rewrite IH. unfold step. rewrite count_of_count_one.
  destruct (String.eqb_spec x k) as [->|Hne];
    destruct (string_dec _ k); try congruence; lia.
Qed.

Lemma count_of_Counter :
  forall items k, count_of k (Counter items) = count_occ string_dec items k.
Proof. intros. unfold Counter. apply (count_of_fold items [] k). Qed.

Lemma count_of_Counter_swap :
  forall l1 l2 k,
    count_of k (Counter (l1 ++ l2)) = count_of k (Counter (l2 ++ l1)).
Proof.
  intros. rewrite !count_of_Counter, !count_occ_app. lia.
Qed.

(** The keys of a counter come in the order of first occurrence. *)
Definition mem (y : string) (keys : list string) : bool :=
  existsb (String.eqb y) keys.

Lemma keys_count_one :
  forall c key,
    map fst (count_one key c)
    = if mem key (map fst c) then map fst c else map fst c ++ [key].
Proof.
  unfold mem.
  induction c as [|[k0 n] r IH]; intros key; simpl; [reflexivity|].
  rewrite (String.eqb_sym key k0).
  destruct (String.eqb k0 key); simpl; [reflexivity|].
  rewrite IH. destruct (existsb _ _); reflexivity.
Qed.

Lemma filter_twice :
  forall (p q : string -> bool) l,
    filter p (filter q l) = filter (fun y => q y && p y) l.
Proof.
  induction l as [|y r IH]; simpl; [reflexivity|].
  destruct (q y); simpl; [destruct (p y)|]; now rewrite IH.
Qed.

Lemma keys_fold :
  forall items c,
    map fst (fold_left step items c)
    = map fst c
      ++ filter (fun y => negb (mem y (map fst c))) (first_seen items).
Proof.
  induction items as [|x r IH]; intros c; simpl.
  - now rewrite app_nil_r.
  - rewrite IH. unfold step. rewrite keys_count_one.
    destruct (mem x (map fst c)) eqn:Hx; simpl.
    + f_equal. rewrite filter_twice. apply filter_ext. intros y.
      destruct (String.eqb_spec y x) as [->|_]; simpl; [|reflexivity].
      now rewrite Hx.
    + rewrite <- app_assoc. simpl. do 2 f_equal.
      rewrite filter_twice. apply filter_ext. intros y.
      unfold mem. rewrite existsb_app. simpl.
      rewrite orb_false_r, negb_orb. apply andb_comm.
Qed.

Lemma keys_Counter :
  forall items, map fst (Counter items) = first_seen items.
Proof.
  intros. change (Counter items) with (fold_left step items []).
  rewrite (keys_fold items []). simpl.
  induction (first_seen items) as [|y r IH]; simpl; [reflexivity|].
  now rewrite IH.
Qed.

(** The sort is a stable sort by decreasing count. *)
Lemma insert_by_count_perm :
  forall l x, Permutation (insert_by_count x l) (x :: l).
Proof.
  induction l as [|y r IH]; intros x; simpl; [reflexivity|].
  destruct (snd x <? snd y); [|reflexivity].
  rewrite IH. apply perm_swap.
Qed.

Lemma sort_by_count_perm :
  forall c, Permutation (sort_by_count c) c.
Proof.
  induction c as [|x r IH]; simpl; [reflexivity|].
  rewrite insert_by_count_perm. now constructor.
Qed.

Lemma insert_by_count_descending :
  forall l x, descending l -> descending (insert_by_count x l).
Proof.
  unfold descending.
  induction l as [|y r IH]; intros x H; simpl.
  - constructor; constructor.
  - inversion H as [|? ? Hr Hy]; subst.
    destruct (Nat.ltb_spec (snd x) (snd y)) as [Hlt|Hge].
    + constructor; [now apply IH|].
      eapply Permutation_Forall.
      * symmetry. apply insert_by_count_perm.
      * constructor; [lia|exact Hy].
    + constructor; [exact H|].
      constructor; [exact Hge|].
      eapply Forall_impl; [|exact Hy]. simpl. intros z Hz. lia.
Qed.

Lemma sort_by_count_descending :
  forall c, descending (sort_by_count c).
Proof.
  induction c as [|x r IH]; simpl.
  - constructor.
  - now apply insert_by_count_descending.
Qed.

Lemma insert_by_count_with_count :
  forall l x n,
    with_count n (insert_by_count x l)
    = if Nat.eqb (snd x) n then x :: with_count n l else with_count n l.
Proof.
  unfold with_count.
  induction l as [|y r IH]; intros x n; simpl; [reflexivity|].
  destruct (Nat.ltb_spec (snd x) (snd y)) as [Hlt|Hge]; simpl.
  - rewrite IH.
    destruct (Nat.eqb_spec (snd x) n) as [Hx|Hx]; [|reflexivity].
    destruct (Nat.eqb_spec (snd y) n) as [Hy|Hy]; [lia|reflexivity].
  - reflexivity.
Qed.

Lemma sort_by_count_stable :
  forall c n, with_count n (sort_by_count c) = with_count n c.
Proof.
  induction c as [|x r IH]; intros n; simpl; [reflexivity|].
  rewrite insert_by_count_with_count, IH. reflexivity.
Qed.

End CounterFacts.

Section AggregationClaims.
Import PyStr Playwright Props Examples Analyzer AnalyzerFacts CounterFacts.

(** C8, as amended.  Aggregating two analyses in either order gives the
    same totals and the same count for every term, topic and insight.  Each
    counter holds its keys in the order in which they are first seen, and
    its sort is by decreasing count and stable, so that entries of equal
    count stay in first-seen order.  What the summary reports is the first
    ten terms, ten topics and five insights of that sorted list: beyond the
    order of ties, which of several tied entries are reported also depends
    on the order of the analyses. *)
Theorem C8_counts_commute_and_ties_first_seen :
  (forall a1 a2,
      field total_conversations (generate_summary_report [a1; a2])
      = field total_conversations (generate_summary_report [a2; a1])
      /\ field s_total_messages (generate_summary_report [a1; a2])
         = field s_total_messages (generate_summary_report [a2; a1])
      /\ field total_user_messages (generate_summary_report [a1; a2])
         = field total_user_messages (generate_summary_report [a2; a1])
      /\ field total_assistant_messages (generate_summary_report [a1; a2])
         = field total_assistant_messages (generate_summary_report [a2; a1])
      /\ field avg_messages_per_conversation
           (generate_summary_report [a1; a2])
         = field avg_messages_per_conversation
             (generate_summary_report [a2; a1])
      /\ (forall key,
            count_of key (term_frequency [a1; a2])
            = count_of key (term_frequency [a2; a1]))
      /\ (forall key,
            count_of key (topic_frequency [a1; a2])
            = count_of key (topic_frequency [a2; a1]))
      /\ (forall key,
            count_of key (insight_frequency [a1; a2])
            = count_of key (insight_frequency [a2; a1])))
  /\ (forall items,
        map fst (Counter items) = first_seen items
        /\ (forall key,
              count_of key (Counter items) = count_occ string_dec items key)
        /\ Permutation (sort_by_count (Counter items)) (Counter items)
        /\ descending (sort_by_count (Counter items))
        /\ (forall n,
              with_count n (sort_by_count (Counter items))
              = with_count n (Counter items)))
  /\ (forall a rest,
        field most_common_technical_terms
          (generate_summary_report (a :: rest))
        = Some (firstn 10 (sort_by_count
                             (Counter (all_technical_terms (a :: rest)))))
        /\ field most_common_topics (generate_summary_report (a :: rest))
           = Some (firstn 10 (sort_by_count
                                (Counter (all_topics (a :: rest)))))
        /\ field most_common_insights (generate_summary_report (a :: rest))
           = Some (firstn 5 (sort_by_count
                               (Counter (all_insights (a :: rest)))))).
Proof.
  split; [|split].
  - intros a1 a2. simpl.
    assert (Hz : (total_messages a1 + (total_messages a2 + 0)
                  = total_messages a2 + (total_messages a1 + 0))%Z) by lia.
    rewrite Hz.
    assert (Hu : user_messages a1 + (user_messages a2 + 0)
                 = user_messages a2 + (user_messages a1 + 0)) by lia.
    assert (Ha : assistant_messages a1 + (assistant_messages a2 + 0)
                 = assistant_messages a2 + (assistant_messages a1 + 0))
      by lia.
    rewrite Hu, Ha.
    unfold term_frequency, topic_frequency, insight_frequency,
      all_technical_terms, all_topics, all_insights. simpl.
    rewrite !app_nil_r.
    repeat split; intros key; apply count_of_Counter_swap.
  - intros items. repeat split.
    + apply keys_Counter.
    + intros key. apply count_of_Counter.
    + apply sort_by_count_perm.
    + apply sort_by_count_descending.
    + intros n. apply sort_by_count_stable.
  - intros a rest. repeat split.
Qed.

(** C8, as stated, fails: with the analyses of a conversation of one
    question and of a conversation of one answer, six insights are counted,
    five are reported, and the two orders do not report the same five. *)
Lemma C8_counterexample :
  field most_common_insights
    (generate_summary_report
       [ analyze first_seen_order one_question;
         analyze first_seen_order one_answer ])
  = Some [ ("Concise conversation with brief exchanges", 2);
           ("User-driven conversation with many questions", 1);
           ("General or non-technical conversation", 1);
           ("Assistant-heavy conversation with detailed responses", 1);
           ("Moderately technical discussion", 1) ]
  /\ field most_common_insights
       (generate_summary_report
          [ analyze first_seen_order one_answer;
            analyze first_seen_order one_question ])
     = Some [ ("Concise conversation with brief exchanges", 2);
              ("Assistant-heavy conversation with detailed responses", 1);
              ("Moderately technical discussion", 1);
              ("Contains code examples and technical details", 1);
              ("User-driven conversation with many questions", 1) ]
  /\ ~ (forall a1 a2 s12 s21,
          generate_summary_report [a1; a2] = Summary s12 ->
          generate_summary_report [a2; a1] = Summary s21 ->
          Permutation (most_common_insights s12) (most_common_insights s21)).
Proof.
  split; [vm_compute; reflexivity|].
  split; [vm_compute; reflexivity|].
  intros H.
  specialize (H (analyze first_seen_order one_question)
                (analyze first_seen_order one_answer) _ _ eq_refl eq_refl).
  apply (Permutation_in ("General or non-technical conversation", 1)) in H;
    [|vm_compute; tauto].
  vm_compute in H.
  repeat (destruct H as [H|H]; [discriminate H|]).
  exact H.
Qed.

End AggregationClaims.

(* ================================================================= *)
(** ** Further code of the browser extractor *)

From Stdlib Require DecimalString.

Module GeminiMarkdown.
Import PyStr Playwright.

(** [str(n)] for a count. *)
Definition str_nat (n : nat) : string :=
  DecimalString.NilEmpty.string_of_uint (Nat.to_uint n).

(** What [_convert_messages_to_markdown] takes from outside the model: the
    two pictographs of the headers, which are not Latin-1 characters, and
    [datetime.now().strftime('%Y-%m-%d %H:%M:%S')]. *)
Record Setting : Type := mkSetting {
  user_icon : string;
  ai_icon : string;
  now_text : string
}.

(** The header of one message. *)
Definition header_of (st : Setting) (message : GeminiExtractor.message_data)
  : string :=
  let message_type := GeminiExtractor.type message in
  let header :=
    if String.eqb message_type "user"
    then ("## " ++ user_icon st ++ " User")%string
    else if String.eqb message_type "ai"
    then ("## " ++ ai_icon st ++ " Gemini")%string
    else ("## Message " ++ str_nat (GeminiExtractor.index message + 1))%string
  in
  if is_empty (GeminiExtractor.timestamp message) then header
  else (header ++ " _" ++ GeminiExtractor.timestamp message ++ "_")%string.

(** The four lines the loop appends for one message. *)
Definition message_lines (st : Setting)
  (message : GeminiExtractor.message_data) : list string :=
  [ header_of st message; ""; GeminiExtractor.content message; "" ].

(** The list [markdown_lines] at the end of the function. *)
Definition markdown_lines (st : Setting)
  (messages : list GeminiExtractor.message_data) (url : string)
  : list string :=
  [ "# Gemini Conversation";
    "";
    ("**URL:** " ++ url)%string;
    ("**Extracted:** " ++ now_text st)%string;
    ("**Messages:** " ++ str_nat (List.length messages))%string;
    "";
    "---";
    "" ]
  ++ flat_map (message_lines st) messages
  ++ [ "---"; ""; "*Extracted using Playwright DOM manipulation*" ].

(** [_convert_messages_to_markdown] *)
Definition convert_messages_to_markdown (st : Setting)
  (messages : list GeminiExtractor.message_data) (url : string) : string :=
  join nl (markdown_lines st messages url).

(** [conversation_url.split('/')[-1] if '/' in conversation_url
     else 'unknown']: what follows the last slash. *)
Fixpoint last_segment (acc : string) (s : string) : string :=
  match s with
  | EmptyString => acc
  | String c r =>
      if Ascii.eqb c "/" then last_segment EmptyString r
      else last_segment (acc ++ String c EmptyString) r
  end.

Definition conv_id (conversation_url : string) : string :=
  if contains "/" conversation_url
  then last_segment EmptyString conversation_url
  else "unknown".

End GeminiMarkdown.

Module ExtractionExtras.
Import PyStr Playwright Props ExtractorFacts NormalizerFacts GeminiMarkdown.

(** *** Strings *)

Lemma length_append :
  forall s t, String.length (s ++ t) = String.length s + String.length t.
Proof. induction s as [|c s IH]; intros t; simpl; [reflexivity|now rewrite IH]. Qed.

Lemma length_take :
  forall n s, String.length (take n s) <= n.
Proof.
  unfold take. induction n as [|n IH]; intros [|c s]; simpl; try lia.
  specialize (IH s). lia.
Qed.

Lemma lstrip_starts :
  forall s, match lstrip s with
            | EmptyString => True
            | String c _ => isspace c = false
            end.
Proof.
  induction s as [|c r IH]; simpl; [exact I|].
  destruct (isspace c) eqn:Hc; [exact IH|exact Hc].
Qed.

Lemma strip_idempotent :
  forall s, strip (strip s) = strip s.
Proof.
  intros s. unfold strip.
  pose proof (lstrip_starts s) as H.
  destruct (lstrip s) as [|c r] eqn:Hl; [reflexivity|].
  assert (Hr : rstrip (String c r) = String c (rstrip r))
    by (simpl; now rewrite H).
  rewrite Hr. simpl lstrip. rewrite H. rewrite <- Hr.
  apply rstrip_fixed. apply rstrip_no_trailing_space.
Qed.

(** *** The messages of the extraction loop *)

Lemma classify_two_types :
  forall markup classes text,
    GeminiExtractor.classify markup classes text = "user"
    \/ GeminiExtractor.classify markup classes text = "ai".
Proof.
  intros. unfold GeminiExtractor.classify.
  destruct (GeminiExtractor.has_indicator _ _ _); [now left|].
  destruct (GeminiExtractor.has_indicator _ _ _); [now right|].
  destruct (GeminiExtractor.looks_like_question _); [now left|now right].
Qed.

Lemma cli_classify_two_types :
  forall markup text,
    CliExtractor.classify markup text = "user"
    \/ CliExtractor.classify markup text = "ai".
Proof.
  intros. unfold CliExtractor.classify.
  destruct (CliExtractor.has_indicator _ _); [now left|].
  destruct (CliExtractor.has_indicator _ _); [now right|].
  destruct (GeminiExtractor.looks_like_question _); [now left|now right].
Qed.

Lemma html_excerpt_length :
  forall markup, String.length (GeminiExtractor.html_excerpt markup) <= 503.
Proof.
  intros markup. unfold GeminiExtractor.html_excerpt.
  pose proof (length_take 500 markup).
  destruct (String.length markup <? 500); [lia|].
  rewrite length_append. simpl. lia.
Qed.

Lemma timestamp_of_stripped :
  forall element,
    strip (GeminiExtractor.timestamp_of element)
    = GeminiExtractor.timestamp_of element.
Proof.
  intros element. unfold GeminiExtractor.timestamp_of.
  destruct (timestamp_text element) as [[[[t|]|]|]|]; try reflexivity.
  destruct (is_empty t); [reflexivity|apply strip_idempotent].
Qed.

Lemma extract_message_fields :
  forall i element m,
    GeminiExtractor.extract_message i element = Some m ->
    GeminiExtractor.index m = i
    /\ (GeminiExtractor.type m = "user" \/ GeminiExtractor.type m = "ai")
    /\ strip (GeminiExtractor.content m) = GeminiExtractor.content m
    /\ strip (GeminiExtractor.timestamp m) = GeminiExtractor.timestamp m
    /\ String.length (GeminiExtractor.html m) <= 503.
Proof.
  intros i element m H. unfold GeminiExtractor.extract_message in H.
  destruct (text_content element) as [text|]; [|discriminate].
  destruct (GeminiExtractor.too_short text); [discriminate|].
  destruct (inner_html element) as [markup|]; [|discriminate].
  destruct (get_attribute_class element) as [class|]; [|discriminate].
  injection H as <-. simpl.
  split; [reflexivity|]. split; [apply classify_two_types|].
  split; [apply strip_idempotent|].
  split; [apply timestamp_of_stripped|apply html_excerpt_length].
Qed.

Lemma extract_from_source :
  forall elements i m,
    In m (GeminiExtractor.extract_from i elements) ->
    i <= GeminiExtractor.index m < i + List.length elements
    /\ exists element,
         nth_error elements (GeminiExtractor.index m - i) = Some element
         /\ GeminiExtractor.extract_message (GeminiExtractor.index m) element
            = Some m.
Proof.
  induction elements as [|e elements IH]; intros i m Hin; simpl in Hin.
  - contradiction.
  - assert (Hrest : In m (GeminiExtractor.extract_from (S i) elements) ->
              i <= GeminiExtractor.index m < i + List.length (e :: elements)
              /\ exists element,
                   nth_error (e :: elements) (GeminiExtractor.index m - i)
                   = Some element
                   /\ GeminiExtractor.extract_message
                        (GeminiExtractor.index m) element = Some m).
    { intros H. destruct (IH _ _ H) as [Hb [el [Hn He]]]. simpl. split; [lia|].
      exists el. split; [|exact He].
      replace (GeminiExtractor.index m - i)
        with (S (GeminiExtractor.index m - S i)) by lia.
      exact Hn. }
    destruct (GeminiExtractor.extract_message i e) as [m'|] eqn:He;
      [|now apply Hrest].
    destruct Hin as [<-|Hin]; [|now apply Hrest].
    destruct (extract_message_fields _ _ _ He) as [Hi _]. rewrite Hi.
    simpl. split; [lia|]. exists e. rewrite Nat.sub_diag. now split.
Qed.

Lemma extract_from_increasing :
  forall elements i,
    StronglySorted lt
      (map GeminiExtractor.index (GeminiExtractor.extract_from i elements)).
Proof.
  induction elements as [|e elements IH]; intros i; simpl; [constructor|].
  destruct (GeminiExtractor.extract_message i e) as [m|] eqn:He; [|apply IH].
  simpl. constructor; [apply IH|].
  destruct (extract_message_fields _ _ _ He) as [Hi _]. rewrite Hi.
  apply Forall_forall. intros j Hj. apply in_map_iff in Hj as [m' [<- Hin]].
  apply extract_from_source in Hin. lia.
Qed.

Lemma extract_from_length :
  forall elements i,
    List.length (GeminiExtractor.extract_from i elements)
    <= List.length elements.
Proof.
  induction elements as [|e elements IH]; intros i; simpl; [lia|].
  specialize (IH (S i)).
  destruct (GeminiExtractor.extract_message i e); simpl; lia.
Qed.

Lemma cli_extract_from_length :
  forall elements i,
    List.length (CliExtractor.extract_from i elements)
    <= List.length elements.
Proof.
  induction elements as [|e elements IH]; intros i; simpl; [lia|].
  specialize (IH (S i)).
  destruct (CliExtractor.extract_message i e); simpl; lia.
Qed.

Lemma cli_extract_from_types :
  forall elements i m,
    In m (CliExtractor.extract_from i elements) ->
    (CliExtractor.type m = "user" \/ CliExtractor.type m = "ai")
    /\ CliExtractor.length m = String.length (CliExtractor.content m)
    /\ strip (CliExtractor.content m) = CliExtractor.content m.
Proof.
  induction elements as [|e elements IH]; intros i m Hin; simpl in Hin.
  - contradiction.
  - destruct (CliExtractor.extract_message i e) as [m'|] eqn:He;
      [|now apply (IH (S i))].
    destruct Hin as [<-|Hin]; [|now apply (IH (S i))].
    unfold CliExtractor.extract_message in He.
    destruct (text_content e) as [text|]; [|discriminate].
    destruct (GeminiExtractor.too_short text); [discriminate|].
    destruct (inner_html e) as [markup|]; [|discriminate].
    injection He as <-. simpl.
    split; [apply cli_classify_two_types|].
    split; [reflexivity|apply strip_idempotent].
Qed.

End ExtractionExtras.

Module MarkdownFacts.
Import PyStr Playwright Props GeminiMarkdown.

Lemma message_lines_nth :
  forall st messages k m,
    nth_error messages k = Some m ->
    nth_error (flat_map (message_lines st) messages) (4 * k)
    = Some (header_of st m)
    /\ nth_error (flat_map (message_lines st) messages) (2 + 4 * k)
       = Some (GeminiExtractor.content m).
Proof.
  intros st. induction messages as [|m0 messages IH]; intros k m H.
  - destruct k; discriminate H.
  - destruct k as [|k].
    + injection H as <-. split; reflexivity.
    + destruct (IH k m H) as [H1 H2].
      replace (4 * S k) with (4 + 4 * k) by lia.
      replace (2 + (4 + 4 * k)) with (4 + (2 + 4 * k)) by lia.
      split; simpl; assumption.
Qed.

Lemma message_lines_length :
  forall st messages,
    List.length (flat_map (message_lines st) messages)
    = 4 * List.length messages.
Proof.
  intros st. induction messages as [|m messages IH]; simpl; [reflexivity|].
  simpl in IH. rewrite IH. lia.
Qed.

Lemma contains_char_cons :
  forall a c r,
    contains (String a EmptyString) (String c r)
    = Ascii.eqb c a || contains (String a EmptyString) r.
Proof.
  intros a c r.
  change (contains (String a EmptyString) (String c r))
    with (prefix (String a EmptyString) (String c r)
          || contains (String a EmptyString) r).
  f_equal.
  change (prefix (String a EmptyString) (String c r))
    with (if ascii_dec a c then prefix EmptyString r else false).
  destruct (ascii_dec a c) as [->|Hne].
  - rewrite Ascii.eqb_refl. now destruct r.
  - symmetry. apply Ascii.eqb_neq. congruence.
Qed.

Lemma contains_char_append :
  forall a s t,
    contains (String a EmptyString) (s ++ t)
    = contains (String a EmptyString) s || contains (String a EmptyString) t.
Proof.
  intros a. induction s as [|c s IH]; intros t.
  - simpl append. now destruct t.
  - change ((String c s ++ t)%string) with (String c (s ++ t)).
    rewrite !contains_char_cons, IH. now rewrite orb_assoc.
Qed.

Lemma last_segment_no_slash :
  forall s acc,
    contains "/" acc = false ->
    contains "/" (last_segment acc s) = false.
Proof.
  induction s as [|c r IH]; intros acc H; simpl; [exact H|].
  destruct (Ascii.eqb c "/") eqn:Hc.
  - apply IH. reflexivity.
  - apply IH. rewrite contains_char_append, H, contains_char_cons, Hc.
    reflexivity.
Qed.

Lemma last_segment_without_slash :
  forall s acc,
    contains "/" s = false -> last_segment acc s = (acc ++ s)%string.
Proof.
  induction s as [|c r IH]; intros acc H; simpl.
  - clear. induction acc as [|a acc IH]; simpl; [reflexivity|now rewrite <- IH].
  - rewrite contains_char_cons in H. apply orb_false_iff in H as [Hc Hr].
    rewrite Hc, IH by exact Hr.
    clear. induction acc as [|a acc IH]; simpl; [reflexivity|now rewrite IH].
Qed.

Lemma last_segment_after_slash :
  forall base acc id,
    contains "/" id = false ->
    last_segment acc (base ++ "/" ++ id) = id.
Proof.
  induction base as [|c base IH]; intros acc id H.
  - simpl. now rewrite last_segment_without_slash.
  - change ((String c base ++ "/" ++ id)%string)
      with (String c (base ++ "/" ++ id)).
    simpl. destruct (Ascii.eqb c "/"); now apply IH.
Qed.

End MarkdownFacts.

Module FallbackFacts.
Import PyStr Playwright Props.

(** The text of the element is there and has more than twenty characters
    once stripped. *)
Definition substantial (element : ElementHandle) : Prop :=
  exists text,
    text_content element = Returned (Some text)
    /\ 20 < String.length (strip text).

Lemma substantial_text_true :
  forall element text,
    text_content element = Returned text ->
    GeminiExtractor.substantial_text text = true ->
    substantial element.
Proof.
  intros element [t|] Ht H; simpl in H; [|discriminate].
  apply andb_true_iff in H as [_ H]. apply Nat.ltb_lt in H.
  exists t. now split.
Qed.

Lemma scan_divs_substantial :
  forall divs acc,
    Forall substantial acc ->
    Forall substantial (fst (GeminiExtractor.scan_divs divs acc)).
Proof.
  induction divs as [|div divs IH]; intros acc Hacc; simpl; [exact Hacc|].
  destruct (text_content div) as [text|] eqn:Ht; [|exact Hacc].
  apply IH.
  destruct (GeminiExtractor.substantial_text text) eqn:Hs; [|exact Hacc].
  apply Forall_app. split; [exact Hacc|].
  constructor; [|constructor].
  eapply substantial_text_true; eassumption.
Qed.

Lemma scan_main_substantial :
  forall page selectors acc,
    Forall substantial acc ->
    Forall substantial (GeminiExtractor.scan_main page selectors acc).
Proof.
  intros page. induction selectors as [|s selectors IH]; intros acc Hacc;
    simpl; [exact Hacc|].
  destruct (query_selector page s) as [[main_element|]|]; [|now apply IH|exact Hacc].
  destruct (query_selector_all_div main_element) as [divs|]; [|exact Hacc].
  pose proof (scan_divs_substantial divs acc Hacc) as H.
  destruct (GeminiExtractor.scan_divs divs acc) as [acc' raised]. simpl in H.
  destruct raised; [exact H|].
  destruct acc'; [now apply IH|exact H].
Qed.

Lemma cli_scan_divs_substantial :
  forall divs, Forall substantial (CliExtractor.scan_divs divs).
Proof.
  induction divs as [|div divs IH]; simpl; [constructor|].
  destruct (text_content div) as [text|] eqn:Ht; [|exact IH].
  destruct (GeminiExtractor.substantial_text text) eqn:Hs; [|exact IH].
  constructor; [|exact IH]. eapply substantial_text_true; eassumption.
Qed.

End FallbackFacts.

(* ================================================================= *)
(** ** Further properties of the browser extractors *)

Module ExtraExamples.
Import PyStr Playwright Examples.

(** A [main] element with three [div]s, one of them too short to count. *)
Definition main_element : ElementHandle :=
  {| text_content := Returned (Some "page");
     inner_html := Returned "page";
     get_attribute_class := Returned None;
     timestamp_text := Returned None;
     query_selector_all_div :=
       Returned [ fragment "menu"; fragment question; fragment answer ] |}.

(** No selector finds several elements; [main] is there. *)
Definition page_main_fallback : Page :=
  {| query_selector_all := fun _ => Returned [];
     query_selector := fun selector =>
       if String.eqb selector "main" then Returned (Some main_element)
       else Returned None |}.

Definition setting : GeminiMarkdown.Setting :=
  {| GeminiMarkdown.user_icon := "(user)";
     GeminiMarkdown.ai_icon := "(ai)";
     GeminiMarkdown.now_text := "2025-01-01 00:00:00" |}.

Definition question_message : GeminiExtractor.message_data :=
  {| GeminiExtractor.index := 0;
     GeminiExtractor.type := "user";
     GeminiExtractor.content := question;
     GeminiExtractor.timestamp := "";
     GeminiExtractor.html := question |}.

End ExtraExamples.

Section ExtractionExtraClaims.
Import PyStr Playwright Props Examples ExtraExamples ExtractorFacts.
Import ExtractionExtras MarkdownFacts FallbackFacts GeminiMarkdown.

(** X1.  Every message the browser extractor returns has the type [user] or
    [ai], never the initial [unknown]; its content and its timestamp are
    stripped, and its markup excerpt has at most 503 characters. *)
Theorem X1_extracted_messages_are_typed_and_stripped :
  forall page m,
    In m (GeminiExtractor.extract_messages page) ->
    (GeminiExtractor.type m = "user" \/ GeminiExtractor.type m = "ai")
    /\ strip (GeminiExtractor.content m) = GeminiExtractor.content m
    /\ strip (GeminiExtractor.timestamp m) = GeminiExtractor.timestamp m
    /\ String.length (GeminiExtractor.html m) <= 503.
Proof.
  intros page m Hin. unfold GeminiExtractor.extract_messages in Hin.
  apply extract_from_source in Hin as [_ [element [_ He]]].
  apply extract_message_fields in He. tauto.
Qed.

Lemma X1_witness :
  In question_message (GeminiExtractor.extract_messages page_third_selector)
  /\ strip (GeminiExtractor.content question_message)
     = GeminiExtractor.content question_message.
Proof.
  assert (Hin : In question_message
                  (GeminiExtractor.extract_messages page_third_selector))
    by (vm_compute; left; reflexivity).
  split; [exact Hin|].
  exact (proj1 (proj2 (X1_extracted_messages_are_typed_and_stripped
                         page_third_selector question_message Hin))).
Defined.

(** X2.  The messages come in the order of the elements: their indices
    increase strictly, each index is the position of the element the message
    was read from, and there are no more messages than elements; the
    command-line extractor returns at most fifty messages. *)
Theorem X2_indices_follow_the_elements :
  forall page,
    StronglySorted lt
      (map GeminiExtractor.index (GeminiExtractor.extract_messages page))
    /\ GeminiExtractor.messages_count
         (GeminiExtractor.extract_conversation_content page)
       <= List.length (GeminiExtractor.find_message_elements page)
    /\ (forall m,
          In m (GeminiExtractor.extract_messages page) ->
          exists element,
            nth_error (GeminiExtractor.find_message_elements page)
                      (GeminiExtractor.index m) = Some element
            /\ GeminiExtractor.extract_message (GeminiExtractor.index m)
                 element = Some m)
    /\ (forall messages,
          CliExtractor.extract_messages page = Returned messages ->
          List.length messages <= 50).
Proof.
  intros page. split; [apply extract_from_increasing|].
  split; [apply extract_from_length|]. split.
  - intros m Hin. unfold GeminiExtractor.extract_messages in Hin.
    apply extract_from_source in Hin as [_ [element [Hn He]]].
    rewrite Nat.sub_0_r in Hn. now exists element.
  - intros messages H. unfold CliExtractor.extract_messages in H.
    destruct (CliExtractor.find_message_elements page) as [els|];
      [|discriminate].
    injection H as <-.
    pose proof (cli_extract_from_length (firstn 50 els) 0) as H1.
    pose proof (firstn_le_length 50 els) as H2.
    exact (Nat.le_trans _ _ _ H1 H2).
Qed.

Lemma X2_witness :
  In question_message (GeminiExtractor.extract_messages page_third_selector)
  /\ exists element,
       nth_error (GeminiExtractor.find_message_elements page_third_selector)
                 (GeminiExtractor.index question_message) = Some element
       /\ GeminiExtractor.extract_message
            (GeminiExtractor.index question_message) element
          = Some question_message.
Proof.
  assert (Hin : In question_message
                  (GeminiExtractor.extract_messages page_third_selector))
    by (vm_compute; left; reflexivity).
  split; [exact Hin|].
  exact (proj1 (proj2 (proj2 (X2_indices_follow_the_elements
                                page_third_selector)))
           question_message Hin).
Defined.

(** X3.  When no selector finds several elements, every element the
    fallback takes below a main container has a text of more than twenty
    characters once stripped; none of them is under the threshold of the
    extraction loop. *)
Theorem X3_fallback_elements_are_substantial :
  forall page element,
    GeminiExtractor.try_selectors page GeminiExtractor.message_selectors
    = [] ->
    In element (GeminiExtractor.find_message_elements page) ->
    exists text,
      text_content element = Returned (Some text)
      /\ 20 < String.length (strip text)
      /\ GeminiExtractor.too_short (Some text) = false.
Proof.
  intros page element Hsel Hin.
  unfold GeminiExtractor.find_message_elements in Hin. rewrite Hsel in Hin.
  pose proof (scan_main_substantial page GeminiExtractor.main_selectors []
                (Forall_nil _)) as H.
  rewrite Forall_forall in H. destruct (H _ Hin) as [text [Ht Hl]].
  exists text. split; [exact Ht|]. split; [exact Hl|].
  apply not_too_short. lia.
Qed.

Lemma X3_witness :
  GeminiExtractor.find_message_elements page_main_fallback
  = [ fragment question; fragment answer ]
  /\ exists text,
       text_content (fragment answer) = Returned (Some text)
       /\ 20 < String.length (strip text)
       /\ GeminiExtractor.too_short (Some text) = false.
Proof.
  split; [vm_compute; reflexivity|].
  apply (X3_fallback_elements_are_substantial page_main_fallback
           (fragment answer)).
  - vm_compute. reflexivity.
  - vm_compute. right. left. reflexivity.
Defined.

(** X4.  The transcript has eight lines of heading, four lines for each
    message and three closing lines; the lines of a message are at the place
    of the message in the list, its header first and its content two lines
    below.  For a message of the extractor the header is the user header or
    the assistant header, never the numbered one. *)
Theorem X4_transcript_holds_every_message_in_order :
  forall st messages url,
    List.length (markdown_lines st messages url)
    = 11 + 4 * List.length messages
    /\ (forall k m,
          nth_error messages k = Some m ->
          nth_error (markdown_lines st messages url) (8 + 4 * k)
          = Some (header_of st m)
          /\ nth_error (markdown_lines st messages url) (10 + 4 * k)
             = Some (GeminiExtractor.content m))
    /\ (forall page m,
          In m (GeminiExtractor.extract_messages page) ->
          exists suffix,
            header_of st m = ("## " ++ user_icon st ++ " User" ++ suffix)%string
            \/ header_of st m
               = ("## " ++ ai_icon st ++ " Gemini" ++ suffix)%string).
Proof.
  intros st messages url. split; [|split].
  - unfold markdown_lines. rewrite !length_app, message_lines_length.
    simpl. lia.
  - intros k m Hk. destruct (message_lines_nth st messages k m Hk) as [H1 H2].
    assert (Hlen : 2 + 4 * k
                   < List.length (flat_map (message_lines st) messages)).
    { apply nth_error_Some. rewrite H2. discriminate. }
    unfold markdown_lines. split.
    + rewrite nth_error_app2 by (simpl List.length; lia).
      simpl List.length.
      replace (8 + 4 * k - 8) with (4 * k) by lia.
      rewrite nth_error_app1 by lia. exact H1.
    + rewrite nth_error_app2 by (simpl List.length; lia).
      simpl List.length.
      replace (10 + 4 * k - 8) with (2 + 4 * k) by lia.
      rewrite nth_error_app1 by lia. exact H2.
  - intros page m Hin.
    apply X1_extracted_messages_are_typed_and_stripped in Hin as [Ht _].
    unfold header_of.
    exists (if is_empty (GeminiExtractor.timestamp m) then EmptyString
            else (" _" ++ GeminiExtractor.timestamp m ++ "_")%string).
    assert (Happ : forall a b c d : string,
               ((a ++ b ++ c) ++ d = a ++ b ++ c ++ d)%string).
    { intros a b c d.
      induction a as [|x a IH]; simpl; [|now rewrite IH].
      induction b as [|y b IH]; simpl; [reflexivity|now rewrite IH]. }
    assert (Hnil : forall a : string, (a ++ "")%string = a).
    { induction a as [|x a IH]; simpl; [reflexivity|now rewrite IH]. }
    destruct Ht as [-> | ->]; simpl String.eqb; cbv iota;
      [left|right];
      destruct (is_empty (GeminiExtractor.timestamp m));
      rewrite ?Happ, ?Hnil; reflexivity.
Qed.

Lemma X4_witness :
  nth_error [ question_message ] 0 = Some question_message
  /\ nth_error (markdown_lines setting [ question_message ] "https://g/app/1")
               (10 + 4 * 0)
     = Some question.
Proof.
  split; [reflexivity|].
  exact (proj2 (proj1 (proj2 (X4_transcript_holds_every_message_in_order
                                setting [ question_message ]
                                "https://g/app/1"))
                  0 question_message eq_refl)).
Defined.

(** X5.  The identifier taken from the address of a conversation holds no
    slash; for an address that ends with a slash and an identifier without
    slash it is that identifier, and for an address without any slash it is
    [unknown]. *)
Theorem X5_conv_id_is_the_last_segment :
  (forall conversation_url, contains "/" (conv_id conversation_url) = false)
  /\ (forall base id,
        contains "/" id = false ->
        conv_id (base ++ "/" ++ id) = id)
  /\ (forall conversation_url,
        contains "/" conversation_url = false ->
        conv_id conversation_url = "unknown").
Proof.
  split; [|split].
  - intros u. unfold conv_id.
    destruct (contains "/" u); [|reflexivity].
    now apply last_segment_no_slash.
  - intros base id H. unfold conv_id.
    change ((base ++ "/" ++ id)%string) with ((base ++ String "/" id)%string).
    rewrite contains_char_append, contains_char_cons, Ascii.eqb_refl.
    rewrite orb_true_r. exact (last_segment_after_slash base "" id H).
  - intros u H. unfold conv_id. now rewrite H.
Qed.

Lemma X5_witness :
  contains "/" "868452c61789e8d8" = false
  /\ conv_id "https://gemini.google.com/app/868452c61789e8d8"
     = "868452c61789e8d8"
  /\ conv_id "about:blank" = "unknown".
Proof.
  split; [reflexivity|]. split.
  - exact (proj1 (proj2 X5_conv_id_is_the_last_segment)
             "https://gemini.google.com/app" "868452c61789e8d8" eq_refl).
  - exact (proj2 (proj2 X5_conv_id_is_the_last_segment)
             "about:blank" eq_refl).
Defined.

End ExtractionExtraClaims.

(* ================================================================= *)
(** ** Further code and properties of the structured extractor *)

Module EnhancedNaming.
Import PyStr.

(** [c.isalnum()]: the letters and digits of Latin-1. *)
Definition isalnum (c : ascii) : bool :=
  Analyzer.is_word c && negb (Ascii.eqb c "_").

(** [c.isalnum() or c in (' ', '-', '_')] *)
Definition allowed (c : ascii) : bool :=
  isalnum c || Ascii.eqb c " " || Ascii.eqb c "-" || Ascii.eqb c "_".

Fixpoint filter_chars (p : ascii -> bool) (s : string) : string :=
  match s with
  | EmptyString => EmptyString
  | String c r => if p c then String c (filter_chars p r) else filter_chars p r
  end.

(** [''.join(c for c in title if ...).rstrip()[:50]] *)
Definition safe_title (title : string) : string :=
  take 50 (rstrip (filter_chars allowed title)).

Fixpoint all_chars (p : ascii -> bool) (s : string) : bool :=
  match s with
  | EmptyString => true
  | String c r => p c && all_chars p r
  end.

End EnhancedNaming.

Module EnhancedFacts.
Import PyStr Playwright Props NormalizerFacts ExtractionExtras EnhancedNaming.
Import Enhanced.

(** Induction on documents, the contents of a tag being documents. *)
Fixpoint Node_induction (P : Node -> Prop)
  (Htag : forall name attrs contents,
      Forall P contents -> P (Tag name attrs contents))
  (Hstring : forall text, P (NavigableString text)) (n : Node) : P n :=
  match n with
  | Tag name attrs contents =>
      Htag name attrs contents
        ((fix all (l : list Node) : Forall P l :=
            match l with
            | [] => Forall_nil P
            | c :: r =>
                Forall_cons c (Node_induction P Htag Hstring c) (all r)
            end) contents)
  | NavigableString text => Hstring text
  end.

Definition is_script_or_style (n : Node) : bool :=
  has_name "script" n || has_name "style" n.

Lemma has_name_remove_script_style :
  forall name n,
    has_name name (remove_script_style n) = has_name name n.
Proof. intros name [nm attrs contents|text]; reflexivity. Qed.

Lemma remove_script_style_clean :
  forall n, find_all is_script_or_style (remove_script_style n) = [].
Proof.
  unfold find_all.
  induction n as [name attrs contents IH|text] using Node_induction;
    [|reflexivity].
  simpl. induction contents as [|c r IHr]; simpl; [reflexivity|].
  inversion IH as [|? ? Hc Hr]; subst.
  destruct (has_name "script" c || has_name "style" c) eqn:Hcs.
  - now apply IHr.
  - simpl. unfold is_script_or_style at 1.
    rewrite !has_name_remove_script_style, Hcs.
    rewrite filter_app, Hc. simpl. now apply IHr.
Qed.

Lemma remove_script_style_idempotent :
  forall n, remove_script_style (remove_script_style n) = remove_script_style n.
Proof.
  induction n as [name attrs contents IH|text] using Node_induction;
    [|reflexivity].
  simpl. f_equal. induction contents as [|c r IHr]; simpl; [reflexivity|].
  inversion IH as [|? ? Hc Hr]; subst.
  destruct (has_name "script" c || has_name "style" c) eqn:Hcs.
  - now apply IHr.
  - simpl. rewrite !has_name_remove_script_style, Hcs, Hc.
    f_equal. now apply IHr.
Qed.

Lemma remove_script_style_strings :
  forall n, incl (strings (remove_script_style n)) (strings n).
Proof.
  induction n as [name attrs contents IH|text] using Node_induction;
    [|apply incl_refl].
  simpl. induction contents as [|c r IHr]; simpl; [apply incl_refl|].
  inversion IH as [|? ? Hc Hr]; subst.
  destruct (has_name "script" c || has_name "style" c).
  - apply incl_appr. now apply IHr.
  - simpl. apply incl_app.
    + apply incl_appl. exact Hc.
    + apply incl_appr. now apply IHr.
Qed.

(** The messages of one container. *)
Lemma user_message_of_shape :
  forall lib container m,
    In m (user_message_of lib container) ->
    user_message_of lib container = [m]
    /\ id m = or_empty (get "id" container)
    /\ is_empty (content m) = false.
Proof.
  intros lib container m Hin. unfold user_message_of in *.
  destruct (find _ container); [|contradiction].
  destruct (extract_user_message _) as [q|]; [|contradiction].
  destruct (is_empty q) eqn:Hq; [contradiction|].
  destruct Hin as [<-|[]]. now repeat split.
Qed.

Lemma assistant_message_of_shape :
  forall lib container m,
    In m (assistant_message_of lib container) ->
    assistant_message_of lib container = [m]
    /\ id m = or_empty (get "id" container)
    /\ is_empty (content m) = false.
Proof.
  intros lib container m Hin. unfold assistant_message_of in *.
  destruct (find _ container); [|contradiction].
  destruct (extract_model_response _ _) as [q|]; [|contradiction].
  destruct (is_empty q) eqn:Hq; [contradiction|].
  destruct Hin as [<-|[]]. now repeat split.
Qed.

Lemma container_messages_length :
  forall lib container,
    List.length (user_message_of lib container
                 ++ assistant_message_of lib container) <= 2.
Proof.
  intros lib container. rewrite length_app.
  assert (Hu : List.length (user_message_of lib container) <= 1).
  { unfold user_message_of. destruct (find _ container); [|simpl; lia].
    destruct (extract_user_message _); [|simpl; lia].
    destruct (is_empty _); simpl; lia. }
  assert (Ha : List.length (assistant_message_of lib container) <= 1).
  { unfold assistant_message_of. destruct (find _ container); [|simpl; lia].
    destruct (extract_model_response _ _); [|simpl; lia].
    destruct (is_empty _); simpl; lia. }
  lia.
Qed.

Lemma flat_map_length_bound :
  forall (A B : Type) (f : A -> list B) (k : nat) (l : list A),
    (forall a, List.length (f a) <= k) ->
    List.length (flat_map f l) <= k * List.length l.
Proof.
  intros A B f k l H. induction l as [|a l IH]; simpl; [lia|].
  rewrite length_app. specialize (H a). lia.
Qed.

(** The timestamp when nothing bears one of the five names. *)
Lemma try_timestamp_selectors_none :
  forall lib container selectors,
    (forall selector, In selector selectors ->
       find (has_name selector) container = None) ->
    try_timestamp_selectors lib container selectors = None.
Proof.
  intros lib container. induction selectors as [|s selectors IH]; intros H;
    simpl; [reflexivity|].
  rewrite (H s (or_introl eq_refl)). apply IH.
  intros s' Hin. apply H. now right.
Qed.

(** The title in file names. *)
Lemma all_chars_filter :
  forall p s, all_chars p (filter_chars p s) = true.
Proof.
  intros p. induction s as [|c r IH]; simpl; [reflexivity|].
  destruct (p c) eqn:Hc; simpl; [now rewrite Hc|exact IH].
Qed.

Lemma all_chars_rstrip :
  forall p s, all_chars p s = true -> all_chars p (rstrip s) = true.
Proof.
  intros p. induction s as [|c r IH]; simpl; intros H; [reflexivity|].
  apply andb_true_iff in H as [Hc Hr].
  destruct (isspace c && is_empty (rstrip r)); simpl; [reflexivity|].
  now rewrite Hc, IH.
Qed.

Lemma all_chars_take :
  forall p n s, all_chars p s = true -> all_chars p (take n s) = true.
Proof.
  unfold take. intros p. induction n as [|n IH]; intros [|c r] H; simpl;
    try reflexivity.
  simpl in H. apply andb_true_iff in H as [Hc Hr].
  now rewrite Hc, IH.
Qed.

Lemma filter_chars_fixed :
  forall p s, all_chars p s = true -> filter_chars p s = s.
Proof.
  intros p. induction s as [|c r IH]; simpl; intros H; [reflexivity|].
  apply andb_true_iff in H as [Hc Hr]. now rewrite Hc, IH.
Qed.

Lemma take_fixed :
  forall n s, String.length s <= n -> take n s = s.
Proof.
  unfold take. induction n as [|n IH]; intros [|c r] H; simpl in *;
    try reflexivity; [lia|].
  rewrite IH by lia. reflexivity.
Qed.

End EnhancedFacts.

Module TagFacts.
Import PyStr Props NormalizerFacts ExtractionExtras MarkdownFacts.
Import Enhanced.

(** The substitution finds a tag that starts with [c] followed by [r]. *)
Definition opens_tag (c : ascii) (r : string) : bool :=
  Ascii.eqb c "<"
  && match r with
     | String d _ => negb (Ascii.eqb d ">")
     | EmptyString => false
     end
  && contains ">" r.

(** The substitution finds no tag in [s]. *)
Fixpoint tag_free (s : string) : bool :=
  match s with
  | EmptyString => true
  | String c r => negb (opens_tag c r) && tag_free r
  end.

(** [r'] is what a transformation that drops characters, and keeps a
    leading [>], makes of [r]. *)
Definition refines (r r' : string) : Prop :=
  (r = EmptyString -> r' = EmptyString)
  /\ (forall t, r = String ">" t -> exists t', r' = String ">" t')
  /\ (contains ">" r' = true -> contains ">" r = true).

Lemma opens_tag_refines :
  forall c r r', refines r r' -> opens_tag c r = false ->
    opens_tag c r' = false.
Proof.
  intros c r r' [He [Hg Hc]] H. unfold opens_tag in *.
  destruct (Ascii.eqb c "<"); [|reflexivity].
  rewrite andb_true_l in *.
  destruct (contains ">" r') eqn:Hr'; [|apply andb_false_r].
  rewrite (Hc eq_refl), andb_true_r in H. rewrite andb_true_r.
  destruct r as [|d t].
  - now rewrite (He eq_refl).
  - apply negb_false_iff in H. apply Ascii.eqb_eq in H. subst d.
    destruct (Hg t eq_refl) as [t' ->]. reflexivity.
Qed.

Lemma remove_tags_fixed :
  forall s, tag_free s = true -> remove_tags s = s.
Proof.
  unfold remove_tags.
  induction s as [|c r IH]; intros H; [reflexivity|].
  simpl in H. apply andb_true_iff in H as [Ho Hr].
  apply negb_true_iff in Ho.
  change (remove_tags_from false (String c r))
    with (if opens_tag c r then remove_tags_from true r
          else String c (remove_tags_from false r)).
  now rewrite Ho, IH.
Qed.

Lemma remove_tags_from_gt :
  forall s b,
    contains ">" (remove_tags_from b s) = true -> contains ">" s = true.
Proof.
  induction s as [|c r IH]; intros b H; [destruct b; exact H|].
  rewrite contains_char_cons.
  destruct b.
  - simpl in H. apply IH in H. rewrite H. apply orb_true_r.
  - change (remove_tags_from false (String c r))
      with (if opens_tag c r then remove_tags_from true r
            else String c (remove_tags_from false r)) in H.
    destruct (opens_tag c r).
    + apply IH in H. rewrite H. apply orb_true_r.
    + rewrite contains_char_cons in H.
      destruct (Ascii.eqb c ">"); [reflexivity|].
      simpl in *. now apply IH in H.
Qed.

Lemma remove_tags_refines :
  forall r, refines r (remove_tags_from false r).
Proof.
  intros r. split; [|split].
  - now intros ->.
  - intros t ->. eexists. reflexivity.
  - apply remove_tags_from_gt.
Qed.

Lemma remove_tags_from_tag_free :
  forall s b, tag_free (remove_tags_from b s) = true.
Proof.
  induction s as [|c r IH]; intros b; [destruct b; reflexivity|].
  destruct b; [simpl; apply IH|].
  change (remove_tags_from false (String c r))
    with (if opens_tag c r then remove_tags_from true r
          else String c (remove_tags_from false r)).
  destruct (opens_tag c r) eqn:Ho; [apply IH|].
  simpl. rewrite IH, andb_true_r. apply negb_true_iff.
  eapply opens_tag_refines; [apply remove_tags_refines|exact Ho].
Qed.

Lemma collapse_from_gt :
  forall s b,
    contains ">" (collapse_from b s) = true -> contains ">" s = true.
Proof.
  induction s as [|c r IH]; intros b H; [exact H|].
  rewrite contains_char_cons. simpl in H.
  destruct (isspace c) eqn:Hc.
  - destruct b.
    + apply IH in H. rewrite H. apply orb_true_r.
    + rewrite contains_char_cons in H. simpl in H.
      apply IH in H. rewrite H. apply orb_true_r.
  - rewrite contains_char_cons in H.
    destruct (Ascii.eqb c ">"); [reflexivity|].
    simpl in *. now apply IH in H.
Qed.

Lemma collapse_refines :
  forall r, refines r (collapse_from false r).
Proof.
  intros r. split; [|split].
  - now intros ->.
  - intros t ->. eexists. reflexivity.
  - apply collapse_from_gt.
Qed.

Lemma collapse_from_tag_free :
  forall s b, tag_free s = true -> tag_free (collapse_from b s) = true.
Proof.
  induction s as [|c r IH]; intros b H; [reflexivity|].
  simpl in H. apply andb_true_iff in H as [Ho Hr].
  apply negb_true_iff in Ho. simpl.
  destruct (isspace c) eqn:Hc.
  - destruct b; [now apply IH|].
    simpl. now apply IH.
  - simpl. rewrite (IH false Hr), andb_true_r. apply negb_true_iff.
    eapply opens_tag_refines; [apply collapse_refines|exact Ho].
Qed.

Lemma lstrip_tag_free :
  forall s, tag_free s = true -> tag_free (lstrip s) = true.
Proof.
  induction s as [|c r IH]; intros H; [reflexivity|].
  simpl. destruct (isspace c); [|exact H].
  simpl in H. apply andb_true_iff in H as [_ Hr]. now apply IH.
Qed.

Lemma rstrip_gt :
  forall s, contains ">" (rstrip s) = true -> contains ">" s = true.
Proof.
  induction s as [|c r IH]; intros H; [exact H|].
  rewrite contains_char_cons. simpl in H.
  destruct (isspace c && is_empty (rstrip r)); [discriminate H|].
  rewrite contains_char_cons in H.
  destruct (Ascii.eqb c ">"); [reflexivity|].
  simpl in *. now apply IH in H.
Qed.

Lemma rstrip_refines :
  forall r, refines r (rstrip r).
Proof.
  intros r. split; [|split].
  - now intros ->.
  - intros t ->. eexists. reflexivity.
  - apply rstrip_gt.
Qed.

Lemma rstrip_tag_free :
  forall s, tag_free s = true -> tag_free (rstrip s) = true.
Proof.
  induction s as [|c r IH]; intros H; [reflexivity|].
  simpl in H. apply andb_true_iff in H as [Ho Hr].
  apply negb_true_iff in Ho. simpl.
  destruct (isspace c && is_empty (rstrip r)); [reflexivity|].
  simpl. rewrite (IH Hr), andb_true_r. apply negb_true_iff.
  eapply opens_tag_refines; [apply rstrip_refines|exact Ho].
Qed.

Lemma html_to_text_tag_free :
  forall content, tag_free (html_to_text content) = true.
Proof.
  intros content. unfold html_to_text, strip, collapse_whitespace.
  apply rstrip_tag_free, lstrip_tag_free, collapse_from_tag_free.
  apply remove_tags_from_tag_free.
Qed.

Lemma html_to_text_idempotent :
  forall content,
    html_to_text (html_to_text content) = html_to_text content.
Proof.
  intros content.
  pose proof (html_to_text_tag_free content) as Hf.
  pose proof (html_to_text_tidy content) as Ht.
  unfold tidy in Ht. apply andb_true_iff in Ht as [Hs Hn].
  set (x := html_to_text content) in *.
  unfold html_to_text at 1. rewrite (remove_tags_fixed _ Hf).
  unfold collapse_whitespace, strip.
  rewrite (collapse_from_fixed _ _ (single_spaces_weaken _ Hs)).
  rewrite (lstrip_fixed _ Hs). now apply rstrip_fixed.
Qed.

(** No step makes the text longer. *)
Lemma remove_tags_from_length :
  forall s b, String.length (remove_tags_from b s) <= String.length s.
Proof.
  induction s as [|c r IH]; intros b; [destruct b; simpl; lia|].
  destruct b; [simpl; specialize (IH (negb (Ascii.eqb c ">"))); lia|].
  change (remove_tags_from false (String c r))
    with (if opens_tag c r then remove_tags_from true r
          else String c (remove_tags_from false r)).
  destruct (opens_tag c r); simpl;
    [specialize (IH true)|specialize (IH false)]; lia.
Qed.

Lemma collapse_from_length :
  forall s b, String.length (collapse_from b s) <= String.length s.
Proof.
  induction s as [|c r IH]; intros b; simpl; [lia|].
  destruct (isspace c); [destruct b|]; simpl;
    [specialize (IH true)|specialize (IH true)|specialize (IH false)]; lia.
Qed.

Lemma lstrip_length :
  forall s, String.length (lstrip s) <= String.length s.
Proof.
  induction s as [|c r IH]; simpl; [lia|].
  destruct (isspace c); simpl; lia.
Qed.

Lemma rstrip_length :
  forall s, String.length (rstrip s) <= String.length s.
Proof.
  induction s as [|c r IH]; simpl; [lia|].
  destruct (isspace c && is_empty (rstrip r)); simpl; lia.
Qed.

Lemma html_to_text_length :
  forall content,
    String.length (html_to_text content) <= String.length content.
Proof.
  intros content. unfold html_to_text, strip, collapse_whitespace, remove_tags.
  pose proof (remove_tags_from_length content false).
  pose proof (collapse_from_length (remove_tags_from false content) false).
  pose proof (lstrip_length
                (collapse_from false (remove_tags_from false content))).
  pose proof (rstrip_length
                (lstrip (collapse_from false
                           (remove_tags_from false content)))).
  lia.
Qed.

End TagFacts.

Module EnhancedExamples.
Import PyStr Playwright Examples Enhanced.

(** A container with a query and a response, in a document. *)
Definition container_c1 : Node :=
  Tag "div" [ ("class", "conversation-container"); ("id", "c1") ]
    [ Tag "user-query" []
        [ Tag "p" [ ("class", "query-text-line") ]
            [ NavigableString " What is IoC? " ] ];
      Tag "model-response" []
        [ Tag "message-content" []
            [ markdown_div "Inversion of control." ] ] ].

Definition soup_c1 : Node := Tag "[document]" [] [ container_c1 ].

Definition user_c1 : message :=
  {| id := "c1"; sender := "user"; content := "What is IoC?";
     timestamp := "2025-01-01T00:00:00"; type := "user_message" |}.

Definition assistant_c1 : message :=
  {| id := "c1"; sender := "assistant"; content := "Inversion of control.";
     timestamp := "2025-01-01T00:00:00"; type := "assistant_message" |}.

(** A container with a [time] element, and a library that parses every
    ISO text to itself. *)
Definition time_element : Node :=
  Tag "time" [ ("datetime", "2024-05-01T10:00:00Z") ] [].

Definition container_with_time : Node :=
  Tag "div" [ ("class", "conversation-container") ]
    [ Tag "span" [ ("class", "timestamp") ] [ NavigableString "10:00" ];
      time_element ].

Definition iso_library : Library :=
  {| str_element := plain_str;
     markitdown := None;
     now_isoformat := "2025-01-01T00:00:00";
     fromisoformat := fun s => Some s;
     strptime := fun _ _ => None |}.

End EnhancedExamples.

Section EnhancedExtraClaims.
Import PyStr Playwright Props Examples EnhancedExamples.
Import EnhancedNaming EnhancedFacts TagFacts MarkdownFacts ExtractionExtras.
Import NormalizerFacts Enhanced.

(** X6.  The structured extractor returns at most two messages for each
    conversation container; every message has a content that is not empty
    and carries the [id] of its container, so that the query and the
    response of one container have the same [id]. *)
Theorem X6_messages_of_containers :
  forall lib soup,
    List.length (parse_conversation_structure lib soup)
    <= 2 * List.length (find_all is_conversation_container soup)
    /\ (forall m,
          In m (parse_conversation_structure lib soup) ->
          is_empty (content m) = false
          /\ exists container,
               In container (find_all is_conversation_container soup)
               /\ id m = or_empty (get "id" container))
    /\ (forall container u a,
          In u (user_message_of lib container) ->
          In a (assistant_message_of lib container) ->
          id u = id a).
Proof.
  intros lib soup. split; [|split].
  - unfold parse_conversation_structure.
    apply flat_map_length_bound. intros c. apply container_messages_length.
  - intros m Hin. unfold parse_conversation_structure in Hin.
    apply in_flat_map in Hin as [container [Hc Hin]].
    apply in_app_or in Hin as [Hin|Hin].
    + apply user_message_of_shape in Hin as [_ [Hid He]].
      split; [exact He|]. now exists container.
    + apply assistant_message_of_shape in Hin as [_ [Hid He]].
      split; [exact He|]. now exists container.
  - intros container u a Hu Ha.
    apply user_message_of_shape in Hu as [_ [Hu _]].
    apply assistant_message_of_shape in Ha as [_ [Ha _]].
    now rewrite Hu, Ha.
Qed.

Lemma X6_witness :
  parse_conversation_structure plain_library soup_c1
  = [ user_c1; assistant_c1 ]
  /\ id user_c1 = id assistant_c1
  /\ is_empty (content assistant_c1) = false.
Proof.
  assert (Hp : parse_conversation_structure plain_library soup_c1
               = [ user_c1; assistant_c1 ]) by (vm_compute; reflexivity).
  split; [exact Hp|]. split.
  - apply (proj2 (proj2 (X6_messages_of_containers plain_library soup_c1))
             container_c1); vm_compute; left; reflexivity.
  - apply (proj1 (proj2 (X6_messages_of_containers plain_library soup_c1))).
    rewrite Hp. right. left. reflexivity.
Defined.

(** X7.  The timestamp of a container is looked for in elements whose tag
    name is one of the five selector texts: when there is none, the wall
    clock is returned, whatever the classes and attributes of the other
    elements; when the first [time] element has a [datetime] attribute that
    parses once its [Z] is replaced by [+00:00], the parsed value is
    returned. *)
Theorem X7_timestamp_sources :
  forall lib container,
    ((forall selector, In selector timestamp_selectors ->
        find (has_name selector) container = None) ->
     extract_timestamp lib container = now_isoformat lib)
    /\ (forall timestamp_elem value parsed,
          find (has_name "time") container = Some timestamp_elem ->
          get "datetime" timestamp_elem = Some value ->
          is_empty value = false ->
          fromisoformat lib (replace_Z value) = Some parsed ->
          extract_timestamp lib container = parsed).
Proof.
  intros lib container. split.
  - intros H. unfold extract_timestamp.
    now rewrite try_timestamp_selectors_none.
  - intros timestamp_elem value parsed Hf Hg He Hp.
    unfold extract_timestamp, timestamp_selectors. simpl.
    rewrite Hf. unfold timestamp_from. rewrite Hg. simpl.
    rewrite He. simpl. rewrite Hp, ?He. reflexivity.
Qed.

Lemma X7_witness :
  extract_timestamp iso_library container_c1 = "2025-01-01T00:00:00"
  /\ extract_timestamp iso_library container_with_time
     = "2024-05-01T10:00:00+00:00".
Proof.
  split.
  - apply (proj1 (X7_timestamp_sources iso_library container_c1)).
    intros selector Hin. simpl in Hin.
    repeat (destruct Hin as [<-|Hin]; [vm_compute; reflexivity|]).
    contradiction.
  - exact (proj2 (X7_timestamp_sources iso_library container_with_time)
             time_element "2024-05-01T10:00:00Z"
             "2024-05-01T10:00:00+00:00" eq_refl eq_refl eq_refl eq_refl).
Defined.

(** X8.  The plain-text conversion is idempotent and never lengthens its
    input: its result holds no tag that the substitution would remove, and
    converting it again changes nothing. *)
Theorem X8_plain_text_conversion_is_idempotent :
  forall content,
    html_to_text (html_to_text content) = html_to_text content
    /\ remove_tags (html_to_text content) = html_to_text content
    /\ String.length (html_to_text content) <= String.length content.
Proof.
  intros content. split; [apply html_to_text_idempotent|].
  split; [|apply html_to_text_length].
  apply remove_tags_fixed, html_to_text_tag_free.
Qed.

(** X9.  After the cleaning of a response no [script] and no [style]
    element is left at any depth; cleaning again changes nothing, and every
    text of the cleaned element is a text of the original. *)
Theorem X9_no_script_or_style_is_left :
  forall element,
    find_all is_script_or_style (remove_script_style element) = []
    /\ remove_script_style (remove_script_style element)
       = remove_script_style element
    /\ incl (strings (remove_script_style element)) (strings element).
Proof.
  intros element. split; [apply remove_script_style_clean|].
  split; [apply remove_script_style_idempotent|].
  apply remove_script_style_strings.
Qed.

Lemma allowed_no_char :
  forall a s,
    allowed a = false -> all_chars allowed s = true ->
    contains (String a EmptyString) s = false.
Proof.
  intros a. induction s as [|c r IH]; intros Ha H; [reflexivity|].
  simpl in H. apply andb_true_iff in H as [Hc Hr].
  rewrite contains_char_cons, (IH Ha Hr), orb_false_r.
  apply Ascii.eqb_neq. intros ->. congruence.
Qed.

(** X10.  The title used in the names of the saved files holds letters,
    digits, spaces, hyphens and underscores only, hence no slash and no dot,
    and has at most fifty characters; a title of that form that does not end
    with whitespace is kept as it is. *)
Theorem X10_safe_title :
  forall title,
    all_chars allowed (safe_title title) = true
    /\ String.length (safe_title title) <= 50
    /\ contains "/" (safe_title title) = false
    /\ contains "." (safe_title title) = false
    /\ (all_chars allowed title = true ->
        String.length title <= 50 ->
        no_trailing_space title = true ->
        safe_title title = title).
Proof.
  intros title.
  assert (Ha : all_chars allowed (safe_title title) = true).
  { unfold safe_title.
    apply all_chars_take, all_chars_rstrip, all_chars_filter. }
  split; [exact Ha|]. split; [apply length_take|].
  split; [now apply allowed_no_char|].
  split; [now apply allowed_no_char|].
  intros Hall Hlen Hn. unfold safe_title.
  rewrite (filter_chars_fixed _ _ Hall), (rstrip_fixed _ Hn).
  now apply take_fixed.
Qed.

Lemma X10_witness :
  all_chars allowed "Repo as IOC - Structured" = true
  /\ safe_title "Repo as IOC - Structured" = "Repo as IOC - Structured"
  /\ safe_title "a/b: ../etc " = "ab etc".
Proof.
  split; [reflexivity|]. split.
  - apply (proj2 (proj2 (proj2 (proj2
             (X10_safe_title "Repo as IOC - Structured")))));
      [reflexivity|simpl; lia|reflexivity].
  - vm_compute. reflexivity.
Defined.

End EnhancedExtraClaims.

(* ================================================================= *)
(** ** Further properties of the analyzer *)

Module AnalysisFacts.
Import PyStr Playwright Props Analyzer AnalyzerFacts.

Definition content_of (msg : message) : string :=
  or_default "" (content msg).

Definition flow_of (msg : message) : flow_entry :=
  {| flow_sender := sender_of msg;
     flow_length := String.length (content_of msg);
     flow_timestamp := or_default "" (timestamp msg) |}.

Definition questions_of (msg : message) : nat :=
  if is_user msg then count_char "?" (content_of msg) else 0.

(** What the loop has accumulated after the messages [msgs]. *)
Lemma fold_analyze_message_lists :
  forall msgs a,
    let a' := fold_left analyze_message msgs a in
    message_lengths a'
    = message_lengths a ++ map (fun m => String.length (content_of m)) msgs
    /\ conversation_flow a' = conversation_flow a ++ map flow_of msgs
    /\ technical_terms a'
       = technical_terms a
         ++ flat_map (fun m => extract_technical_terms (content_of m)) msgs
    /\ topics_mentioned a'
       = topics_mentioned a
         ++ flat_map (fun m => extract_topics (content_of m)) msgs
    /\ code_blocks a'
       = code_blocks a
         + sum (map (fun m => count_code_blocks (content_of m)) msgs)
    /\ questions_asked a'
       = questions_asked a + sum (map questions_of msgs)
    /\ avg_message_length a' = avg_message_length a.
Proof.
  induction msgs as [|msg msgs IH]; intros a; simpl.
  - rewrite !app_nil_r. repeat split; lia.
  - destruct (IH (analyze_message a msg)) as [H1 [H2 [H3 [H4 [H5 [H6 H7]]]]]].
    simpl in *. rewrite H1, H2, H3, H4, H5, H6, H7. simpl.
    rewrite <- !app_assoc. simpl.
    unfold questions_of, is_user, sender_of, content_of, flow_of.
    repeat split; unfold sender_of, content_of; simpl; try lia.
Qed.

(** Minimum, maximum, mean and median of a list of lengths. *)
Lemma minimum_le :
  forall l x, In x l -> minimum l <= x.
Proof.
  intros [|y l] x Hin; [contradiction|]. simpl.
  revert x Hin. induction l as [|z l IH]; intros x Hin; simpl.
  - destruct Hin as [<-|[]]. lia.
  - destruct Hin as [<-|[<-|Hin]].
    + specialize (IH y (or_introl eq_refl)). lia.
    + lia.
    + specialize (IH x (or_intror Hin)). lia.
Qed.

Lemma maximum_ge :
  forall l x, In x l -> x <= maximum l.
Proof.
  induction l as [|y l IH]; intros x Hin; [contradiction|]. simpl.
  destruct Hin as [<-|Hin]; [lia|]. specialize (IH x Hin). lia.
Qed.

Lemma minimum_In :
  forall l, l <> [] -> In (minimum l) l.
Proof.
  intros [|y l] H; [congruence|]. clear H. simpl.
  induction l as [|z l IH]; simpl; [now left|].
  destruct (Nat.min_spec z (fold_right Nat.min y l)) as [[_ ->]|[_ ->]].
  - right. now left.
  - destruct IH as [IH|IH]; [now left|right; now right].
Qed.

Lemma maximum_In :
  forall l, l <> [] -> In (maximum l) l.
Proof.
  induction l as [|y l IH]; intros H; [congruence|]. simpl.
  destruct l as [|z l].
  - simpl. left. lia.
  - destruct (Nat.max_spec y (maximum (z :: l))) as [[_ Hm]|[_ Hm]];
      simpl in Hm |- *; rewrite Hm.
    + right. apply IH. discriminate.
    + now left.
Qed.

Lemma sum_bounds :
  forall l lo hi,
    (forall x, In x l -> lo <= x <= hi) ->
    lo * List.length l <= sum l <= hi * List.length l.
Proof.
  induction l as [|y l IH]; intros lo hi H; simpl; [lia|].
  assert (Hy := H y (or_introl eq_refl)).
  assert (Hl := IH lo hi (fun x Hx => H x (or_intror Hx))).
  unfold sum in *. lia.
Qed.

Lemma insert_sorted_perm :
  forall l x, Permutation (insert_sorted x l) (x :: l).
Proof.
  induction l as [|y l IH]; intros x; simpl; [reflexivity|].
  destruct (x <=? y); [reflexivity|].
  rewrite IH. apply perm_swap.
Qed.

Lemma sorted_perm :
  forall l, Permutation (sorted l) l.
Proof.
  induction l as [|x l IH]; simpl; [reflexivity|].
  rewrite insert_sorted_perm. now constructor.
Qed.

Lemma Zpos_of_nat :
  forall n, 0 < n -> Z.pos (Pos.of_nat n) = Z.of_nat n.
Proof. intros n H. lia. Qed.

Lemma mean_bounds :
  forall l, l <> [] ->
    (inject_Z (Z.of_nat (minimum l)) <= mean l)%Q
    /\ (mean l <= inject_Z (Z.of_nat (maximum l)))%Q.
Proof.
  intros l Hl. unfold mean.
  assert (Hlen : 0 < List.length l) by (destruct l; [congruence|simpl; lia]).
  destruct (sum_bounds l (minimum l) (maximum l)) as [Hlo Hhi].
  { intros x Hx. split; [now apply minimum_le|now apply maximum_ge]. }
  split; rewrite Qred_correct; unfold Qle, inject_Z; simpl;
    rewrite (Zpos_of_nat _ Hlen); nia.
Qed.

Lemma nth_sorted_bounds :
  forall l i, i < List.length l ->
    minimum l <= nth i (sorted l) 0 <= maximum l.
Proof.
  intros l i Hi.
  assert (Hin : In (nth i (sorted l) 0) l).
  { eapply Permutation_in; [apply sorted_perm|].
    apply nth_In. now rewrite (Permutation_length (sorted_perm l)). }
  split; [now apply minimum_le|now apply maximum_ge].
Qed.

Lemma median_bounds :
  forall l, l <> [] ->
    (inject_Z (Z.of_nat (minimum l)) <= median l)%Q
    /\ (median l <= inject_Z (Z.of_nat (maximum l)))%Q.
Proof.
  intros l Hl. unfold median.
  assert (Hlen : 0 < List.length l) by (destruct l; [congruence|simpl; lia]).
  rewrite (Permutation_length (sorted_perm l)).
  assert (H2 : List.length l / 2 < List.length l)
    by (apply Nat.div_lt; lia).
  destruct (Nat.odd (List.length l)).
  - destruct (nth_sorted_bounds l (List.length l / 2) H2) as [Ha Hb].
    split; rewrite <- Zle_Qle; lia.
  - assert (H1 : List.length l / 2 - 1 < List.length l) by lia.
    destruct (nth_sorted_bounds l _ H2) as [Ha Hb].
    destruct (nth_sorted_bounds l _ H1) as [Hc Hd].
    set (x := nth (List.length l / 2 - 1) (sorted l) 0) in *.
    set (y := nth (List.length l / 2) (sorted l) 0) in *.
    split; rewrite Qred_correct; unfold Qle, inject_Z; simpl; lia.
Qed.

End AnalysisFacts.

Module TermFacts.
Import PyStr Playwright Props Analyzer AnalyzerFacts AnalysisFacts.
Import EnhancedNaming.

Definition all_ascii : list ascii := map ascii_of_nat (seq 0 256).

Lemma all_ascii_In : forall c, In c all_ascii.
Proof.
  intros c. unfold all_ascii. rewrite <- (ascii_nat_embedding c).
  apply in_map. apply in_seq. pose proof (nat_ascii_bounded c). lia.
Qed.

Definition is_ascii (c : ascii) : bool := nat_of_ascii c <? 128.

Definition table_entries : list string := concat technical_patterns.

Lemma table_is_ascii :
  forall alt, In alt table_entries -> all_chars is_ascii alt = true.
Proof.
  assert (H : forallb (all_chars is_ascii) table_entries = true)
    by (vm_compute; reflexivity).
  rewrite forallb_forall in H. exact H.
Qed.

(** Topics. *)
Lemma NoDup_map_filter :
  forall (A B : Type) (f : A -> B) (p : A -> bool) (l : list A),
    NoDup (map f l) -> NoDup (map f (filter p l)).
Proof.
  intros A B f p. induction l as [|x l IH]; intros H; simpl; [constructor|].
  inversion H as [|? ? Hx Hl]; subst.
  destruct (p x); [|now apply IH].
  simpl. constructor; [|now apply IH].
  intros Hin. apply Hx. apply in_map_iff in Hin as [y [Hy Hin]].
  apply filter_In in Hin as [Hin _]. apply in_map_iff. now exists y.
Qed.

Lemma topic_names_NoDup : NoDup (map fst topic_keywords).
Proof.
  repeat constructor; simpl; intros H;
    repeat (destruct H as [H|H]; [discriminate H|]); exact H.
Qed.

Lemma filter_length_le :
  forall (A : Type) (p : A -> bool) (l : list A),
    List.length (filter p l) <= List.length l.
Proof.
  intros A p. induction l as [|x l IH]; simpl; [lia|].
  destruct (p x); simpl; lia.
Qed.

End TermFacts.

Module InsightFacts.
Import PyStr Props Analyzer.

Definition distribution_insights : list string :=
  [ "User-driven conversation with many questions";
    "Assistant-heavy conversation with detailed responses";
    "Balanced conversation between user and assistant" ].

Definition complexity_insights : list string :=
  [ "Highly technical conversation with diverse technologies";
    "Moderately technical discussion";
    "General or non-technical conversation" ].

Definition mem (x : string) (l : list string) : bool :=
  existsb (String.eqb x) l.

Fixpoint distinct (l : list string) : bool :=
  match l with
  | [] => true
  | x :: r => negb (mem x r) && distinct r
  end.

(** What the rules guarantee, as a test on a list of insights; [positive]
    tells whether the conversation has a positive message count. *)
Definition well_formed_insights (positive : bool) (l : list string) : bool :=
  (1 <=? List.length l) && (List.length l <=? 5) && distinct l
  && Nat.eqb (List.length (filter (fun i => mem i complexity_insights) l)) 1
  && Nat.eqb (List.length (filter (fun i => mem i distribution_insights) l))
             (if positive then 1 else 0).

Lemma mem_In : forall x l, mem x l = true <-> In x l.
Proof.
  intros x l. unfold mem. rewrite existsb_exists. split.
  - intros [y [Hin Heq]]. apply String.eqb_eq in Heq. now subst.
  - intros Hin. exists x. split; [exact Hin|apply String.eqb_refl].
Qed.

Lemma distinct_NoDup : forall l, distinct l = true -> NoDup l.
Proof.
  induction l as [|x r IH]; intros H; [constructor|].
  simpl in H. apply andb_true_iff in H as [Hx Hr].
  constructor; [|now apply IH].
  intros Hin. apply mem_In in Hin. rewrite Hin in Hx. discriminate Hx.
Qed.

(** The lists the five rules can give. *)
Definition distribution_choices (positive : bool) : list (list string) :=
  if positive
  then [ [ "User-driven conversation with many questions" ];
         [ "Assistant-heavy conversation with detailed responses" ];
         [ "Balanced conversation between user and assistant" ] ]
  else [ [] ].

Definition complexity_choices : list (list string) :=
  [ [ "Highly technical conversation with diverse technologies" ];
    [ "Moderately technical discussion" ];
    [ "General or non-technical conversation" ] ].

Definition code_choices : list (list string) :=
  [ [ "Code-heavy conversation with examples and implementations" ];
    [ "Contains code examples and technical details" ];
    [] ].

Definition question_choices : list (list string) :=
  [ [ "Exploratory conversation with many questions" ]; [] ].

Definition length_choices : list (list string) :=
  [ [ "Detailed conversation with comprehensive responses" ];
    [ "Concise conversation with brief exchanges" ];
    [] ].

Definition choices (positive : bool) : list (list string) :=
  flat_map (fun d =>
    flat_map (fun c =>
      flat_map (fun k =>
        flat_map (fun q =>
          map (fun l => d ++ c ++ k ++ q ++ l) length_choices)
          question_choices)
        code_choices)
      complexity_choices)
    (distribution_choices positive).

Lemma choices_intro :
  forall positive d c k q l,
    In d (distribution_choices positive) -> In c complexity_choices ->
    In k code_choices -> In q question_choices -> In l length_choices ->
    In (d ++ c ++ k ++ q ++ l) (choices positive).
Proof.
  intros positive d c k q l Hd Hc Hk Hq Hl. unfold choices.
  apply in_flat_map. exists d. split; [exact Hd|].
  apply in_flat_map. exists c. split; [exact Hc|].
  apply in_flat_map. exists k. split; [exact Hk|].
  apply in_flat_map. exists q. split; [exact Hq|].
  apply in_map_iff. exists l. now split.
Qed.

Lemma generate_insights_choice :
  forall a,
    In (generate_insights a) (choices (0 <? total_messages a)%Z).
Proof.
  intros a. unfold generate_insights. cbv zeta. apply choices_intro.
  - destruct (0 <? total_messages a)%Z; [|now left].
    destruct (Qgt_bool _ _); [now left|].
    destruct (Qlt_bool _ _); [right; now left|right; right; now left].
  - destruct (10 <? _); [now left|].
    destruct (5 <? _); [right; now left|right; right; now left].
  - destruct (5 <? _); [now left|].
    destruct (0 <? _); [right; now left|right; right; now left].
  - destruct (5 <? _); [now left|right; now left].
  - destruct (Qgt_bool _ _); [now left|].
    destruct (Qlt_bool _ _); [right; now left|right; right; now left].
Qed.

Lemma choices_well_formed :
  forall positive,
    forallb (well_formed_insights positive) (choices positive) = true.
Proof. intros [|]; vm_compute; reflexivity. Qed.

Lemma generate_insights_well_formed :
  forall a,
    well_formed_insights (0 <? total_messages a)%Z (generate_insights a)
    = true.
Proof.
  intros a.
  pose proof (choices_well_formed (0 <? total_messages a)%Z) as H.
  rewrite forallb_forall in H. apply H. apply generate_insights_choice.
Qed.

End InsightFacts.

(* ================================================================= *)
(** ** Technical terms on arbitrary code points

    [re.IGNORECASE] and [str.upper] reach beyond Latin-1: the letters i, k
    and s of a pattern also match U+0130, U+0131, U+212A and U+017F.  The
    term extraction is therefore embedded a second time on strings that
    are lists of code points, and related to the one on Latin-1. *)

Module UnicodeTerms.
Import PyStr.
Local Open Scope N_scope.

(** A Python [str] as the list of its code points. *)
Definition ustr : Type := list N.

Definition cp (a : ascii) : N := N_of_ascii a.

Fixpoint code_points (s : string) : ustr :=
  match s with
  | EmptyString => []
  | String c r => cp c :: code_points r
  end.

(** LATIN CAPITAL LETTER I WITH DOT ABOVE, LATIN SMALL LETTER DOTLESS I,
    LATIN SMALL LETTER LONG S and KELVIN SIGN. *)
Definition dotted_I : N := 304.
Definition dotless_i : N := 305.
Definition long_s : N := 383.
Definition kelvin : N := 8490.

(** The code points, other than its two cases, that an ASCII character of
    a pattern matches under [re.IGNORECASE]. *)
Definition case_equivalents (a : ascii) : list N :=
  if Ascii.eqb (lower_char a) "i" then [ dotted_I; dotless_i ]
  else if Ascii.eqb (lower_char a) "k" then [ kelvin ]
  else if Ascii.eqb (lower_char a) "s" then [ long_s ]
  else [].

(** All the code points that the ASCII character [a] of a pattern matches
    under [re.IGNORECASE]. *)
Definition matched_by (a : ascii) : list N :=
  cp (lower_char a) :: cp (upper_char a) :: case_equivalents a.

Definition ci_match (a : ascii) (c : N) : bool :=
  existsb (N.eqb c) (matched_by a).

(** [str.upper] on a code point that a character of a pattern can match:
    an ASCII character or one of the four above.  U+0130 and U+212A are
    upper-case letters already. *)
Definition upper_cp (c : N) : N :=
  if (97 <=? c) && (c <=? 122) then c - 32
  else if c =? dotless_i then 73
  else if c =? long_s then 83
  else c.

Definition upper (s : ustr) : ustr := map upper_cp s.

(** [alt] matches at the start of [s], whatever the case. *)
Fixpoint match_literal (alt : string) (s : ustr) : option (ustr * ustr) :=
  match alt with
  | EmptyString => Some ([], s)
  | String a alt' =>
      match s with
      | [] => None
      | c :: s' =>
          if ci_match a c
          then match match_literal alt' s' with
               | Some (m, rest) => Some (c :: m, rest)
               | None => None
               end
          else None
      end
  end.

Fixpoint last_cp (s : ustr) : option N :=
  match s with
  | [] => None
  | [ c ] => Some c
  | _ :: r => last_cp r
  end.

Definition first_cp (s : ustr) : option N :=
  match s with
  | [] => None
  | c :: _ => Some c
  end.

Section Findall.

(** The class [\w] of [re] on [str]: [str.isalnum] or the underscore, on
    every code point. *)
Variable word : N -> bool.

Definition is_word_at (c : option N) : bool :=
  match c with
  | Some c => word c
  | None => false
  end.

Definition word_boundary (before after : option N) : bool :=
  xorb (is_word_at before) (is_word_at after).

Fixpoint match_alternatives (alts : list string) (s : ustr) : option ustr :=
  match alts with
  | [] => None
  | alt :: rest =>
      match match_literal alt s with
      | Some (m, after) =>
          if word_boundary (last_cp m) (first_cp after) then Some m
          else match_alternatives rest s
      | None => match_alternatives rest s
      end
  end.

(** [re.findall(pattern, content, re.IGNORECASE)] for a pattern
    [\b(?:alt|...)\b]. *)
Fixpoint findall_terms (alts : list string) (before : option N)
  (skip : nat) (s : ustr) : list ustr :=
  match s with
  | [] => []
  | c :: r =>
      match skip with
      | S k => findall_terms alts (Some c) k r
      | O =>
          if word_boundary before (Some c)
          then match match_alternatives alts s with
               | Some m =>
                   m :: findall_terms alts (Some c) (List.length m - 1) r
               | None => findall_terms alts (Some c) 0 r
               end
          else findall_terms alts (Some c) 0 r
      end
  end.

(** [extract_technical_terms] *)
Definition extract_technical_terms (content : ustr) : list ustr :=
  flat_map (fun alts => map upper (findall_terms alts None 0 content))
           Analyzer.technical_patterns.

End Findall.

(** A content without U+0130 and without U+212A. *)
Definition plain_cp (c : N) : bool :=
  negb (c =? dotted_I) && negb (c =? kelvin).

Definition plain (content : ustr) : Prop :=
  forallb plain_cp content = true.

(** A character of a term, against the character of the table entry at
    the same place. *)
Definition term_char (c : N) (a : ascii) : Prop :=
  c = cp (upper_char a)
  \/ (c = dotted_I /\ lower_char a = "i"%char)
  \/ (c = kelvin /\ lower_char a = "k"%char).

(** The class [\w] on Latin-1 and on the four letters above it that a
    pattern can match. *)
Definition word_of_examples (c : N) : bool :=
  if c <? 256 then Analyzer.is_word (ascii_of_N c)
  else existsb (N.eqb c) [ dotted_I; dotless_i; long_s; kelvin ].

End UnicodeTerms.

Module UnicodeFacts.
Import PyStr EnhancedNaming TermFacts UnicodeTerms.
Local Open Scope N_scope.

Lemma ci_match_In :
  forall a c, ci_match a c = true <-> In c (matched_by a).
Proof.
  intros a c. unfold ci_match. rewrite existsb_exists. split.
  - intros [x [Hin Hx]]. apply N.eqb_eq in Hx. now subst.
  - intros Hin. exists c. split; [exact Hin|apply N.eqb_refl].
Qed.

(** The upper-case form of a matched code point, against the pattern
    character, for every ASCII pattern character. *)
Definition upper_test (a : ascii) : bool :=
  implb (is_ascii a)
    (forallb
       (fun c =>
          (upper_cp c =? cp (upper_char a))
          || ((c =? dotted_I) && (upper_cp c =? dotted_I)
              && Ascii.eqb (lower_char a) "i")
          || ((c =? kelvin) && (upper_cp c =? kelvin)
              && Ascii.eqb (lower_char a) "k"))
       (matched_by a)).

Lemma upper_test_true : forallb upper_test all_ascii = true.
Proof. vm_compute. reflexivity. Qed.

Lemma ci_match_upper :
  forall a c,
    is_ascii a = true -> ci_match a c = true ->
    term_char (upper_cp c) a
    /\ (plain_cp c = true -> upper_cp c = cp (upper_char a)).
Proof.
  intros a c Ha Hm.
  pose proof (proj1 (forallb_forall upper_test all_ascii) upper_test_true a
                (all_ascii_In a)) as H.
  unfold upper_test in H. rewrite Ha in H. cbn [implb] in H.
  rewrite forallb_forall in H.
  specialize (H c (proj1 (ci_match_In a c) Hm)).
  apply orb_true_iff in H as [H|H]; [apply orb_true_iff in H as [H|H]|].
  - apply N.eqb_eq in H. split; [now left|now intros _].
  - apply andb_true_iff in H as [H Hl].
    apply andb_true_iff in H as [Hc Hu].
    apply N.eqb_eq in Hc, Hu. apply Ascii.eqb_eq in Hl.
    split; [right; left; now rewrite Hu|].
    intros Hp. unfold plain_cp in Hp. subst c. discriminate Hp.
  - apply andb_true_iff in H as [H Hl].
    apply andb_true_iff in H as [Hc Hu].
    apply N.eqb_eq in Hc, Hu. apply Ascii.eqb_eq in Hl.
    split; [right; right; now rewrite Hu|].
    intros Hp. unfold plain_cp in Hp. subst c. discriminate Hp.
Qed.

Lemma match_literal_app :
  forall alt s m rest,
    match_literal alt s = Some (m, rest) -> s = (m ++ rest)%list.
Proof.
  induction alt as [|a alt IH]; intros s m rest H; simpl in H.
  - now injection H as <- <-.
  - destruct s as [|c s]; [discriminate|].
    destruct (ci_match a c); [|discriminate].
    destruct (match_literal alt s) as [[m' rest']|] eqn:Hm; [|discriminate].
    injection H as <- <-. simpl. f_equal. now apply IH.
Qed.

Lemma match_literal_chars :
  forall alt s m rest,
    all_chars is_ascii alt = true ->
    match_literal alt s = Some (m, rest) ->
    Forall2 term_char (upper m) (list_ascii_of_string alt)
    /\ ((forall c, In c m -> plain_cp c = true) ->
        upper m = code_points (PyStr.upper alt)).
Proof.
  induction alt as [|a alt IH]; intros s m rest Ha H; simpl in H.
  - injection H as <- _. split; [constructor|reflexivity].
  - simpl in Ha. apply andb_true_iff in Ha as [Ha Halt].
    destruct s as [|c s]; [discriminate|].
    destruct (ci_match a c) eqn:Hc; [|discriminate].
    destruct (match_literal alt s) as [[m' rest']|] eqn:Hm; [|discriminate].
    injection H as <- _.
    destruct (ci_match_upper a c Ha Hc) as [Ht Hp].
    destruct (IH s m' rest' Halt Hm) as [IH1 IH2].
    split.
    + simpl. constructor; assumption.
    + intros Hplain. unfold PyStr.upper. simpl. f_equal.
      * apply Hp. apply Hplain. now left.
      * apply IH2. intros c' Hin. apply Hplain. now right.
Qed.

(** *** On Latin-1 *)

Definition latin1_test (a c : ascii) : bool :=
  implb (is_ascii a)
    (Bool.eqb (ci_match a (cp c))
       (Ascii.eqb (lower_char a) (lower_char c))).

Lemma latin1_test_true :
  forallb (fun a => forallb (latin1_test a) all_ascii) all_ascii = true.
Proof. vm_compute. reflexivity. Qed.

Lemma ci_match_latin1 :
  forall a c : ascii,
    is_ascii a = true ->
    ci_match a (cp c) = Ascii.eqb (lower_char a) (lower_char c).
Proof.
  intros a c Ha.
  pose proof (proj1 (forallb_forall _ all_ascii) latin1_test_true a
                (all_ascii_In a)) as H.
  cbv beta in H.
  pose proof (proj1 (forallb_forall _ all_ascii) H c (all_ascii_In c)) as Hc.
  unfold latin1_test in Hc. rewrite Ha in Hc. cbn [implb] in Hc.
  now apply Bool.eqb_prop in Hc.
Qed.

Lemma upper_cp_latin1_true :
  forallb (fun c => upper_cp (cp c) =? cp (upper_char c)) all_ascii = true.
Proof. vm_compute. reflexivity. Qed.

Lemma upper_cp_latin1 :
  forall c : ascii, upper_cp (cp c) = cp (upper_char c).
Proof.
  intros c. apply N.eqb_eq.
  exact (proj1 (forallb_forall _ all_ascii) upper_cp_latin1_true c
           (all_ascii_In c)).
Qed.

Lemma upper_latin1 :
  forall s, upper (code_points s) = code_points (PyStr.upper s).
Proof.
  induction s as [|c r IH]; [reflexivity|].
  unfold upper, PyStr.upper in *. simpl. now rewrite upper_cp_latin1, IH.
Qed.

Lemma length_code_points :
  forall s, List.length (code_points s) = String.length s.
Proof.
  induction s as [|c r IH]; simpl; [reflexivity|now rewrite IH].
Qed.

Lemma last_cp_latin1 :
  forall s, last_cp (code_points s) = option_map cp (last_char s).
Proof.
  induction s as [|c r IH]; [reflexivity|].
  destruct r as [|d r]; [reflexivity|].
  change (last_cp (code_points (String c (String d r))))
    with (last_cp (code_points (String d r))).
  now rewrite IH.
Qed.

Lemma first_cp_latin1 :
  forall s, first_cp (code_points s) = option_map cp (Analyzer.first_char s).
Proof. now intros [|c r]. Qed.

Lemma match_literal_latin1 :
  forall alt s,
    all_chars is_ascii alt = true ->
    match_literal alt (code_points s)
    = match Analyzer.match_literal alt s with
      | Some (m, rest) => Some (code_points m, code_points rest)
      | None => None
      end.
Proof.
  induction alt as [|a alt IH]; intros s Ha; simpl; [reflexivity|].
  simpl in Ha. apply andb_true_iff in Ha as [Ha Halt].
  destruct s as [|c s]; [reflexivity|]. simpl.
  rewrite (ci_match_latin1 a c Ha).
  destruct (Ascii.eqb (lower_char a) (lower_char c)); [|reflexivity].
  rewrite (IH s Halt).
  now destruct (Analyzer.match_literal alt s) as [[m rest]|].
Qed.

(** A content within Latin-1 has neither U+0130 nor U+212A. *)
Lemma plain_cp_latin1_true :
  forallb (fun c => plain_cp (cp c)) all_ascii = true.
Proof. vm_compute. reflexivity. Qed.

Lemma code_points_plain :
  forall s, plain (code_points s).
Proof.
  unfold plain. induction s as [|c r IH]; [reflexivity|].
  simpl. rewrite IH, andb_true_r.
  exact (proj1 (forallb_forall _ all_ascii) plain_cp_latin1_true c
           (all_ascii_In c)).
Qed.

Lemma word_of_examples_latin1 :
  forall c : ascii, word_of_examples (cp c) = Analyzer.is_word c.
Proof.
  intros c. unfold word_of_examples, cp.
  pose proof (N_ascii_bounded c) as Hc.
  apply N.ltb_lt in Hc. rewrite Hc. now rewrite ascii_N_embedding.
Qed.

Section FindallFacts.
Variable word : N -> bool.

Lemma match_alternatives_source :
  forall alts s m,
    match_alternatives word alts s = Some m ->
    exists alt rest, In alt alts /\ match_literal alt s = Some (m, rest).
Proof.
  induction alts as [|alt alts IH]; intros s m H; simpl in H; [discriminate|].
  destruct (match_literal alt s) as [[m' after]|] eqn:Hm.
  - destruct (word_boundary word (last_cp m') (first_cp after)).
    + injection H as <-. exists alt, after. split; [now left|exact Hm].
    + destruct (IH s m H) as [alt' [rest [Hin H']]].
      exists alt', rest. split; [now right|exact H'].
  - destruct (IH s m H) as [alt' [rest [Hin H']]].
    exists alt', rest. split; [now right|exact H'].
Qed.

Lemma findall_terms_source :
  forall s alts before skip m,
    In m (findall_terms word alts before skip s) ->
    exists pre s',
      s = (pre ++ s')%list /\ match_alternatives word alts s' = Some m.
Proof.
  induction s as [|c r IH]; intros alts before skip m Hin; simpl in Hin.
  - contradiction.
  - assert (Htail : forall before' skip',
               In m (findall_terms word alts before' skip' r) ->
               exists pre s',
                 (c :: r) = (pre ++ s')%list
                 /\ match_alternatives word alts s' = Some m).
    { intros before' skip' H. apply IH in H as [pre [s' [-> Hs']]].
      exists (c :: pre), s'. split; [reflexivity|exact Hs']. }
    destruct skip as [|k]; [|now apply Htail in Hin].
    destruct (word_boundary word before (Some c));
      [|now apply Htail in Hin].
    destruct (match_alternatives word alts (c :: r)) as [m'|] eqn:Hm;
      [|now apply Htail in Hin].
    destruct Hin as [<-|Hin]; [|now apply Htail in Hin].
    exists [], (c :: r). split; [reflexivity|exact Hm].
Qed.

(** Every term is, place by place, the upper-case form of an entry of the
    table, but for U+0130 in the place of an i and U+212A in the place of
    a k. *)
Lemma extract_technical_terms_entries :
  forall content t,
    In t (extract_technical_terms word content) ->
    exists alt,
      In alt table_entries
      /\ Forall2 term_char t (list_ascii_of_string alt)
      /\ (plain content -> t = code_points (PyStr.upper alt)).
Proof.
  intros content t Hin. unfold extract_technical_terms in Hin.
  apply in_flat_map in Hin as [alts [Halts Hin]].
  apply in_map_iff in Hin as [m [<- Hin]].
  apply findall_terms_source in Hin as [pre [s' [Hs Hs']]].
  apply match_alternatives_source in Hs' as [alt [rest [Halt Hm]]].
  assert (Hentry : In alt table_entries).
  { unfold table_entries. apply in_concat. now exists alts. }
  destruct (match_literal_chars alt s' m rest (table_is_ascii alt Hentry) Hm)
    as [H1 H2].
  exists alt. split; [exact Hentry|]. split; [exact H1|].
  intros Hplain. apply H2. intros c Hc.
  apply (proj1 (forallb_forall plain_cp content) Hplain).
  rewrite Hs, (match_literal_app _ _ _ _ Hm).
  apply in_or_app. right. apply in_or_app. now left.
Qed.

Hypothesis word_latin1 : forall c : ascii, word (cp c) = Analyzer.is_word c.

Lemma word_boundary_latin1 :
  forall before after,
    word_boundary word (option_map cp before) (option_map cp after)
    = Analyzer.word_boundary before after.
Proof.
  intros [b|] [a|]; unfold word_boundary, Analyzer.word_boundary; simpl;
    now rewrite ?word_latin1.
Qed.

Lemma match_alternatives_latin1 :
  forall alts s,
    (forall alt, In alt alts -> all_chars is_ascii alt = true) ->
    match_alternatives word alts (code_points s)
    = option_map code_points (Analyzer.match_alternatives alts s).
Proof.
  induction alts as [|alt alts IH]; intros s Ha; simpl; [reflexivity|].
  rewrite (match_literal_latin1 alt s (Ha alt (or_introl eq_refl))).
  assert (IH' := IH s (fun a H => Ha a (or_intror H))).
  destruct (Analyzer.match_literal alt s) as [[m after]|]; [|exact IH'].
  rewrite last_cp_latin1, first_cp_latin1, word_boundary_latin1.
  destruct (Analyzer.word_boundary (last_char m) (Analyzer.first_char after));
    [reflexivity|exact IH'].
Qed.

Lemma findall_terms_latin1 :
  forall alts,
    (forall alt, In alt alts -> all_chars is_ascii alt = true) ->
    forall s before skip,
      findall_terms word alts (option_map cp before) skip (code_points s)
      = map code_points (Analyzer.findall_terms alts before skip s).
Proof.
  intros alts Ha. induction s as [|c r IH]; intros before skip; simpl;
    [reflexivity|].
  destruct skip as [|k]; [|exact (IH (Some c) k)].
  change (Some (cp c)) with (option_map cp (Some c)).
  rewrite word_boundary_latin1.
  destruct (Analyzer.word_boundary before (Some c));
    [|exact (IH (Some c) 0%nat)].
  change (cp c :: code_points r) with (code_points (String c r)).
  rewrite (match_alternatives_latin1 alts (String c r) Ha).
  destruct (Analyzer.match_alternatives alts (String c r)) as [m|]; simpl;
    [|exact (IH (Some c) 0%nat)].
  rewrite length_code_points. f_equal. exact (IH (Some c) _).
Qed.

(** On a content within Latin-1 the terms are those of the analyzer of
    this development, code point by code point. *)
Lemma extract_technical_terms_latin1 :
  forall s,
    extract_technical_terms word (code_points s)
    = map code_points (Analyzer.extract_technical_terms s).
Proof.
  intros s. unfold extract_technical_terms, Analyzer.extract_technical_terms.
  assert (Ha : forall alts, In alts Analyzer.technical_patterns ->
                 forall alt, In alt alts -> all_chars is_ascii alt = true).
  { intros alts Halts alt Halt. apply table_is_ascii.
    unfold table_entries. apply in_concat. now exists alts. }
  induction Analyzer.technical_patterns as [|alts l IH]; simpl;
    [reflexivity|].
  rewrite map_app. f_equal.
  - pose proof (findall_terms_latin1 alts (Ha alts (or_introl eq_refl))
                  s None 0%nat) as Hf.
    cbn [option_map] in Hf. rewrite Hf, !map_map. apply map_ext. intros m. apply upper_latin1.
  - apply IH. intros alts' H. apply Ha. now right.
Qed.

End FindallFacts.

End UnicodeFacts.

Section AnalysisExtraClaims.
Import PyStr Playwright Props Examples Analyzer AnalyzerFacts.
Import AnalysisFacts TermFacts InsightFacts.

(** X11.  Every technical term extracted from a content, on arbitrary
    code points, is place by place the upper-case form of an entry of the
    pattern table, except that U+0130 may stand for the I of the entry and
    U+212A for its K.  On a content without these two code points the term
    is the upper-case form of the entry; a content within Latin-1 is such a
    content, and on it the terms are those that [extract_technical_terms]
    of the analyzer gives. *)
Theorem X11_terms_are_table_entries :
  (forall word content t,
      In t (UnicodeTerms.extract_technical_terms word content) ->
      exists alt,
        In alt (concat technical_patterns)
        /\ Forall2 UnicodeTerms.term_char t (list_ascii_of_string alt)
        /\ (UnicodeTerms.plain content ->
            t = UnicodeTerms.code_points (upper alt)))
  /\ (forall word s,
        (forall c : ascii, word (UnicodeTerms.cp c) = is_word c) ->
        UnicodeTerms.plain (UnicodeTerms.code_points s)
        /\ UnicodeTerms.extract_technical_terms word
             (UnicodeTerms.code_points s)
           = map UnicodeTerms.code_points (extract_technical_terms s)).
Proof.
  split.
  - intros word content t Hin.
    exact (UnicodeFacts.extract_technical_terms_entries word content t Hin).
  - intros word s Hword. split.
    + apply UnicodeFacts.code_points_plain.
    + now apply UnicodeFacts.extract_technical_terms_latin1.
Qed.

Lemma X11_witness :
  In [ 68; 79; 67; 75; 69; 82 ]%N
     (UnicodeTerms.extract_technical_terms UnicodeTerms.word_of_examples
        (UnicodeTerms.code_points "we deploy with docker and Python"))
  /\ exists alt,
       In alt (concat technical_patterns)
       /\ [ 68; 79; 67; 75; 69; 82 ]%N
          = UnicodeTerms.code_points (upper alt)
          /\ UnicodeTerms.extract_technical_terms
               UnicodeTerms.word_of_examples
               (UnicodeTerms.code_points "we deploy with docker and Python")
             = map UnicodeTerms.code_points
                 (extract_technical_terms "we deploy with docker and Python").
Proof.
  assert (Hin : In [ 68; 79; 67; 75; 69; 82 ]%N
                  (UnicodeTerms.extract_technical_terms
                     UnicodeTerms.word_of_examples
                     (UnicodeTerms.code_points
                        "we deploy with docker and Python")))
    by (vm_compute; left; reflexivity).
  split; [exact Hin|].
  destruct (proj1 X11_terms_are_table_entries _ _ _ Hin)
    as [alt [Halt [_ Hplain]]].
  exists alt. split; [exact Halt|]. split.
  - apply Hplain. vm_compute. reflexivity.
  - exact (proj2 (proj2 X11_terms_are_table_entries
                    UnicodeTerms.word_of_examples
                    "we deploy with docker and Python"
                    UnicodeFacts.word_of_examples_latin1)).
Defined.

(** The term of a content that writes GITHUB with U+0130 is not the
    upper-case form of an entry of the table. *)
Remark term_with_dotted_I :
  UnicodeTerms.extract_technical_terms UnicodeTerms.word_of_examples
    [ 71; 304; 84; 72; 85; 66 ]%N
  = [ [ 71; 304; 84; 72; 85; 66 ]%N ]
  /\ forall alt,
       In alt (concat technical_patterns) ->
       [ 71; 304; 84; 72; 85; 66 ]%N
       <> UnicodeTerms.code_points (upper alt).
Proof.
  split; [vm_compute; reflexivity|].
  intros alt Hin Heq.
  assert (H : forallb
                (fun alt =>
                   negb (forallb (fun c => (c <? 256)%N)
                           [ 71; 304; 84; 72; 85; 66 ]%N)
                   && forallb (fun c => (c <? 256)%N)
                        (UnicodeTerms.code_points (upper alt)))
                (concat technical_patterns) = true)
    by (vm_compute; reflexivity).
  rewrite forallb_forall in H. specialize (H alt Hin).
  rewrite <- Heq in H. vm_compute in H. discriminate H.
Qed.

(** X12.  The topics of a content are names of the topic table, each at most
    once, at most twelve; a topic is among them exactly when one of its
    keywords occurs in the lower-cased content. *)
Theorem X12_topics_are_table_names :
  forall content,
    NoDup (extract_topics content)
    /\ incl (extract_topics content) (map fst topic_keywords)
    /\ List.length (extract_topics content) <= 12
    /\ (forall topic,
          In topic (extract_topics content)
          <-> exists keywords,
                In (topic, keywords) topic_keywords
                /\ any_in keywords (lower content) = true).
Proof.
  intros content. unfold extract_topics. split; [|split; [|split]].
  - apply NoDup_map_filter. exact topic_names_NoDup.
  - intros t Hin. apply in_map_iff in Hin as [e [<- He]].
    apply filter_In in He as [He _]. now apply in_map.
  - rewrite length_map.
    etransitivity; [apply filter_length_le|]. simpl. lia.
  - intros topic. rewrite in_map_iff. split.
    + intros [[t ks] [<- He]]. apply filter_In in He as [He Hk].
      now exists ks.
    + intros [ks [He Hk]]. exists (topic, ks). split; [reflexivity|].
      apply filter_In. now split.
Qed.

(** X13.  The insights of an analysis are between one and five sentences,
    all different; exactly one of them is about the number of technical
    terms, and one is about the share of user messages exactly when the
    message count is positive. *)
Theorem X13_insights_are_one_to_five :
  forall a,
    1 <= List.length (generate_insights a) <= 5
    /\ NoDup (generate_insights a)
    /\ List.length
         (filter (fun i => mem i complexity_insights) (generate_insights a))
       = 1
    /\ List.length
         (filter (fun i => mem i distribution_insights) (generate_insights a))
       = (if (0 <? total_messages a)%Z then 1 else 0).
Proof.
  intros a. pose proof (generate_insights_well_formed a) as H.
  unfold well_formed_insights in H.
  repeat (apply andb_true_iff in H; destruct H as [H ?]).
  repeat split.
  - now apply Nat.leb_le.
  - now apply Nat.leb_le.
  - now apply distinct_NoDup.
  - now apply Nat.eqb_eq.
  - now apply Nat.eqb_eq.
Qed.

(** X14.  In the analysis of a conversation that has messages, the minimum
    and the maximum length are lengths of messages, and the average and the
    median length lie between them. *)
Theorem X14_length_statistics_are_consistent :
  forall order data,
    messages_of data <> [] ->
    exists lo hi med,
      min_message_length (analyze order data) = Some lo
      /\ max_message_length (analyze order data) = Some hi
      /\ median_message_length (analyze order data) = Some med
      /\ In lo (message_lengths (analyze order data))
      /\ In hi (message_lengths (analyze order data))
      /\ (inject_Z (Z.of_nat lo)
          <= avg_message_length (analyze order data))%Q
      /\ (avg_message_length (analyze order data)
          <= inject_Z (Z.of_nat hi))%Q
      /\ (inject_Z (Z.of_nat lo) <= med)%Q
      /\ (med <= inject_Z (Z.of_nat hi))%Q.
Proof.
  intros order data Hne. unfold analyze. simpl.
  destruct (fold_analyze_message_lists (messages_of data)
              (initial_analysis data)) as [Hl _].
  simpl in Hl. rewrite Hl.
  set (lengths := map (fun m => String.length (content_of m))
                      (messages_of data)).
  assert (Hlen : lengths <> []).
  { unfold lengths. destruct (messages_of data); [congruence|discriminate]. }
  assert (Hpos : Nat.eqb (List.length lengths) 0 = false).
  { destruct lengths; [congruence|reflexivity]. }
  rewrite Hpos. simpl.
  exists (minimum lengths), (maximum lengths), (median lengths).
  destruct (mean_bounds lengths Hlen) as [Hm1 Hm2].
  destruct (median_bounds lengths Hlen) as [Hd1 Hd2].
  repeat split; try assumption.
  - now apply minimum_In.
  - now apply maximum_In.
Qed.

Lemma X14_witness :
  messages_of three_senders <> []
  /\ min_message_length (analyze first_seen_order three_senders) = Some 15
  /\ max_message_length (analyze first_seen_order three_senders) = Some 30
  /\ exists lo hi med,
       min_message_length (analyze first_seen_order three_senders) = Some lo
       /\ max_message_length (analyze first_seen_order three_senders)
          = Some hi
       /\ median_message_length (analyze first_seen_order three_senders)
          = Some med
       /\ (inject_Z (Z.of_nat lo) <= med)%Q
       /\ (med <= inject_Z (Z.of_nat hi))%Q.
Proof.
  assert (Hne : messages_of three_senders <> []) by discriminate.
  split; [exact Hne|]. split; [vm_compute; reflexivity|].
  split; [vm_compute; reflexivity|].
  destruct (X14_length_statistics_are_consistent first_seen_order
              three_senders Hne)
    as [lo [hi [med [H1 [H2 [H3 [_ [_ [_ [_ [H8 H9]]]]]]]]]]].
  exists lo, hi, med. repeat split; assumption.
Defined.

Lemma no_user_no_question :
  forall msgs,
    count_messages is_user msgs = 0 -> sum (map questions_of msgs) = 0.
Proof.
  unfold count_messages.
  induction msgs as [|m l IH]; simpl; intros Hu; [reflexivity|].
  unfold questions_of at 1.
  destruct (is_user m); [discriminate Hu|]. simpl. now apply IH.
Qed.

(** X15.  The analysis holds one length and one flow entry for each message,
    in the order of the messages; the code blocks are counted over all the
    messages, the question marks over the user messages only. *)
Theorem X15_one_entry_per_message :
  forall order data,
    message_lengths (analyze order data)
    = map (fun m => String.length (content_of m)) (messages_of data)
    /\ conversation_flow (analyze order data)
       = map flow_of (messages_of data)
    /\ code_blocks (analyze order data)
       = sum (map (fun m => count_code_blocks (content_of m))
                  (messages_of data))
    /\ questions_asked (analyze order data)
       = sum (map questions_of (messages_of data))
    /\ (count_messages is_user (messages_of data) = 0 ->
        questions_asked (analyze order data) = 0).
Proof.
  intros order data. unfold analyze. simpl.
  destruct (fold_analyze_message_lists (messages_of data)
              (initial_analysis data)) as [H1 [H2 [_ [_ [H5 [H6 _]]]]]].
  simpl in *. rewrite H1, H2, H5, H6.
  repeat split. apply no_user_no_question.
Qed.

Lemma X15_witness :
  count_messages is_user (messages_of one_answer) = 0
  /\ questions_asked (analyze first_seen_order one_answer) = 0
  /\ message_lengths (analyze first_seen_order three_senders) = [15; 30; 16].
Proof.
  split; [reflexivity|]. split.
  - exact (proj2 (proj2 (proj2 (proj2
             (X15_one_entry_per_message first_seen_order one_answer))))
             eq_refl).
  - vm_compute. reflexivity.
Defined.

End AnalysisExtraClaims.

(* ================================================================= *)
(** ** Further code and properties of the corpus summary *)

Module Driver.
Import PyStr Playwright Analyzer.

(** The loop [for json_file in json_files] of [analyze_all_conversations]:
    an exception of one analysis leaves the loop. *)
Fixpoint analyze_files (self : ConversationAnalyzer)
  (json_files : list string) (w : World) : outcome (list analysis) :=
  match json_files with
  | [] => Returned []
  | json_file :: rest =>
      match fst (analyze_conversation self json_file w) with
      | Raised => Raised
      | Returned analysis =>
          match analyze_files self rest w with
          | Raised => Raised
          | Returned all_analyses => Returned (analysis :: all_analyses)
          end
      end
  end.

(** [analyze_all_conversations], for the list [json_files] that the glob
    [structured_*.json] gives: [None] without files, else the summary and
    the analyses.  [saved] is the outcome of writing the analysis file
    [conversation_analysis_<timestamp>.json], which comes after the summary
    and before the return. *)
Definition analyze_all_conversations (self : ConversationAnalyzer)
  (json_files : list string) (w : World) (saved : outcome unit)
  : outcome (option (report * list analysis)) :=
  match json_files with
  | [] => Returned None
  | _ :: _ =>
      match analyze_files self json_files w with
      | Raised => Raised
      | Returned all_analyses =>
          let summary := generate_summary_report all_analyses in
          match saved with
          | Raised => Raised
          | Returned _ => Returned (Some (summary, all_analyses))
          end
      end
  end.

End Driver.

Module SummaryFacts.
Import PyStr Playwright Props Analyzer AnalyzerFacts CounterFacts Driver.

Lemma count_of_In :
  forall c k n,
    NoDup (map fst c) -> In (k, n) c -> count_of k c = n.
Proof.
  induction c as [|[k0 n0] r IH]; intros k n Hnd Hin; [contradiction|].
  simpl in *. inversion Hnd as [|? ? Hk0 Hr]; subst.
  destruct Hin as [Heq|Hin].
  - injection Heq as -> ->. now rewrite String.eqb_refl.
  - destruct (String.eqb_spec k0 k) as [->|_]; [|now apply IH].
    exfalso. apply Hk0. apply in_map_iff. now exists (k, n).
Qed.

Lemma Counter_keys_NoDup :
  forall items, NoDup (map fst (Counter items)).
Proof. intros. rewrite keys_Counter. apply first_seen_NoDup. Qed.

Lemma counts_count_one :
  forall c key,
    sum (map snd (count_one key c)) = S (sum (map snd c)).
Proof.
  induction c as [|[k n] r IH]; intros key; simpl; [reflexivity|].
  destruct (String.eqb k key); simpl; [reflexivity|].
  rewrite IH. unfold sum. simpl. lia.
Qed.

Lemma counts_fold :
  forall items c,
    sum (map snd (fold_left step items c))
    = sum (map snd c) + List.length items.
Proof.
  induction items as [|x r IH]; intros c; simpl; [lia|].
  rewrite IH. unfold step. rewrite counts_count_one. lia.
Qed.

Lemma strongly_sorted_app :
  forall (A : Type) (R : A -> A -> Prop) (l1 l2 : list A),
    StronglySorted R (l1 ++ l2) ->
    forall x y, In x l1 -> In y l2 -> R x y.
Proof.
  intros A R. induction l1 as [|a l1 IH]; intros l2 H x y Hx Hy;
    [contradiction|].
  simpl in H. inversion H as [|? ? Hs Hf]; subst.
  destruct Hx as [<-|Hx].
  - rewrite Forall_forall in Hf. apply Hf. apply in_or_app. now right.
  - eapply IH; eassumption.
Qed.

Lemma sum_perm :
  forall l l', Permutation l l' -> sum l = sum l'.
Proof.
  unfold sum. induction 1; simpl; lia.
Qed.

Lemma Zsum_perm :
  forall l l', Permutation l l' -> Zsum l = Zsum l'.
Proof.
  unfold Zsum. induction 1; simpl; lia.
Qed.

Lemma count_of_Counter_perm :
  forall l l' key,
    Permutation l l' -> count_of key (Counter l) = count_of key (Counter l').
Proof.
  intros l l' key H. rewrite !count_of_Counter.
  now apply Permutation_count_occ.
Qed.

Lemma analyze_files_length :
  forall self json_files w analyses,
    analyze_files self json_files w = Returned analyses ->
    List.length analyses = List.length json_files.
Proof.
  intros self. induction json_files as [|f rest IH]; intros w analyses H;
    simpl in H.
  - now injection H as <-.
  - destruct (fst (analyze_conversation self f w)); [|discriminate].
    destruct (analyze_files self rest w) as [l|] eqn:Hr; [|discriminate].
    injection H as <-. simpl. f_equal. now apply (IH w).
Qed.

Lemma analyze_files_raised :
  forall self json_files w,
    analyze_files self json_files w = Raised
    <-> exists json_file,
          In json_file json_files /\ files w json_file = None.
Proof.
  intros self. induction json_files as [|f rest IH]; intros w; simpl.
  - split; [discriminate|]. intros [x [[] _]].
  - unfold analyze_conversation at 1.
    destruct (files w f) as [data|] eqn:Hf; simpl.
    + destruct (analyze_files self rest w) as [l|] eqn:Hr.
      * split; [discriminate|]. intros [x [[<-|Hin] Hx]]; [congruence|].
        assert (Hex : exists j, In j rest /\ files w j = None)
          by now exists x.
        apply IH in Hex. congruence.
      * split; [|reflexivity]. intros _.
        destruct (proj1 (IH w) Hr) as [x [Hin Hx]].
        exists x. split; [now right|exact Hx].
    + split; [|reflexivity]. intros _. exists f. split; [now left|exact Hf].
Qed.

End SummaryFacts.

Section SummaryExtraClaims.
Import PyStr Playwright Props Examples Analyzer AnalyzerFacts CounterFacts.
Import Driver SummaryFacts.

(** X16.  A counter has one entry for each distinct item: its keys are the
    items, without duplicates; the count of an entry is the number of
    occurrences of its key, at least one; and the counts add up to the
    number of items. *)
Theorem X16_counter_counts_occurrences :
  forall items,
    NoDup (map fst (Counter items))
    /\ (forall key, In key (map fst (Counter items)) <-> In key items)
    /\ (forall key n,
          In (key, n) (Counter items) ->
          n = count_occ string_dec items key /\ 1 <= n)
    /\ sum (map snd (Counter items)) = List.length items.
Proof.
  intros items. split; [apply Counter_keys_NoDup|]. split; [|split].
  - intros key. rewrite keys_Counter. apply first_seen_In.
  - intros key n Hin.
    assert (Hn : n = count_occ string_dec items key).
    { rewrite <- count_of_Counter. symmetry.
      apply count_of_In; [apply Counter_keys_NoDup|exact Hin]. }
    split; [exact Hn|].
    assert (Hk : In key items).
    { apply first_seen_In. rewrite <- keys_Counter.
      apply in_map_iff. now exists (key, n). }
    apply (count_occ_In string_dec) in Hk. lia.
  - change (Counter items) with (fold_left step items []).
    now rewrite counts_fold.
Qed.

Lemma X16_witness :
  In ("PYTHON", 2) (Counter [ "PYTHON"; "DOCKER"; "PYTHON" ])
  /\ Counter [ "PYTHON"; "DOCKER"; "PYTHON" ]
     = [ ("PYTHON", 2); ("DOCKER", 1) ]
  /\ 2 = count_occ string_dec [ "PYTHON"; "DOCKER"; "PYTHON" ] "PYTHON".
Proof.
  assert (Hin : In ("PYTHON", 2) (Counter [ "PYTHON"; "DOCKER"; "PYTHON" ]))
    by (vm_compute; left; reflexivity).
  split; [exact Hin|]. split; [vm_compute; reflexivity|].
  exact (proj1 (proj1 (proj2 (proj2
           (X16_counter_counts_occurrences
              [ "PYTHON"; "DOCKER"; "PYTHON" ]))) "PYTHON" 2 Hin)).
Defined.

(** X17.  [most_common n] returns at most [n] entries of the counter, in
    decreasing order of count; no entry left out has a larger count than an
    entry returned, and nothing is left out when the counter has at most
    [n] entries. *)
Theorem X17_most_common_dominates :
  forall n items,
    List.length (most_common n (Counter items)) <= n
    /\ incl (most_common n (Counter items)) (Counter items)
    /\ descending (most_common n (Counter items))
    /\ (forall e e',
          In e (most_common n (Counter items)) ->
          In e' (Counter items) ->
          ~ In e' (most_common n (Counter items)) ->
          snd e' <= snd e)
    /\ (List.length (Counter items) <= n ->
        Permutation (most_common n (Counter items)) (Counter items)).
Proof.
  intros n items. unfold most_common.
  set (c := Counter items).
  pose proof (sort_by_count_perm c) as Hp.
  pose proof (sort_by_count_descending c) as Hd.
  rewrite <- (firstn_skipn n (sort_by_count c)) in Hp, Hd.
  split; [apply firstn_le_length|]. split; [|split; [|split]].
  - intros e He. eapply Permutation_in; [exact Hp|].
    apply in_or_app. now left.
  - unfold descending in *. clear Hp.
    induction (firstn n (sort_by_count c)) as [|x l IH]; [constructor|].
    simpl in Hd. inversion Hd as [|? ? Hs Hf]; subst.
    constructor; [now apply IH|].
    rewrite Forall_forall in *. intros y Hy. apply Hf.
    apply in_or_app. now left.
  - intros e e' He He' Hn.
    assert (Hs : In e' (firstn n (sort_by_count c)
                        ++ skipn n (sort_by_count c)))
      by (eapply Permutation_in; [symmetry; exact Hp|exact He']).
    apply in_app_or in Hs as [Hs|Hs]; [contradiction|].
    exact (strongly_sorted_app _ _ _ _ Hd e e' He Hs).
  - intros Hlen.
    rewrite firstn_all2
      by (rewrite (Permutation_length (sort_by_count_perm c)); exact Hlen).
    apply sort_by_count_perm.
Qed.

Lemma X17_witness :
  most_common 1 (Counter [ "PYTHON"; "DOCKER"; "PYTHON" ])
  = [ ("PYTHON", 2) ]
  /\ snd ("DOCKER", 1) <= snd ("PYTHON", 2)
  /\ Permutation (most_common 10 (Counter [ "PYTHON"; "DOCKER"; "PYTHON" ]))
       (Counter [ "PYTHON"; "DOCKER"; "PYTHON" ]).
Proof.
  split; [vm_compute; reflexivity|]. split.
  - apply (proj1 (proj2 (proj2 (proj2
             (X17_most_common_dominates 1
                [ "PYTHON"; "DOCKER"; "PYTHON" ]))))
             ("PYTHON", 2) ("DOCKER", 1)).
    + vm_compute. left. reflexivity.
    + vm_compute. right. left. reflexivity.
    + vm_compute. intros [H|[]]. discriminate H.
  - apply (proj2 (proj2 (proj2 (proj2
             (X17_most_common_dominates 10
                [ "PYTHON"; "DOCKER"; "PYTHON" ]))))).
    vm_compute. lia.
Defined.

(** X18.  The totals of the summary and the count of every term, topic and
    insight do not depend on the order of the analyses, whatever their
    number; the counts of two lists of analyses put together are the sums
    of their counts. *)
Theorem X18_summary_counts_are_order_independent :
  (forall analyses analyses',
      Permutation analyses analyses' ->
      field total_conversations (generate_summary_report analyses)
      = field total_conversations (generate_summary_report analyses')
      /\ field s_total_messages (generate_summary_report analyses)
         = field s_total_messages (generate_summary_report analyses')
      /\ field total_user_messages (generate_summary_report analyses)
         = field total_user_messages (generate_summary_report analyses')
      /\ field total_assistant_messages (generate_summary_report analyses)
         = field total_assistant_messages
             (generate_summary_report analyses')
      /\ field avg_messages_per_conversation
           (generate_summary_report analyses)
         = field avg_messages_per_conversation
             (generate_summary_report analyses')
      /\ (forall key,
            count_of key (term_frequency analyses)
            = count_of key (term_frequency analyses'))
      /\ (forall key,
            count_of key (topic_frequency analyses)
            = count_of key (topic_frequency analyses'))
      /\ (forall key,
            count_of key (insight_frequency analyses)
            = count_of key (insight_frequency analyses')))
  /\ (forall l1 l2 key,
        count_of key (term_frequency (l1 ++ l2))
        = count_of key (term_frequency l1)
          + count_of key (term_frequency l2)
        /\ count_of key (topic_frequency (l1 ++ l2))
           = count_of key (topic_frequency l1)
             + count_of key (topic_frequency l2)
        /\ count_of key (insight_frequency (l1 ++ l2))
           = count_of key (insight_frequency l1)
             + count_of key (insight_frequency l2)).
Proof.
  split.
  - intros analyses analyses' Hp.
    assert (Hlen := Permutation_length Hp).
    assert (Hz := Zsum_perm _ _ (Permutation_map total_messages Hp)).
    assert (Hu := sum_perm _ _ (Permutation_map user_messages Hp)).
    assert (Ha := sum_perm _ _ (Permutation_map assistant_messages Hp)).
    assert (Hfields :
      field total_conversations (generate_summary_report analyses)
      = field total_conversations (generate_summary_report analyses')
      /\ field s_total_messages (generate_summary_report analyses)
         = field s_total_messages (generate_summary_report analyses')
      /\ field total_user_messages (generate_summary_report analyses)
         = field total_user_messages (generate_summary_report analyses')
      /\ field total_assistant_messages (generate_summary_report analyses)
         = field total_assistant_messages
             (generate_summary_report analyses')
      /\ field avg_messages_per_conversation
           (generate_summary_report analyses)
         = field avg_messages_per_conversation
             (generate_summary_report analyses')).
    { destruct analyses as [|a l], analyses' as [|a' l'];
        try discriminate Hlen; [repeat split|].
      unfold generate_summary_report, field.
      cbn [total_conversations s_total_messages total_user_messages
           total_assistant_messages avg_messages_per_conversation].
      rewrite Hlen, Hz, Hu, Ha. repeat split. }
    destruct Hfields as [H1 [H2 [H3 [H4 H5]]]].
    repeat split; try assumption; intros key;
      apply count_of_Counter_perm;
      unfold all_technical_terms, all_topics, all_insights;
      now apply Permutation_flat_map.
  - intros l1 l2 key.
    unfold term_frequency, topic_frequency, insight_frequency,
      all_technical_terms, all_topics, all_insights.
    rewrite !flat_map_app, !count_of_Counter, !count_occ_app.
    repeat split.
Qed.

Lemma X18_witness :
  Permutation
    [ analyze first_seen_order one_question;
      analyze first_seen_order one_answer;
      analyze first_seen_order three_senders ]
    [ analyze first_seen_order three_senders;
      analyze first_seen_order one_question;
      analyze first_seen_order one_answer ]
  /\ field s_total_messages
       (generate_summary_report
          [ analyze first_seen_order one_question;
            analyze first_seen_order one_answer;
            analyze first_seen_order three_senders ])
     = field s_total_messages
         (generate_summary_report
            [ analyze first_seen_order three_senders;
              analyze first_seen_order one_question;
              analyze first_seen_order one_answer ]).
Proof.
  assert (Hp : Permutation
                 [ analyze first_seen_order one_question;
                   analyze first_seen_order one_answer;
                   analyze first_seen_order three_senders ]
                 [ analyze first_seen_order three_senders;
                   analyze first_seen_order one_question;
                   analyze first_seen_order one_answer ]).
  { apply Permutation_sym.
    apply (Permutation_cons_app
             [ analyze first_seen_order one_question;
               analyze first_seen_order one_answer ] []).
    rewrite app_nil_r. apply Permutation_refl. }
  split; [exact Hp|].
  exact (proj1 (proj2 (proj1 X18_summary_counts_are_order_independent
                         _ _ Hp))).
Defined.

(** X19.  [analyze_all_conversations] returns nothing when there is no
    file, whether or not a file could be written; with files it returns,
    when all of them can be read and the analysis file is written, one
    analysis for each file and a summary that is never the empty dict and
    counts as many conversations as there are files; it raises exactly
    when one of the files cannot be read or the analysis file cannot be
    written. *)
Theorem X19_summary_of_all_files :
  forall self json_files w saved,
    (analyze_all_conversations self json_files w saved = Returned None
     <-> json_files = [])
    /\ (forall summary analyses,
          analyze_all_conversations self json_files w saved
          = Returned (Some (summary, analyses)) ->
          List.length analyses = List.length json_files
          /\ summary = generate_summary_report analyses
          /\ summary <> EmptyDict
          /\ field total_conversations summary
             = Some (List.length json_files)
          /\ field conversation_titles summary
             = Some (map a_title analyses))
    /\ (json_files <> [] ->
        (forall json_file, In json_file json_files ->
                           files w json_file <> None) ->
        saved = Returned tt ->
        exists analyses,
          analyze_all_conversations self json_files w saved
          = Returned (Some (generate_summary_report analyses, analyses)))
    /\ (analyze_all_conversations self json_files w saved = Raised
        <-> json_files <> []
            /\ ((exists json_file,
                   In json_file json_files /\ files w json_file = None)
                \/ saved = Raised)).
Proof.
  intros self json_files w saved. split; [|split; [|split]].
  - destruct json_files as [|f rest]; [now split|].
    split; [|discriminate]. unfold analyze_all_conversations.
    destruct (analyze_files self (f :: rest) w); [|discriminate].
    destruct saved; discriminate.
  - intros summary analyses H. unfold analyze_all_conversations in H.
    destruct json_files as [|f rest]; [discriminate|].
    destruct (analyze_files self (f :: rest) w) as [l|] eqn:Hl;
      [|discriminate].
    destruct saved; [|discriminate].
    injection H as <- <-.
    pose proof (analyze_files_length _ _ _ _ Hl) as Hlen.
    split; [exact Hlen|]. split; [reflexivity|].
    destruct l as [|a0 l]; [discriminate Hlen|].
    split; [discriminate|]. simpl field. split; [|reflexivity].
    f_equal. exact Hlen.
  - intros Hne Hall ->. unfold analyze_all_conversations.
    destruct json_files as [|f rest]; [contradiction|].
    destruct (analyze_files self (f :: rest) w) as [l|] eqn:Hl.
    + now exists l.
    + apply analyze_files_raised in Hl as [x [Hin Hx]].
      now destruct (Hall x Hin).
  - unfold analyze_all_conversations.
    destruct json_files as [|f rest].
    + split; [discriminate|]. now intros [H _].
    + rewrite <- analyze_files_raised with (self := self).
      destruct (analyze_files self (f :: rest) w) as [l|].
      * destruct saved as [u|].
        -- split; [discriminate|]. intros [_ [H|H]]; discriminate.
        -- split; [|reflexivity]. intros _.
           split; [discriminate|now right].
      * split; [|reflexivity]. intros _.
        split; [discriminate|now left].
Qed.

Lemma X19_witness :
  exists analyses,
    analyze_all_conversations {| extracts_dir := "gemini_extracts" |}
      [ "structured_a.json"; "structured_b.json" ]
      {| files := fun _ => Some three_senders;
         set_order := first_seen_order |}
      (Returned tt)
    = Returned (Some (generate_summary_report analyses, analyses))
    /\ List.length analyses = 2
    /\ field total_conversations (generate_summary_report analyses)
       = Some 2.
Proof.
  destruct (proj1 (proj2 (proj2
             (X19_summary_of_all_files
                {| extracts_dir := "gemini_extracts" |}
                [ "structured_a.json"; "structured_b.json" ]
                {| files := fun _ => Some three_senders;
                   set_order := first_seen_order |}
                (Returned tt))))
             ltac:(discriminate)
             ltac:(intros ? _; discriminate)
             eq_refl) as [analyses H].
  exists analyses. split; [exact H|].
  destruct (proj1 (proj2
             (X19_summary_of_all_files
                {| extracts_dir := "gemini_extracts" |}
                [ "structured_a.json"; "structured_b.json" ]
                {| files := fun _ => Some three_senders;
                   set_order := first_seen_order |}
                (Returned tt)))
             _ _ H) as [H1 [_ [_ [H4 _]]]].
  split; [exact H1|exact H4].
Defined.

End SummaryExtraClaims.

(* ================================================================= *)
(** ** From the structured extractor to the analyzer *)

Module PipelineFacts.
Import PyStr Props Analyzer AnalyzerFacts.

(** A saved message whose sender is "user" or "assistant" is not counted
    as unknown by the analyzer. *)
Lemma no_unknown_sender :
  forall msgs,
    (forall m, In m msgs ->
               Enhanced.sender m = "user"
               \/ Enhanced.sender m = "assistant") ->
    count_messages is_unknown (map load_message msgs) = 0.
Proof.
  unfold count_messages.
  induction msgs as [|m msgs IH]; intros H; simpl; [reflexivity|].
  assert (Hm : is_unknown (load_message m) = false).
  { unfold is_unknown, is_user, is_assistant, sender_of, load_message.
    simpl. destruct (H m (or_introl eq_refl)) as [-> | ->]; reflexivity. }
  rewrite Hm. apply IH. intros m' Hin. apply H. now right.
Qed.

(** The flow of an analysis has one entry for each message. *)
Lemma conversation_flow_length :
  forall order data,
    List.length (conversation_flow (analyze order data))
    = List.length (messages_of data).
Proof.
  intros order data. unfold analyze. simpl.
  destruct (AnalysisFacts.fold_analyze_message_lists (messages_of data)
              (initial_analysis data)) as [_ [H2 _]].
  simpl in *. rewrite H2. apply length_map.
Qed.

End PipelineFacts.

Section PipelineExtraClaims.
Import PyStr Props Examples Analyzer AnalyzerFacts ExtractorFacts.
Import PipelineFacts.

(** X20.  A conversation saved by the structured extractor and then read
    by the analyzer has no message of an unknown sender: the total of the
    analysis is the number of messages parsed from the page, it is the
    number of user messages plus the number of assistant messages, and the
    flow of the analysis has that many entries. *)
Theorem X20_saved_conversation_has_no_unknown_sender :
  forall lib soup title url order,
    let saved :=
      Enhanced.extract_conversation_with_structure lib soup title url in
    let analysis := analyze order (load_saved saved) in
    total_messages analysis
    = Z.of_nat (List.length (Enhanced.parse_conversation_structure lib soup))
    /\ total_messages analysis
       = Z.of_nat (user_messages analysis + assistant_messages analysis)
    /\ List.length (conversation_flow analysis)
       = user_messages analysis + assistant_messages analysis.
Proof.
  intros lib soup title url order saved analysis.
  destruct (analyze_counts order (load_saved saved)) as [Ht [Hu Ha]].
  fold analysis in Ht, Hu, Ha.
  set (msgs := Enhanced.parse_conversation_structure lib soup).
  assert (Hmsgs : messages_of (load_saved saved) = map load_message msgs)
    by reflexivity.
  assert (Hsum : List.length msgs
                 = user_messages analysis + assistant_messages analysis).
  { rewrite Hu, Ha, Hmsgs.
    rewrite <- (length_map load_message msgs).
    rewrite (sender_classes_partition (map load_message msgs)).
    rewrite no_unknown_sender; [lia|].
    intros m Hin.
    destruct (parse_conversation_structure_senders lib soup m Hin)
      as [[H _]|[H _]]; [now left|now right]. }
  assert (Htot : total_messages analysis = Z.of_nat (List.length msgs)).
  { rewrite Ht. reflexivity. }
  split; [exact Htot|]. split; [now rewrite Htot, Hsum|].
  rewrite <- Hsum. unfold analysis.
  rewrite conversation_flow_length, Hmsgs. apply length_map.
Qed.

End PipelineExtraClaims.
